(** * photo-distributor: the tenant-scoped relational model and its route handlers

    A shallow embedding of the Remix route handlers (loaders and actions) of
    the event-photo platform and of the Prisma schema they run against.

    - A row of every model the handlers touch is a record; the database is a
      record of tables, each a list of rows in insertion order.
    - [prisma.<model>.<call>] are functions on the store.  The constraints a
      write checks ([@id], [@unique], [@@unique], foreign keys) and the rows a
      delete takes with it or nulls ([onDelete: Cascade | SetNull]) are the
      ones prisma/schema.prisma declares.
    - A handler is a function from the request and the world (store plus the
      log of calls to the storage and compute stubs) to a response and the
      new world.  [console.log] and [console.error] are not modelled.
    - What the JavaScript runtime and the libraries compute on strings
      ([Date.parse], date-fns [format], zod's e-mail pattern, [bcrypt.compare])
      is a parameter, the class [Runtime].

    The billing models (SubscriptionPlan, Subscription, Payment, Invoice) and
    EventCategory are read or written by no handler and are left out; so are
    the Organization columns other than [id] and [name]. *)

From stdpp Require Import base option list strings gmap sorting pretty.
From Stdlib Require Import ZArith Ascii.

Local Open Scope Z_scope.
Local Open Scope string_scope.

#[local] Set Warnings "-register-all".

(** ** Column types *)

(** [String @id @default(cuid())] *)
Abbreviation Id := string (only parsing).
(** [DateTime]: milliseconds since the epoch, as [Date.getTime] gives them. *)
Abbreviation DateTime := Z (only parsing).
(** [Float?]: carried, never computed with. *)
Abbreviation Float := Z (only parsing).

Module Role.
Inductive t := ORGANIZATION_ADMIN | ORGANIZATION_EDITOR | ORGANIZATION_VIEWER | INDIVIDUAL_USER.

#[global] Instance Role_eq_dec : EqDecision t.
Proof. solve_decision. Defined.
End Role.

Module EventStatus.
Inductive t := DRAFT | UPCOMING | ACTIVE | COMPLETED | ARCHIVED.

#[global] Instance EventStatus_eq_dec : EqDecision t.
Proof. solve_decision. Defined.

Definition to_string (s : t) : string :=
  match s with
  | DRAFT => "DRAFT" | UPCOMING => "UPCOMING" | ACTIVE => "ACTIVE"
  | COMPLETED => "COMPLETED" | ARCHIVED => "ARCHIVED"
  end.

(** [Object.values(EventStatus)] *)
Definition values : list t := [DRAFT; UPCOMING; ACTIVE; COMPLETED; ARCHIVED].

Definition of_string (x : string) : option t :=
  head (filter (λ s, to_string s = x) values).
End EventStatus.

Module PhotoReviewStatus.
Inductive t := PENDING | APPROVED | REJECTED.

#[global] Instance PhotoReviewStatus_eq_dec : EqDecision t.
Proof. solve_decision. Defined.
End PhotoReviewStatus.

Module FaceMatchingTaskStatus.
Inductive t := PENDING | PROCESSING | COMPLETED | FAILED.

#[global] Instance FaceMatchingTaskStatus_eq_dec : EqDecision t.
Proof. solve_decision. Defined.
End FaceMatchingTaskStatus.

Module ConsentType.
Inductive t := PHOTO_STORAGE | FACIAL_RECOGNITION | DATA_SHARING.

#[global] Instance ConsentType_eq_dec : EqDecision t.
Proof. solve_decision. Defined.
End ConsentType.

Module ConsentActionStatus.
Inductive t := GRANTED | REVOKED.

#[global] Instance ConsentActionStatus_eq_dec : EqDecision t.
Proof. solve_decision. Defined.
End ConsentActionStatus.

(** ** Rows (prisma/schema.prisma) *)

Module User.
Record t := {
  id : Id;
  externalSystemId : option string;
  email : string;
  passwordHash : string;
  name : option string;
  profilePhotoUrl : option string;
  role : Role.t;
  createdAt : DateTime;
  updatedAt : DateTime }.

#[global] Instance User_eq_dec : EqDecision t.
Proof. solve_decision. Defined.
End User.

Module Organization.
Record t := { id : Id; name : string }.

#[global] Instance Organization_eq_dec : EqDecision t.
Proof. solve_decision. Defined.
End Organization.

Module OrganizationUser.
Record t := {
  id : Id;
  userId : Id;
  orgId : Id;
  createdAt : DateTime;
  updatedAt : DateTime }.

#[global] Instance OrganizationUser_eq_dec : EqDecision t.
Proof. solve_decision. Defined.
End OrganizationUser.

Module Event.
Record t := {
  id : Id;
  orgId : Id;
  categoryId : option Id;
  name : string;
  dateStart : DateTime;
  dateEnd : option DateTime;
  status : EventStatus.t;
  description : option string;
  locationName : option string;
  locationAddress : option string;
  isPublic : bool;
  createdAt : DateTime;
  updatedAt : DateTime }.

#[global] Instance Event_eq_dec : EqDecision t.
Proof. solve_decision. Defined.
End Event.

Module Participant.
Record t := {
  id : Id;
  eventId : Id;
  userId : option Id;
  name : option string;
  email : option string;
  registrationStatus : option string;
  consentStatus : bool;
  referencePhotoUrl : option string;
  createdAt : DateTime;
  updatedAt : DateTime }.

#[global] Instance Participant_eq_dec : EqDecision t.
Proof. solve_decision. Defined.

(** [user User? @relation(..., onDelete: SetNull)] *)
Definition clear_user (gone : list Id) (p : t) : t :=
  match userId p with
  | Some u =>
      if decide (u ∈ gone) then
        {| id := id p; eventId := eventId p; userId := None; name := name p;
           email := email p; registrationStatus := registrationStatus p;
           consentStatus := consentStatus p;
           referencePhotoUrl := referencePhotoUrl p;
           createdAt := createdAt p; updatedAt := updatedAt p |}
      else p
  | None => p
  end.
End Participant.

Module EventPhoto.
Record t := {
  id : Id;
  eventId : Id;
  uploaderUserId : Id;
  imageUrl : string;
  thumbnailUrl : option string;
  uploadTime : DateTime;
  reviewStatus : PhotoReviewStatus.t;
  isPublic : bool;
  metadata : option string;
  createdAt : DateTime;
  updatedAt : DateTime }.

#[global] Instance EventPhoto_eq_dec : EqDecision t.
Proof. solve_decision. Defined.
End EventPhoto.

Module DetectedFace.
Record t := {
  id : Id;
  photoId : Id;
  boundingBox : string;
  faceDescriptor : option string;
  createdAt : DateTime }.

#[global] Instance DetectedFace_eq_dec : EqDecision t.
Proof. solve_decision. Defined.
End DetectedFace.

Module PhotoParticipantMatch.
Record t := {
  id : Id;
  photoId : Id;
  participantId : Id;
  confidenceScore : option Float;
  matchTime : DateTime;
  createdAt : DateTime }.

#[global] Instance PhotoParticipantMatch_eq_dec : EqDecision t.
Proof. solve_decision. Defined.

(** the columns of [@@unique([photoId, participantId])] *)
Definition pair (m : t) : Id * Id := (photoId m, participantId m).
End PhotoParticipantMatch.

Module FaceMatchingTask.
Record t := {
  id : Id;
  eventId : Id;
  status : FaceMatchingTaskStatus.t;
  startTime : option DateTime;
  completionTime : option DateTime;
  awsRequestId : option string;
  errorDetails : option string;
  createdAt : DateTime;
  updatedAt : DateTime }.

#[global] Instance FaceMatchingTask_eq_dec : EqDecision t.
Proof. solve_decision. Defined.
End FaceMatchingTask.

Module ConsentLog.
Record t := {
  id : Id;
  userId : Id;
  eventId : option Id;
  participantId : option Id;
  type : ConsentType.t;
  status : ConsentActionStatus.t;
  timestamp : DateTime;
  details : option string }.

#[global] Instance ConsentLog_eq_dec : EqDecision t.
Proof. solve_decision. Defined.

(** [event Event? @relation(..., onDelete: SetNull)] *)
Definition clear_event (gone : list Id) (c : t) : t :=
  match eventId c with
  | Some e =>
      if decide (e ∈ gone) then
        {| id := id c; userId := userId c; eventId := None;
           participantId := participantId c; type := type c;
           status := status c; timestamp := timestamp c;
           details := details c |}
      else c
  | None => c
  end.

(** [participant Participant? @relation(..., onDelete: SetNull)] *)
Definition clear_participant (gone : list Id) (c : t) : t :=
  match participantId c with
  | Some p =>
      if decide (p ∈ gone) then
        {| id := id c; userId := userId c; eventId := eventId c;
           participantId := None; type := type c;
           status := status c; timestamp := timestamp c;
           details := details c |}
      else c
  | None => c
  end.
End ConsentLog.

(** ** The store *)

Record Store := {
  users : list User.t;
  organizations : list Organization.t;
  organizationUsers : list OrganizationUser.t;
  events : list Event.t;
  participants : list Participant.t;
  eventPhotos : list EventPhoto.t;
  detectedFaces : list DetectedFace.t;
  photoParticipantMatches : list PhotoParticipantMatch.t;
  faceMatchingTasks : list FaceMatchingTask.t;
  consentLogs : list ConsentLog.t }.

Definition empty_store : Store :=
  {| users := []; organizations := []; organizationUsers := []; events := [];
     participants := []; eventPhotos := []; detectedFaces := [];
     photoParticipantMatches := []; faceMatchingTasks := [];
     consentLogs := [] |}.

Definition with_users v (s : Store) : Store :=
  {| users := v; organizations := organizations s;
     organizationUsers := organizationUsers s; events := events s;
     participants := participants s; eventPhotos := eventPhotos s;
     detectedFaces := detectedFaces s;
     photoParticipantMatches := photoParticipantMatches s;
     faceMatchingTasks := faceMatchingTasks s; consentLogs := consentLogs s |}.

Definition with_organizations v (s : Store) : Store :=
  {| users := users s; organizations := v;
     organizationUsers := organizationUsers s; events := events s;
     participants := participants s; eventPhotos := eventPhotos s;
     detectedFaces := detectedFaces s;
     photoParticipantMatches := photoParticipantMatches s;
     faceMatchingTasks := faceMatchingTasks s; consentLogs := consentLogs s |}.

Definition with_organizationUsers v (s : Store) : Store :=
  {| users := users s; organizations := organizations s;
     organizationUsers := v; events := events s;
     participants := participants s; eventPhotos := eventPhotos s;
     detectedFaces := detectedFaces s;
     photoParticipantMatches := photoParticipantMatches s;
     faceMatchingTasks := faceMatchingTasks s; consentLogs := consentLogs s |}.

Definition with_events v (s : Store) : Store :=
  {| users := users s; organizations := organizations s;
     organizationUsers := organizationUsers s; events := v;
     participants := participants s; eventPhotos := eventPhotos s;
     detectedFaces := detectedFaces s;
     photoParticipantMatches := photoParticipantMatches s;
     faceMatchingTasks := faceMatchingTasks s; consentLogs := consentLogs s |}.

Definition with_participants v (s : Store) : Store :=
  {| users := users s; organizations := organizations s;
     organizationUsers := organizationUsers s; events := events s;
     participants := v; eventPhotos := eventPhotos s;
     detectedFaces := detectedFaces s;
     photoParticipantMatches := photoParticipantMatches s;
     faceMatchingTasks := faceMatchingTasks s; consentLogs := consentLogs s |}.

Definition with_eventPhotos v (s : Store) : Store :=
  {| users := users s; organizations := organizations s;
     organizationUsers := organizationUsers s; events := events s;
     participants := participants s; eventPhotos := v;
     detectedFaces := detectedFaces s;
     photoParticipantMatches := photoParticipantMatches s;
     faceMatchingTasks := faceMatchingTasks s; consentLogs := consentLogs s |}.

Definition with_detectedFaces v (s : Store) : Store :=
  {| users := users s; organizations := organizations s;
     organizationUsers := organizationUsers s; events := events s;
     participants := participants s; eventPhotos := eventPhotos s;
     detectedFaces := v;
     photoParticipantMatches := photoParticipantMatches s;
     faceMatchingTasks := faceMatchingTasks s; consentLogs := consentLogs s |}.

Definition with_photoParticipantMatches v (s : Store) : Store :=
  {| users := users s; organizations := organizations s;
     organizationUsers := organizationUsers s; events := events s;
     participants := participants s; eventPhotos := eventPhotos s;
     detectedFaces := detectedFaces s;
     photoParticipantMatches := v;
     faceMatchingTasks := faceMatchingTasks s; consentLogs := consentLogs s |}.

Definition with_faceMatchingTasks v (s : Store) : Store :=
  {| users := users s; organizations := organizations s;
     organizationUsers := organizationUsers s; events := events s;
     participants := participants s; eventPhotos := eventPhotos s;
     detectedFaces := detectedFaces s;
     photoParticipantMatches := photoParticipantMatches s;
     faceMatchingTasks := v; consentLogs := consentLogs s |}.

Definition with_consentLogs v (s : Store) : Store :=
  {| users := users s; organizations := organizations s;
     organizationUsers := organizationUsers s; events := events s;
     participants := participants s; eventPhotos := eventPhotos s;
     detectedFaces := detectedFaces s;
     photoParticipantMatches := photoParticipantMatches s;
     faceMatchingTasks := faceMatchingTasks s; consentLogs := v |}.

(** ** Referential actions

    What the database does to the rows that point at deleted rows.  [gone]
    is the list of ids of the rows just removed from the parent table. *)

Module Referential.

(** children of EventPhoto: DetectedFace.photo and
    PhotoParticipantMatch.photo are [onDelete: Cascade]. *)
Definition eventPhotos_gone (gone : list Id) (s : Store) : Store :=
  let s1 :=
    with_detectedFaces
      (filter (λ f, DetectedFace.photoId f ∉ gone) (detectedFaces s)) s in
  with_photoParticipantMatches
    (filter (λ m, PhotoParticipantMatch.photoId m ∉ gone)
            (photoParticipantMatches s1)) s1.

Definition delete_eventPhotos (P : EventPhoto.t → Prop)
    `{!∀ p, Decision (P p)} (s : Store) : Store :=
  eventPhotos_gone (EventPhoto.id <$> filter P (eventPhotos s))
    (with_eventPhotos (filter (λ p, ¬ P p) (eventPhotos s)) s).

(** children of Participant: PhotoParticipantMatch.participant is
    [Cascade], ConsentLog.participant is [SetNull]. *)
Definition participants_gone (gone : list Id) (s : Store) : Store :=
  let s1 :=
    with_photoParticipantMatches
      (filter (λ m, PhotoParticipantMatch.participantId m ∉ gone)
              (photoParticipantMatches s)) s in
  with_consentLogs (ConsentLog.clear_participant gone <$> consentLogs s1) s1.

Definition delete_participants (P : Participant.t → Prop)
    `{!∀ p, Decision (P p)} (s : Store) : Store :=
  participants_gone (Participant.id <$> filter P (participants s))
    (with_participants (filter (λ p, ¬ P p) (participants s)) s).

(** children of Event: Participant.event, EventPhoto.event and
    FaceMatchingTask.event are [Cascade], ConsentLog.event is [SetNull]. *)
Definition events_gone (gone : list Id) (s : Store) : Store :=
  let s1 := delete_participants (λ p, Participant.eventId p ∈ gone) s in
  let s2 := delete_eventPhotos (λ p, EventPhoto.eventId p ∈ gone) s1 in
  let s3 :=
    with_faceMatchingTasks
      (filter (λ k, FaceMatchingTask.eventId k ∉ gone) (faceMatchingTasks s2))
      s2 in
  with_consentLogs (ConsentLog.clear_event gone <$> consentLogs s3) s3.

Definition delete_events (P : Event.t → Prop)
    `{!∀ e, Decision (P e)} (s : Store) : Store :=
  events_gone (Event.id <$> filter P (events s))
    (with_events (filter (λ e, ¬ P e) (events s)) s).

(** children of User: OrganizationUser.user, EventPhoto.uploader and
    ConsentLog.user are [Cascade], Participant.user is [SetNull]. *)
Definition users_gone (gone : list Id) (s : Store) : Store :=
  let s1 :=
    with_organizationUsers
      (filter (λ m, OrganizationUser.userId m ∉ gone) (organizationUsers s))
      s in
  let s2 := delete_eventPhotos (λ p, EventPhoto.uploaderUserId p ∈ gone) s1 in
  let s3 :=
    with_consentLogs
      (filter (λ c, ConsentLog.userId c ∉ gone) (consentLogs s2)) s2 in
  with_participants (Participant.clear_user gone <$> participants s3) s3.

Definition delete_users (P : User.t → Prop)
    `{!∀ u, Decision (P u)} (s : Store) : Store :=
  users_gone (User.id <$> filter P (users s))
    (with_users (filter (λ u, ¬ P u) (users s)) s).

(** children of Organization: OrganizationUser.org and Event.organization
    are [Cascade]. *)
Definition organizations_gone (gone : list Id) (s : Store) : Store :=
  let s1 :=
    with_organizationUsers
      (filter (λ m, OrganizationUser.orgId m ∉ gone) (organizationUsers s))
      s in
  delete_events (λ e, Event.orgId e ∈ gone) s1.

Definition delete_organizations (P : Organization.t → Prop)
    `{!∀ o, Decision (P o)} (s : Store) : Store :=
  organizations_gone (Organization.id <$> filter P (organizations s))
    (with_organizations (filter (λ o, ¬ P o) (organizations s)) s).

End Referential.

(** ** The Prisma client

    A query resolves with a value or rejects with one of the client's known
    request errors.  Only the errors the rows decide are modelled: a lost
    connection, a time-out or a write of another request between two
    queries of a handler are not, so nothing below says that a [catch]
    block cannot be reached. *)

Inductive PrismaError :=
| UniqueConstraintFailed      (* P2002 *)
| ForeignKeyConstraintFailed  (* P2003 *)
| RecordNotFound.             (* P2025 *)

Inductive Promise (A : Type) :=
| Resolved (a : A)
| Rejected (e : PrismaError).
Arguments Resolved {A} a.
Arguments Rejected {A} e.

(** a nullable foreign key is satisfied by NULL or by an existing row *)
Definition fk_ok (ref : option Id) (ids : list Id) : Prop :=
  match ref with Some i => i ∈ ids | None => True end.

#[global] Instance fk_ok_dec ref ids : Decision (fk_ok ref ids).
Proof. destruct ref; simpl; apply _. Defined.

(** In [update]'s [data], a key that is [undefined] leaves the column as it
    is; a key that is given (a value, or [null] on a nullable column)
    overwrites it. *)
Inductive Field (A : Type) :=
| Undefined
| Given (a : A).
Arguments Undefined {A}.
Arguments Given {A} a.

Definition assign {A} (f : Field A) (old : A) : A :=
  match f with Undefined => old | Given a => a end.

Module prisma.

Module user.
(** [findUnique({ where: { email } })] *)
Definition findUnique (email : string) (s : Store) : option User.t :=
  head (filter (λ u, User.email u = email) (users s)).

Definition create (row : User.t) (s : Store) : Promise Store :=
  if decide (User.id row ∈ User.id <$> users s) then
    Rejected UniqueConstraintFailed
  else if decide (User.email row ∈ User.email <$> users s) then
    Rejected UniqueConstraintFailed
  else if decide (is_Some (User.externalSystemId row) ∧
                  User.externalSystemId row
                    ∈ User.externalSystemId <$> users s) then
    Rejected UniqueConstraintFailed
  else Resolved (with_users (users s ++ [row]) s).

(** [delete({ where: { id } })] *)
Definition delete (id : Id) (s : Store) : Promise Store :=
  if decide (id ∈ User.id <$> users s) then
    Resolved (Referential.delete_users (λ u, User.id u = id) s)
  else Rejected RecordNotFound.
End user.

Module organization.
Definition create (row : Organization.t) (s : Store) : Promise Store :=
  if decide (Organization.id row ∈ Organization.id <$> organizations s) then
    Rejected UniqueConstraintFailed
  else Resolved (with_organizations (organizations s ++ [row]) s).

Definition delete (id : Id) (s : Store) : Promise Store :=
  if decide (id ∈ Organization.id <$> organizations s) then
    Resolved
      (Referential.delete_organizations (λ o, Organization.id o = id) s)
  else Rejected RecordNotFound.
End organization.

Module organizationUser.
(** [findFirst({ where: { userId }, select: { orgId: true } })].  The query
    has no [orderBy], so which of several membership rows of a user comes
    back is the database's choice; the model takes the first in insertion
    order.  A statement that depends on the organization chosen is made
    for a user whose membership rows all name one organization
    ([only_membership]). *)
Definition findFirst (userId : Id) (s : Store) : option OrganizationUser.t :=
  head (filter (λ m, OrganizationUser.userId m = userId)
               (organizationUsers s)).

Definition create (row : OrganizationUser.t) (s : Store) : Promise Store :=
  if decide (OrganizationUser.id row
               ∈ OrganizationUser.id <$> organizationUsers s) then
    Rejected UniqueConstraintFailed
  else if decide ((OrganizationUser.userId row, OrganizationUser.orgId row)
               ∈ (λ m, (OrganizationUser.userId m, OrganizationUser.orgId m))
                   <$> organizationUsers s) then
    Rejected UniqueConstraintFailed
  else if decide (OrganizationUser.userId row ∈ User.id <$> users s ∧
                  OrganizationUser.orgId row
                    ∈ Organization.id <$> organizations s) then
    Resolved (with_organizationUsers (organizationUsers s ++ [row]) s)
  else Rejected ForeignKeyConstraintFailed.
End organizationUser.

Module event.
(** [findFirst({ where: { id, orgId } })]; [findUnique] with the same
    [where] selects the same row. *)
Definition findFirst (id orgId : Id) (s : Store) : option Event.t :=
  head (filter (λ e, Event.id e = id ∧ Event.orgId e = orgId) (events s)).

Definition findUnique (id orgId : Id) (s : Store) : option Event.t :=
  findFirst id orgId s.

(** No EventCategory row exists in the modelled store, so only a null
    [categoryId] satisfies its foreign key. *)
Definition create (row : Event.t) (s : Store) : Promise Store :=
  if decide (Event.id row ∈ Event.id <$> events s) then
    Rejected UniqueConstraintFailed
  else if decide (Event.orgId row ∈ Organization.id <$> organizations s ∧
                  Event.categoryId row = None) then
    Resolved (with_events (events s ++ [row]) s)
  else Rejected ForeignKeyConstraintFailed.

Record UpdateInput := {
  name : Field string;
  dateStart : Field DateTime;
  dateEnd : Field (option DateTime);
  description : Field (option string);
  locationName : Field (option string);
  locationAddress : Field (option string);
  status : Field EventStatus.t;
  isPublic : Field bool }.

(** the row after [update]; [updatedAt] is [@updatedAt] *)
Definition updated (data : UpdateInput) (now : DateTime) (e : Event.t)
    : Event.t :=
  {| Event.id := Event.id e;
     Event.orgId := Event.orgId e;
     Event.categoryId := Event.categoryId e;
     Event.name := assign (name data) (Event.name e);
     Event.dateStart := assign (dateStart data) (Event.dateStart e);
     Event.dateEnd := assign (dateEnd data) (Event.dateEnd e);
     Event.status := assign (status data) (Event.status e);
     Event.description := assign (description data) (Event.description e);
     Event.locationName := assign (locationName data) (Event.locationName e);
     Event.locationAddress :=
       assign (locationAddress data) (Event.locationAddress e);
     Event.isPublic := assign (isPublic data) (Event.isPublic e);
     Event.createdAt := Event.createdAt e;
     Event.updatedAt := now |}.

(** [update({ where: { id }, data })] *)
Definition update (id : Id) (data : UpdateInput) (now : DateTime)
    (s : Store) : Promise Store :=
  if decide (id ∈ Event.id <$> events s) then
    Resolved
      (with_events
         ((λ e, if decide (Event.id e = id) then updated data now e else e)
            <$> events s) s)
  else Rejected RecordNotFound.

(** [delete({ where: { id, orgId } })] *)
Definition delete (id orgId : Id) (s : Store) : Promise Store :=
  match findFirst id orgId s with
  | Some _ =>
      Resolved
        (Referential.delete_events
           (λ e, Event.id e = id ∧ Event.orgId e = orgId) s)
  | None => Rejected RecordNotFound
  end.
(** [findMany({ where: { orgId }, orderBy: { dateStart: "desc" } })] *)
Definition dateStart_desc (a b : Event.t) : Prop :=
  (Event.dateStart b ≤ Event.dateStart a)%Z.

#[global] Instance dateStart_desc_dec : RelDecision dateStart_desc.
Proof. intros a b. unfold dateStart_desc. apply _. Defined.

Definition findMany (orgId : Id) (s : Store) : list Event.t :=
  merge_sort dateStart_desc
    (filter (λ e, Event.orgId e = orgId) (events s)).
End event.

Module participant.
(** [findFirst({ where: { eventId, email } })] *)
Definition findFirst (eventId : Id) (email : string) (s : Store)
    : option Participant.t :=
  head (filter (λ p, Participant.eventId p = eventId ∧
                     Participant.email p = Some email) (participants s)).

(** [findMany({ where: { eventId }, orderBy: { createdAt: 'asc' } })] *)
Definition createdAt_asc (a b : Participant.t) : Prop :=
  (Participant.createdAt a ≤ Participant.createdAt b)%Z.

#[global] Instance createdAt_asc_dec : RelDecision createdAt_asc.
Proof. intros a b. unfold createdAt_asc. apply _. Defined.

Definition findMany (eventId : Id) (s : Store) : list Participant.t :=
  merge_sort createdAt_asc
    (filter (λ p, Participant.eventId p = eventId) (participants s)).

(** [count({ where: { eventId } })] *)
Definition count (eventId : Id) (s : Store) : nat :=
  length (filter (λ p, Participant.eventId p = eventId) (participants s)).

Definition create (row : Participant.t) (s : Store) : Promise Store :=
  if decide (Participant.id row ∈ Participant.id <$> participants s) then
    Rejected UniqueConstraintFailed
  else if decide (Participant.eventId row ∈ Event.id <$> events s ∧
                  fk_ok (Participant.userId row) (User.id <$> users s)) then
    Resolved (with_participants (participants s ++ [row]) s)
  else Rejected ForeignKeyConstraintFailed.

Definition delete (id : Id) (s : Store) : Promise Store :=
  if decide (id ∈ Participant.id <$> participants s) then
    Resolved
      (Referential.delete_participants (λ p, Participant.id p = id) s)
  else Rejected RecordNotFound.
End participant.

Module eventPhoto.
(** [findFirst({ where: { id, eventId } })] *)
Definition findFirst (id eventId : Id) (s : Store) : option EventPhoto.t :=
  head (filter (λ p, EventPhoto.id p = id ∧ EventPhoto.eventId p = eventId)
               (eventPhotos s)).

(** [findMany({ where: { eventId }, orderBy: { uploadTime: 'desc' } })], the
    [photos] of an event [include].  The order among rows of equal
    [uploadTime] is the database's choice; here, as for the other
    [findMany], it is the sort's, and no statement depends on it. *)
Definition uploadTime_desc (a b : EventPhoto.t) : Prop :=
  (EventPhoto.uploadTime b ≤ EventPhoto.uploadTime a)%Z.

#[global] Instance uploadTime_desc_dec : RelDecision uploadTime_desc.
Proof. intros a b. unfold uploadTime_desc. apply _. Defined.

Definition findMany (eventId : Id) (s : Store) : list EventPhoto.t :=
  merge_sort uploadTime_desc
    (filter (λ p, EventPhoto.eventId p = eventId) (eventPhotos s)).

Definition count (eventId : Id) (s : Store) : nat :=
  length (filter (λ p, EventPhoto.eventId p = eventId) (eventPhotos s)).

Definition create (row : EventPhoto.t) (s : Store) : Promise Store :=
  if decide (EventPhoto.id row ∈ EventPhoto.id <$> eventPhotos s) then
    Rejected UniqueConstraintFailed
  else if decide (EventPhoto.eventId row ∈ Event.id <$> events s ∧
                  EventPhoto.uploaderUserId row ∈ User.id <$> users s) then
    Resolved (with_eventPhotos (eventPhotos s ++ [row]) s)
  else Rejected ForeignKeyConstraintFailed.

(** [delete({ where: { id } })] *)
Definition delete (id : Id) (s : Store) : Promise Store :=
  if decide (id ∈ EventPhoto.id <$> eventPhotos s) then
    Resolved (Referential.delete_eventPhotos (λ p, EventPhoto.id p = id) s)
  else Rejected RecordNotFound.
End eventPhoto.

Module detectedFace.
Definition create (row : DetectedFace.t) (s : Store) : Promise Store :=
  if decide (DetectedFace.id row ∈ DetectedFace.id <$> detectedFaces s) then
    Rejected UniqueConstraintFailed
  else if decide (DetectedFace.photoId row
                    ∈ EventPhoto.id <$> eventPhotos s) then
    Resolved (with_detectedFaces (detectedFaces s ++ [row]) s)
  else Rejected ForeignKeyConstraintFailed.
End detectedFace.

Module photoParticipantMatch.
(** [@@unique([photoId, participantId])] *)
Definition create (row : PhotoParticipantMatch.t) (s : Store)
    : Promise Store :=
  if decide (PhotoParticipantMatch.id row
               ∈ PhotoParticipantMatch.id <$> photoParticipantMatches s) then
    Rejected UniqueConstraintFailed
  else if decide (PhotoParticipantMatch.pair row
               ∈ PhotoParticipantMatch.pair <$> photoParticipantMatches s) then
    Rejected UniqueConstraintFailed
  else if decide (PhotoParticipantMatch.photoId row
                    ∈ EventPhoto.id <$> eventPhotos s ∧
                  PhotoParticipantMatch.participantId row
                    ∈ Participant.id <$> participants s) then
    Resolved
      (with_photoParticipantMatches (photoParticipantMatches s ++ [row]) s)
  else Rejected ForeignKeyConstraintFailed.

Definition delete (id : Id) (s : Store) : Promise Store :=
  if decide (id ∈ PhotoParticipantMatch.id <$> photoParticipantMatches s) then
    Resolved
      (with_photoParticipantMatches
         (filter (λ m, PhotoParticipantMatch.id m ≠ id)
                 (photoParticipantMatches s)) s)
  else Rejected RecordNotFound.
End photoParticipantMatch.

Module faceMatchingTask.
Definition create (row : FaceMatchingTask.t) (s : Store) : Promise Store :=
  if decide (FaceMatchingTask.id row
               ∈ FaceMatchingTask.id <$> faceMatchingTasks s) then
    Rejected UniqueConstraintFailed
  else if decide (FaceMatchingTask.eventId row ∈ Event.id <$> events s) then
    Resolved (with_faceMatchingTasks (faceMatchingTasks s ++ [row]) s)
  else Rejected ForeignKeyConstraintFailed.
End faceMatchingTask.

Module consentLog.
Definition create (row : ConsentLog.t) (s : Store) : Promise Store :=
  if decide (ConsentLog.id row ∈ ConsentLog.id <$> consentLogs s) then
    Rejected UniqueConstraintFailed
  else if decide (ConsentLog.userId row ∈ User.id <$> users s ∧
                  fk_ok (ConsentLog.eventId row) (Event.id <$> events s) ∧
                  fk_ok (ConsentLog.participantId row)
                        (Participant.id <$> participants s)) then
    Resolved (with_consentLogs (consentLogs s ++ [row]) s)
  else Rejected ForeignKeyConstraintFailed.
End consentLog.

End prisma.

(** ** Requests, responses and the runtime *)

(** the user object kept in the session: a User row without [passwordHash] *)
Module SessionUser.
Record t := {
  id : Id;
  externalSystemId : option string;
  email : string;
  name : option string;
  profilePhotoUrl : option string;
  role : Role.t;
  createdAt : DateTime;
  updatedAt : DateTime }.

#[global] Instance SessionUser_eq_dec : EqDecision t.
Proof. solve_decision. Defined.

(** [const { passwordHash, ...userWithoutPassword } = user] *)
Definition of_user (u : User.t) : t :=
  {| id := User.id u; externalSystemId := User.externalSystemId u;
     email := User.email u; name := User.name u;
     profilePhotoUrl := User.profilePhotoUrl u; role := User.role u;
     createdAt := User.createdAt u; updatedAt := User.updatedAt u |}.
End SessionUser.

Inductive Json :=
| JNull
| JBool (b : bool)
| JStr (s : string)
| JArr (l : list Json)
| JObj (m : gmap string Json).

Definition JOpt (o : option string) : Json :=
  match o with Some s => JStr s | None => JNull end.

(** What a handler answers: a returned or thrown [Response], or an uncaught
    [Error], which Remix turns into a 500. *)
Inductive Response :=
| json (data : Json) (status : Z)
| redirect (url : string)
| throw_Response (body : string) (status : Z)
| throw_Error (message : string)
(** [new Response(null, { status, headers: { "Set-Cookie": ... } })] after
    [session.flash("error", message)] *)
| flash_error (message : string) (status : Z)
(** the redirect of a successful [authenticate], the user in the session *)
| redirect_session (url : string) (user : SessionUser.t).

Definition status_of (r : Response) : Z :=
  match r with
  | json _ st => st
  | redirect _ => 302
  | throw_Response _ st => st
  | throw_Error _ => 500
  | flash_error _ st => st
  | redirect_session _ _ => 302
  end.

Record File := { File_name : string; File_size : Z; File_type : string }.

Inductive FormDataEntryValue :=
| FString (s : string)
| FFile (f : File).

(** the entries of a [FormData], in order *)
Abbreviation FormData := (list (string * FormDataEntryValue)) (only parsing).

(** [formData.get(name)]: the first value of that name, or [null] *)
Definition FormData_get (name : string) (fd : FormData)
    : option FormDataEntryValue :=
  snd <$> head (filter (λ e, e.1 = name) fd).

(** [Object.fromEntries(formData)]: the last value of a name wins *)
Definition Object_fromEntries (fd : FormData)
    : gmap string FormDataEntryValue :=
  list_to_map (reverse fd).

(** [JSON.stringify] of a form value.  What a [File] gives depends on
    the runtime's [File] class (none of its own enumerable properties with
    the platform's class, which is what is taken here); no statement reads
    the JSON of a file. *)
Definition FormDataEntryValue_toJson (v : FormDataEntryValue) : Json :=
  match v with FString s => JStr s | FFile _ => JObj ∅ end.

Definition entry_toJson (v : option FormDataEntryValue) : Json :=
  match v with Some x => FormDataEntryValue_toJson x | None => JNull end.

Record Request := {
  method : string;
  (** what [authenticator.isAuthenticated(request)] finds in the session *)
  session : option SessionUser.t;
  (** [params.eventId] *)
  eventId : string;
  formData : FormData }.

(** What the clock and the id generator give during one request: [new Date()],
    [Date.now()] and the database's [now()] on the one hand, [cuid()] on the
    other. *)
Record Env := { now : DateTime; cuid : Id }.

Class Runtime := {
  (** [Date.parse]; [None] is [NaN] *)
  Date_parse : string → option DateTime;
  (** date-fns [format(date, pattern)] *)
  format : DateTime → string → string;
  (** [Date.prototype.toJSON] *)
  toISOString : DateTime → string;
  (** the pattern of zod's [z.string().email()] *)
  isEmail : string → bool;
  (** [bcrypt.compare(s, hash)]: resolves with the verdict, or rejects with
      the message of an [Error] *)
  bcrypt_compare : FormDataEntryValue → string → string + bool;
  (** the message of the [PrismaClientValidationError] that a [where] value
      of the wrong type raises *)
  prismaValidationMessage : string }.

(** ** The storage and compute stubs (app/utils/storage.server.ts) *)

Inductive PortCall :=
| StorageUpload (file : File) (pathPrefix url : string)
| StorageDelete (fileUrl : string)
| LambdaTrigger (eventId taskId : Id).

(** The world a handler runs in: the database, and the calls made to the
    stubs so far, oldest first, each with the database as it was when the
    call was made. *)
Record World := { db : Store; calls : list (PortCall * Store) }.

Definition with_db (s : Store) (w : World) : World :=
  {| db := s; calls := calls w |}.

Definition call (c : PortCall) (w : World) : World :=
  {| db := db w; calls := calls w ++ [(c, db w)] |}.

(** JavaScript's [\s]: the WhiteSpace and LineTerminator code points of
    ECMAScript, a string being its UTF-8 bytes.  They are TAB, LF, VT, FF,
    CR and SPACE, then U+00A0, U+1680, U+2000 to U+200A, U+2028, U+2029,
    U+202F, U+205F, U+3000 and U+FEFF. *)
Definition white_space : list string :=
  String.string_of_list_ascii
    <$> [ ["009"]; ["010"]; ["011"]; ["012"]; ["013"]; [" "];
          ["194"; "160"];
          ["225"; "154"; "128"];
          ["226"; "128"; "128"]; ["226"; "128"; "129"];
          ["226"; "128"; "130"]; ["226"; "128"; "131"];
          ["226"; "128"; "132"]; ["226"; "128"; "133"];
          ["226"; "128"; "134"]; ["226"; "128"; "135"];
          ["226"; "128"; "136"]; ["226"; "128"; "137"];
          ["226"; "128"; "138"];
          ["226"; "128"; "168"]; ["226"; "128"; "169"];
          ["226"; "128"; "175"];
          ["226"; "129"; "159"];
          ["227"; "128"; "128"];
          ["239"; "187"; "191"] ]%char.

(** [s] begins with [p] *)
Fixpoint starts_with (p s : string) : bool :=
  match p, s with
  | EmptyString, _ => true
  | String a p', String b s' => bool_decide (a = b) && starts_with p' s'
  | String _ _, EmptyString => false
  end.

(** the white-space character [s] begins with, if it begins with one *)
Definition space_at (s : string) : option string :=
  head (filter (λ p, starts_with p s = true) white_space).

(** [name.replace(/\s+/g, '_')]: [in_run] says that the character before
    was white space, [skip] counts the bytes still to pass of a white-space
    character of several bytes. *)
Fixpoint replace_spaces (skip : nat) (in_run : bool) (s : string) : string :=
  match s with
  | EmptyString => EmptyString
  | String a s' =>
      match skip with
      | S more => replace_spaces more in_run s'
      | O =>
          match space_at s with
          | Some p =>
              if in_run then replace_spaces (String.length p - 1) true s'
              else String "_"%char
                     (replace_spaces (String.length p - 1) true s')
          | None => String a (replace_spaces 0 false s')
          end
      end
  end.

Definition uploadFileToStorage (env : Env) (file : File)
    (pathPrefix : string) (w : World) : string * World :=
  let uniqueFilename :=
    pretty (now env) +:+ "-" +:+ replace_spaces 0 false (File_name file) in
  let url := "/placeholder-storage/" +:+ pathPrefix +:+ "/" +:+ uniqueFilename in
  (url, call (StorageUpload file pathPrefix url) w).

Definition deleteFileFromStorage (fileUrl : string) (w : World) : World :=
  call (StorageDelete fileUrl) w.

Definition triggerFaceMatchingLambda (eventId taskId : Id) (w : World)
    : World :=
  call (LambdaTrigger eventId taskId) w.

(** ** app/utils/auth.server.ts *)

(** [requireUser(request)] without [requiredRoles]: the session's user, or a
    thrown redirect to the login page. *)
Definition requireUser (request : Request) : Response + SessionUser.t :=
  match session request with
  | Some user => inr user
  | None => inl (redirect "/login")
  end.

(** [invariant(params.eventId, "Missing eventId param")] *)
Definition invariant_eventId (request : Request) : option Response :=
  if decide (eventId request = "") then
    Some (throw_Error "Invariant failed: Missing eventId param")
  else None.

#[global] Instance File_eq_dec : EqDecision File.
Proof. solve_decision. Defined.

#[global] Instance FormDataEntryValue_eq_dec : EqDecision FormDataEntryValue.
Proof. solve_decision. Defined.

(** ** zod schemas *)

Module z.

Inductive SafeParse (A : Type) :=
| success (data : A)
| failure (fieldErrors : gmap string (list string)).
Arguments success {A} data.
Arguments failure {A} fieldErrors.

Definition issues {A} (r : list string + A) : list string :=
  match r with inl l => l | inr _ => [] end.

(** [error.flatten().fieldErrors]: only the fields that have an issue *)
Definition flatten (l : list (string * list string))
    : gmap string (list string) :=
  list_to_map (filter (λ p, p.2 ≠ []) l).

Definition fieldErrors_toJson (e : gmap string (list string)) : Json :=
  JObj ((λ msgs, JArr (JStr <$> msgs)) <$> e).

(** [z.string()] *)
Definition str (v : option FormDataEntryValue) : list string + string :=
  match v with
  | None => inl ["Required"]
  | Some (FFile _) => inl ["Expected string, received object"]
  | Some (FString s) => inr s
  end.

(** [z.string().min(1, message)] *)
Definition string_min1 (message : string) (v : option FormDataEntryValue)
    : list string + string :=
  match str v with
  | inr s => if decide (s = "") then inl [message] else inr s
  | inl e => inl e
  end.

(** [z.string().optional().nullable()]; an absent key parses to
    [undefined], here [None] *)
Definition string_optional (v : option FormDataEntryValue)
    : list string + option string :=
  match v with
  | None => inr None
  | Some (FFile _) => inl ["Expected string, received object"]
  | Some (FString s) => inr (Some s)
  end.

Definition enum_expected : string :=
  "'DRAFT' | 'UPCOMING' | 'ACTIVE' | 'COMPLETED' | 'ARCHIVED'".

(** [z.nativeEnum(EventStatus)] *)
Definition nativeEnum_EventStatus (v : option FormDataEntryValue)
    : list string + EventStatus.t :=
  match v with
  | None => inl ["Required"]
  | Some (FFile _) => inl ["Expected " +:+ enum_expected +:+ ", received object"]
  | Some (FString s) =>
      match EventStatus.of_string s with
      | Some st => inr st
      | None =>
          inl ["Invalid enum value. Expected " +:+ enum_expected
               +:+ ", received '" +:+ s +:+ "'"]
      end
  end.

(** [z.preprocess((val) => val === 'on' || val === true, z.boolean())] *)
Definition checkbox (v : option FormDataEntryValue) : bool :=
  bool_decide (v = Some (FString "on")).

End z.

(** ** routes/org+/events+/$eventId.tsx: the event page *)

Module EventDetail.

(** [select: { id, imageUrl, uploadTime, uploaderUserId }] and the added
    [uploadTimeFormatted] *)
Definition photo_toJson `{Runtime} (p : EventPhoto.t) : Json :=
  JObj {[ "id" := JStr (EventPhoto.id p);
          "imageUrl" := JStr (EventPhoto.imageUrl p);
          "uploadTime" := JStr (toISOString (EventPhoto.uploadTime p));
          "uploaderUserId" := JStr (EventPhoto.uploaderUserId p);
          "uploadTimeFormatted" :=
            JStr (format (EventPhoto.uploadTime p) "Pp") ]}.

(** [select: { id, name, email, registrationStatus }] *)
Definition participant_toJson (p : Participant.t) : Json :=
  JObj {[ "id" := JStr (Participant.id p);
          "name" := JOpt (Participant.name p);
          "email" := JOpt (Participant.email p);
          "registrationStatus" := JOpt (Participant.registrationStatus p) ]}.

Definition event_columns `{Runtime} (e : Event.t) : gmap string Json :=
  {[ "id" := JStr (Event.id e);
     "orgId" := JStr (Event.orgId e);
     "categoryId" := JOpt (Event.categoryId e);
     "name" := JStr (Event.name e);
     "dateStart" := JStr (toISOString (Event.dateStart e));
     "dateEnd" := JOpt (toISOString <$> Event.dateEnd e);
     "status" := JStr (EventStatus.to_string (Event.status e));
     "description" := JOpt (Event.description e);
     "locationName" := JOpt (Event.locationName e);
     "locationAddress" := JOpt (Event.locationAddress e);
     "isPublic" := JBool (Event.isPublic e);
     "createdAt" := JStr (toISOString (Event.createdAt e));
     "updatedAt" := JStr (toISOString (Event.updatedAt e)) ]}.

Definition formattedEvent `{Runtime} (e : Event.t) (s : Store) : Json :=
  JObj (<[ "photos" :=
             JArr (photo_toJson <$> prisma.eventPhoto.findMany (Event.id e) s) ]>
       (<[ "participants" :=
             JArr (participant_toJson
                     <$> prisma.participant.findMany (Event.id e) s) ]>
       (<[ "dateStartFormatted" := JStr (format (Event.dateStart e) "PPP p") ]>
       (<[ "dateEndFormatted" :=
             JOpt ((λ d, format d "PPP p") <$> Event.dateEnd e) ]>
          (event_columns e))))).

Definition loader `{Runtime} (request : Request) (s : Store) : Response :=
  match requireUser request with
  | inl r => r
  | inr user =>
  match invariant_eventId request with
  | Some r => r
  | None =>
  match prisma.organizationUser.findFirst (SessionUser.id user) s with
  | None => throw_Response "User not associated with an organization" 403
  | Some orgUser =>
  match prisma.event.findUnique (eventId request)
          (OrganizationUser.orgId orgUser) s with
  | None => throw_Response "Event not found or access denied" 404
  | Some event => json (JObj {[ "event" := formattedEvent event s ]}) 200
  end end end end.

(** the [uploadPhoto] intent *)
Definition uploadPhoto (env : Env) (request : Request)
    (user : SessionUser.t) (intent : Json) (w : World) : Response * World :=
  match FormData_get "photoFile" (formData request) with
  | Some (FFile photoFile) =>
      if decide (File_size photoFile = 0) then
        (json (JObj {[ "intent" := intent;
                       "error" := JStr "No file selected or file is empty.";
                       "photoUploadSuccess" := JBool false ]}) 400, w)
      else
        let '(imageUrl, w1) :=
          uploadFileToStorage env photoFile
            ("events/" +:+ eventId request +:+ "/photos") w in
        match prisma.eventPhoto.create
                {| EventPhoto.id := cuid env;
                   EventPhoto.eventId := eventId request;
                   EventPhoto.uploaderUserId := SessionUser.id user;
                   EventPhoto.imageUrl := imageUrl;
                   EventPhoto.thumbnailUrl := None;
                   EventPhoto.uploadTime := now env;
                   EventPhoto.reviewStatus := PhotoReviewStatus.PENDING;
                   EventPhoto.isPublic := false;
                   EventPhoto.metadata := None;
                   EventPhoto.createdAt := now env;
                   EventPhoto.updatedAt := now env |} (db w1) with
        | Resolved s' =>
            (json (JObj {[ "intent" := intent;
                           "photoUploadSuccess" := JBool true;
                           "message" :=
                             JStr (File_name photoFile
                                   +:+ " uploaded successfully.") ]}) 200,
             with_db s' w1)
        | Rejected _ =>
            (json (JObj {[ "intent" := intent;
                           "error" :=
                             JStr "Failed to upload photo. Please try again.";
                           "photoUploadSuccess" := JBool false ]}) 500, w1)
        end
  | _ =>
      (json (JObj {[ "intent" := intent;
                     "error" := JStr "No file selected or file is empty.";
                     "photoUploadSuccess" := JBool false ]}) 400, w)
  end.

Definition deletePhoto_failed (intent : Json) : Response :=
  json (JObj {[ "intent" := intent;
                "error" := JStr "Failed to delete photo. Please try again.";
                "photoDeleteSuccess" := JBool false ]}) 500.

(** the [deletePhoto] intent *)
Definition deletePhoto (request : Request) (intent : Json) (w : World)
    : Response * World :=
  match FormData_get "photoId" (formData request) with
  | None | Some (FString "") =>
      (json (JObj {[ "intent" := intent;
                     "error" := JStr "Missing photo ID.";
                     "photoDeleteSuccess" := JBool false ]}) 400, w)
  | Some (FFile _) =>
      (* [where: { id }] with a value that is no string: the query is
         rejected before it runs *)
      (deletePhoto_failed intent, w)
  | Some (FString photoId) =>
      match prisma.eventPhoto.findFirst photoId (eventId request) (db w) with
      | None =>
          (json (JObj {[ "intent" := intent;
                         "error" := JStr "Photo not found or access denied.";
                         "photoDeleteSuccess" := JBool false ]}) 404, w)
      | Some photo =>
          match prisma.eventPhoto.delete photoId (db w) with
          | Rejected _ => (deletePhoto_failed intent, w)
          | Resolved s' =>
              let w2 :=
                deleteFileFromStorage (EventPhoto.imageUrl photo)
                  (with_db s' w) in
              (json (JObj {[ "intent" := intent;
                             "photoDeleteSuccess" := JBool true;
                             "deletedPhotoId" := JStr photoId;
                             "message" := JStr "Photo deleted successfully." ]})
                    200, w2)
          end
      end
  end.

Definition initiateFaceMatching_failed (intent : Json) : Response :=
  json (JObj {[ "intent" := intent;
                "error" :=
                  JStr "Failed to initiate face matching. Please try again.";
                "faceMatchingInitiated" := JBool false ]}) 500.

(** the [initiateFaceMatching] intent *)
Definition initiateFaceMatching (env : Env) (request : Request)
    (intent : Json) (w : World) : Response * World :=
  let photoCount := prisma.eventPhoto.count (eventId request) (db w) in
  let participantCount := prisma.participant.count (eventId request) (db w) in
  if decide (photoCount = 0%nat) then
    (json (JObj {[ "intent" := intent;
                   "error" :=
                     JStr "Cannot initiate matching without uploaded photos.";
                   "faceMatchingInitiated" := JBool false ]}) 400, w)
  else if decide (participantCount = 0%nat) then
    (json (JObj {[ "intent" := intent;
                   "error" :=
                     JStr "Cannot initiate matching without added participants.";
                   "faceMatchingInitiated" := JBool false ]}) 400, w)
  else
    let task :=
      {| FaceMatchingTask.id := cuid env;
         FaceMatchingTask.eventId := eventId request;
         FaceMatchingTask.status := FaceMatchingTaskStatus.PENDING;
         FaceMatchingTask.startTime := None;
         FaceMatchingTask.completionTime := None;
         FaceMatchingTask.awsRequestId := None;
         FaceMatchingTask.errorDetails := None;
         FaceMatchingTask.createdAt := now env;
         FaceMatchingTask.updatedAt := now env |} in
    match prisma.faceMatchingTask.create task (db w) with
    | Rejected _ => (initiateFaceMatching_failed intent, w)
    | Resolved s' =>
        let w2 :=
          triggerFaceMatchingLambda (eventId request)
            (FaceMatchingTask.id task) (with_db s' w) in
        (json (JObj {[ "intent" := intent;
                       "faceMatchingInitiated" := JBool true;
                       "taskId" := JStr (FaceMatchingTask.id task);
                       "message" :=
                         JStr "Face matching process initiated successfully." ]})
              200, w2)
    end.

Definition action (env : Env) (request : Request) (w : World)
    : Response * World :=
  match requireUser request with
  | inl r => (r, w)
  | inr user =>
  match invariant_eventId request with
  | Some r => (r, w)
  | None =>
  match prisma.organizationUser.findFirst (SessionUser.id user) (db w) with
  | None =>
      (json (JObj {[ "error" :=
                       JStr "User not associated with an organization" ]}) 403,
       w)
  | Some orgUser =>
  match prisma.event.findFirst (eventId request)
          (OrganizationUser.orgId orgUser) (db w) with
  | None =>
      (json (JObj {[ "error" := JStr "Event not found or access denied" ]})
            404, w)
  | Some _ =>
      let intent := FormData_get "intent" (formData request) in
      if decide (intent = Some (FString "uploadPhoto")) then
        uploadPhoto env request user (entry_toJson intent) w
      else if decide (intent = Some (FString "deletePhoto")) then
        deletePhoto request (entry_toJson intent) w
      else if decide (intent = Some (FString "initiateFaceMatching")) then
        initiateFaceMatching env request (entry_toJson intent) w
      else
        (json (JObj {[ "intent" := entry_toJson intent;
                       "error" := JStr "Invalid intent";
                       "success" := JBool false ]}) 400, w)
  end end end end.

End EventDetail.

(** ** routes/org+/events+/$eventId.delete.tsx *)

Module EventDelete.

Definition action (request : Request) (w : World) : Response * World :=
  match requireUser request with
  | inl r => (r, w)
  | inr user =>
  match invariant_eventId request with
  | Some r => (r, w)
  | None =>
  if decide (method request ≠ "POST") then
    (json (JObj {[ "message" := JStr "Method not allowed" ]}) 405, w)
  else
  match prisma.organizationUser.findFirst (SessionUser.id user) (db w) with
  | None =>
      (json (JObj {[ "message" :=
                       JStr "User not associated with an organization" ]}) 403,
       w)
  | Some orgUser =>
  match prisma.event.findFirst (eventId request)
          (OrganizationUser.orgId orgUser) (db w) with
  | None =>
      (json (JObj {[ "message" := JStr "Event not found or access denied" ]})
            404, w)
  | Some _ =>
      match prisma.event.delete (eventId request)
              (OrganizationUser.orgId orgUser) (db w) with
      | Resolved s' => (redirect "/org/events", with_db s' w)
      | Rejected _ =>
          (json (JObj {[ "message" :=
                           JStr "Failed to delete event. Please try again." ]})
                500, w)
      end
  end end end end.

Definition loader : Response := throw_Response "Not Found" 404.

End EventDelete.

(** ** routes/org+/events+/$eventId+/participants+/new.tsx *)

Module ParticipantNew.

(** [ParticipantSchema.safeParse(Object.fromEntries(formData))]; the data
    are [name] and [email] *)
Definition ParticipantSchema `{Runtime}
    (payload : gmap string FormDataEntryValue) : z.SafeParse (string * string) :=
  let name := z.string_min1 "Name is required" (payload !! "name") in
  let email :=
    match z.str (payload !! "email") with
    | inr s => if isEmail s then inr s else inl ["Invalid email format"]
    | inl e => inl e
    end in
  match name, email with
  | inr n, inr e => z.success (n, e)
  | _, _ =>
      z.failure (z.flatten [("name", z.issues name); ("email", z.issues email)])
  end.

Definition form_error (message : string) (status : Z) : Response :=
  json (JObj {[ "errors" := JObj {[ "form" := JStr message ]} ]}) status.

Definition action `{Runtime} (env : Env) (request : Request) (w : World)
    : Response * World :=
  match requireUser request with
  | inl r => (r, w)
  | inr user =>
  match invariant_eventId request with
  | Some r => (r, w)
  | None =>
  match prisma.organizationUser.findFirst (SessionUser.id user) (db w) with
  | None => (form_error "User not associated with an organization" 403, w)
  | Some orgUser =>
  match prisma.event.findFirst (eventId request)
          (OrganizationUser.orgId orgUser) (db w) with
  | None => (form_error "Event not found or access denied" 404, w)
  | Some _ =>
  match ParticipantSchema (Object_fromEntries (formData request)) with
  | z.failure fieldErrors =>
      (json (JObj {[ "errors" := z.fieldErrors_toJson fieldErrors ]}) 400, w)
  | z.success (name, email) =>
      match prisma.participant.findFirst (eventId request) email (db w) with
      | Some _ =>
          (json (JObj {[ "errors" :=
                   JObj {[ "email" :=
                     JStr "A participant with this email already exists for this event." ]} ]})
                400, w)
      | None =>
          match prisma.participant.create
                  {| Participant.id := cuid env;
                     Participant.eventId := eventId request;
                     Participant.userId := None;
                     Participant.name := Some name;
                     Participant.email := Some email;
                     Participant.registrationStatus := Some "Invited";
                     Participant.consentStatus := false;
                     Participant.referencePhotoUrl := None;
                     Participant.createdAt := now env;
                     Participant.updatedAt := now env |} (db w) with
          | Resolved s' =>
              (redirect ("/org/events/" +:+ eventId request +:+ "/participants"),
               with_db s' w)
          | Rejected _ =>
              (form_error "Failed to add participant. Please try again later."
                          500, w)
          end
      end
  end end end end end.

End ParticipantNew.

(** ** routes/org+/events+/$eventId+/participants+/index.tsx *)

Module ParticipantsIndex.

(** [select: { id, name, email, registrationStatus, consentStatus }] *)
Definition participant_toJson (p : Participant.t) : Json :=
  JObj {[ "id" := JStr (Participant.id p);
          "name" := JOpt (Participant.name p);
          "email" := JOpt (Participant.email p);
          "registrationStatus" := JOpt (Participant.registrationStatus p);
          "consentStatus" := JBool (Participant.consentStatus p) ]}.

Definition loader (request : Request) (s : Store) : Response :=
  match requireUser request with
  | inl r => r
  | inr user =>
  match invariant_eventId request with
  | Some r => r
  | None =>
  match prisma.organizationUser.findFirst (SessionUser.id user) s with
  | None => throw_Response "User not associated with an organization" 403
  | Some orgUser =>
  match prisma.event.findFirst (eventId request)
          (OrganizationUser.orgId orgUser) s with
  | None => throw_Response "Event not found or access denied" 404
  | Some _ =>
      json (JObj {[ "participants" :=
                      JArr (participant_toJson
                              <$> prisma.participant.findMany
                                    (eventId request) s) ]}) 200
  end end end end.

End ParticipantsIndex.

(** ** routes/org+/events+/$eventId+/participants+/_layout.tsx *)

Module ParticipantsLayout.

(** the event's name, for the breadcrumbs *)
Definition loader (request : Request) (s : Store) : Response :=
  match requireUser request with
  | inl r => r
  | inr user =>
  match invariant_eventId request with
  | Some r => r
  | None =>
  match prisma.organizationUser.findFirst (SessionUser.id user) s with
  | None => throw_Response "User not associated with an organization" 403
  | Some orgUser =>
  match prisma.event.findFirst (eventId request)
          (OrganizationUser.orgId orgUser) s with
  | None => throw_Response "Event not found or access denied" 404
  | Some event => json (JObj {[ "eventName" := JStr (Event.name event) ]}) 200
  end end end end.

End ParticipantsLayout.

(** ** routes/org+/events+/$eventId.edit.tsx *)

Module EventEdit.

Record EventData := {
  name : string;
  dateStart : string;
  dateEnd : option string;
  description : option string;
  locationName : option string;
  locationAddress : option string;
  status : EventStatus.t;
  isPublic : bool }.

(** [EventSchema.safeParse(formPayload)] *)
Definition EventSchema `{Runtime} (payload : gmap string FormDataEntryValue)
    : z.SafeParse EventData :=
  let name := z.string_min1 "Event name is required" (payload !! "name") in
  let dateStart :=
    match z.str (payload !! "dateStart") with
    | inr d =>
        match Date_parse d with
        | Some _ => inr d
        | None => inl ["Invalid start date"]
        end
    | inl e => inl e
    end in
  let dateEnd :=
    match z.string_optional (payload !! "dateEnd") with
    | inr (Some d) =>
        if decide (d = "") then inr (Some d)
        else match Date_parse d with
             | Some _ => inr (Some d)
             | None => inl ["Invalid end date"]
             end
    | r => r
    end in
  let description := z.string_optional (payload !! "description") in
  let locationName := z.string_optional (payload !! "locationName") in
  let locationAddress := z.string_optional (payload !! "locationAddress") in
  let status := z.nativeEnum_EventStatus (payload !! "status") in
  let isPublic := z.checkbox (payload !! "isPublic") in
  match name, dateStart, dateEnd, description, locationName, locationAddress,
        status with
  | inr n, inr ds, inr de, inr d, inr ln, inr la, inr st =>
      z.success {| name := n; dateStart := ds; dateEnd := de;
                   description := d; locationName := ln;
                   locationAddress := la; status := st;
                   isPublic := isPublic |}
  | _, _, _, _, _, _, _ =>
      z.failure
        (z.flatten [("name", z.issues name);
                    ("dateStart", z.issues dateStart);
                    ("dateEnd", z.issues dateEnd);
                    ("description", z.issues description);
                    ("locationName", z.issues locationName);
                    ("locationAddress", z.issues locationAddress);
                    ("status", z.issues status)])
  end.

(** an optional text column of the form: a key the parsed data lack is
    [undefined] in [data], a key they have is its string *)
Definition text_field (v : option string) : Field (option string) :=
  match v with
  | None => Undefined
  | Some s => Given (Some s)
  end.

(** the [data] of [prisma.event.update]; [None] when [new Date(...)] is an
    invalid date, which the client refuses *)
Definition update_data `{Runtime} (d : EventData)
    : option prisma.event.UpdateInput :=
  match Date_parse (dateStart d) with
  | None => None
  | Some start =>
      let finish :=
        match dateEnd d with
        | None => Some None
        | Some e =>
            if decide (e = "") then Some None
            else match Date_parse e with
                 | Some t => Some (Some t)
                 | None => None
                 end
        end in
      match finish with
      | None => None
      | Some dateEnd' =>
          Some {| prisma.event.name := Given (name d);
                  prisma.event.dateStart := Given start;
                  prisma.event.dateEnd := Given dateEnd';
                  prisma.event.description := text_field (description d);
                  prisma.event.locationName := text_field (locationName d);
                  prisma.event.locationAddress :=
                    text_field (locationAddress d);
                  prisma.event.status := Given (status d);
                  prisma.event.isPublic := Given (isPublic d) |}
      end
  end.

Definition payload_toJson (payload : gmap string FormDataEntryValue) : Json :=
  JObj (FormDataEntryValue_toJson <$> payload).

(** [{ ...formPayload, isPublic: formPayload.isPublic === 'on' }] *)
Definition returnValues (payload : gmap string FormDataEntryValue) : Json :=
  JObj (<[ "isPublic" := JBool (z.checkbox (payload !! "isPublic")) ]>
          (FormDataEntryValue_toJson <$> payload)).

Definition update_failed (payload : gmap string FormDataEntryValue)
    : Response :=
  json (JObj {[ "errors" :=
                  JObj {[ "form" :=
                            JStr "Failed to update event. Please try again." ]};
                "values" := returnValues payload ]}) 500.

Definition action `{Runtime} (env : Env) (request : Request) (w : World)
    : Response * World :=
  match requireUser request with
  | inl r => (r, w)
  | inr user =>
  match invariant_eventId request with
  | Some r => (r, w)
  | None =>
  let formPayload := Object_fromEntries (formData request) in
  match prisma.organizationUser.findFirst (SessionUser.id user) (db w) with
  | None =>
      (json (JObj {[ "errors" :=
               JObj {[ "form" :=
                         JStr "User not associated with an organization" ]} ]})
            403, w)
  | Some orgUser =>
  match EventSchema formPayload with
  | z.failure errors =>
      (json (JObj {[ "errors" := z.fieldErrors_toJson errors;
                     "values" := payload_toJson formPayload ]}) 400, w)
  | z.success data =>
  match prisma.event.findFirst (eventId request)
          (OrganizationUser.orgId orgUser) (db w) with
  | None => (throw_Response "Event not found or access denied" 404, w)
  | Some _ =>
      match update_data data with
      | None => (update_failed formPayload, w)
      | Some input =>
          match prisma.event.update (eventId request) input (now env)
                  (db w) with
          | Resolved s' =>
              (redirect ("/org/events/" +:+ eventId request), with_db s' w)
          | Rejected _ => (update_failed formPayload, w)
          end
      end
  end end end end end.

Definition formattedEvent `{Runtime} (e : Event.t) : Json :=
  JObj (<[ "dateStart" := JStr (format (Event.dateStart e) "yyyy-MM-dd") ]>
       (<[ "dateEnd" :=
             JOpt ((λ d, format d "yyyy-MM-dd") <$> Event.dateEnd e) ]>
       (<[ "description" := JStr (default "" (Event.description e)) ]>
       (<[ "locationName" := JStr (default "" (Event.locationName e)) ]>
       (<[ "locationAddress" :=
             JStr (default "" (Event.locationAddress e)) ]>
          (EventDetail.event_columns e)))))).

Definition loader `{Runtime} (request : Request) (s : Store) : Response :=
  match requireUser request with
  | inl r => r
  | inr user =>
  match invariant_eventId request with
  | Some r => r
  | None =>
  match prisma.organizationUser.findFirst (SessionUser.id user) s with
  | None => throw_Response "User not associated with an organization" 403
  | Some orgUser =>
  match prisma.event.findUnique (eventId request)
          (OrganizationUser.orgId orgUser) s with
  | None => throw_Response "Event not found or access denied" 404
  | Some event =>
      json (JObj {[ "event" := formattedEvent event;
                    "eventStatuses" :=
                      JArr ((λ st, JStr (EventStatus.to_string st))
                              <$> EventStatus.values) ]}) 200
  end end end end.

End EventEdit.

(** ** services/auth.server.ts and routes/login.tsx *)

Module AuthService.

(** the [verify] callback of the ["user-pass"] strategy: the message of the
    [Error] it throws, or the user to keep in the session *)
Definition verify `{Runtime} (form : FormData) (s : Store)
    : string + SessionUser.t :=
  let email := FormData_get "email" form in
  let password := FormData_get "password" form in
  match email, password with
  | None, _ | Some (FString ""), _ | _, None | _, Some (FString "") =>
      inl "Email and password are required."
  | Some (FFile _), Some _ => inl prismaValidationMessage
  | Some (FString email), Some password =>
      match prisma.user.findUnique email s with
      | None => inl "Invalid login credentials."
      | Some user =>
          match bcrypt_compare password (User.passwordHash user) with
          | inl message => inl message
          | inr isPasswordValid =>
              if isPasswordValid then inr (SessionUser.of_user user)
              else inl "Invalid login credentials."
          end
      end
  end.

End AuthService.

Module Login.

(** [authenticator.authenticate("user-pass", request, { successRedirect:
    "/org", throwOnError: true })] inside the action's [try] *)
Definition action `{Runtime} (form : FormData) (s : Store) : Response :=
  match AuthService.verify form s with
  | inr user => redirect_session "/org" user
  | inl message => flash_error message 401
  end.

End Login.

(** ** Writes, reachable stores and the schema's uniqueness constraints *)

(** The writes of the handlers ([event.create], [event.update],
    [event.delete], [eventPhoto.create], [eventPhoto.delete],
    [participant.create], [faceMatchingTask.create]) and, for the tables no
    handler writes yet, the creates and deletes that fill and empty them. *)
Inductive Write :=
| user_create (row : User.t)
| user_delete (id : Id)
| organization_create (row : Organization.t)
| organization_delete (id : Id)
| organizationUser_create (row : OrganizationUser.t)
| event_create (row : Event.t)
| event_update (id : Id) (data : prisma.event.UpdateInput) (now : DateTime)
| event_delete (id orgId : Id)
| participant_create (row : Participant.t)
| participant_delete (id : Id)
| eventPhoto_create (row : EventPhoto.t)
| eventPhoto_delete (id : Id)
| detectedFace_create (row : DetectedFace.t)
| photoParticipantMatch_create (row : PhotoParticipantMatch.t)
| photoParticipantMatch_delete (id : Id)
| faceMatchingTask_create (row : FaceMatchingTask.t)
| consentLog_create (row : ConsentLog.t).

Definition run (wr : Write) (s : Store) : Promise Store :=
  match wr with
  | user_create row => prisma.user.create row s
  | user_delete id => prisma.user.delete id s
  | organization_create row => prisma.organization.create row s
  | organization_delete id => prisma.organization.delete id s
  | organizationUser_create row => prisma.organizationUser.create row s
  | event_create row => prisma.event.create row s
  | event_update id data now => prisma.event.update id data now s
  | event_delete id orgId => prisma.event.delete id orgId s
  | participant_create row => prisma.participant.create row s
  | participant_delete id => prisma.participant.delete id s
  | eventPhoto_create row => prisma.eventPhoto.create row s
  | eventPhoto_delete id => prisma.eventPhoto.delete id s
  | detectedFace_create row => prisma.detectedFace.create row s
  | photoParticipantMatch_create row => prisma.photoParticipantMatch.create row s
  | photoParticipantMatch_delete id => prisma.photoParticipantMatch.delete id s
  | faceMatchingTask_create row => prisma.faceMatchingTask.create row s
  | consentLog_create row => prisma.consentLog.create row s
  end.

(** the stores that a sequence of successful writes builds from the empty
    database *)
Inductive reachable : Store → Prop :=
| reachable_empty : reachable empty_store
| reachable_write s wr s' :
    reachable s → run wr s = Resolved s' → reachable s'.

(** [@id], [@unique] and [@@unique] of the schema *)
Record Store_ok (s : Store) : Prop := {
  users_id : NoDup (User.id <$> users s);
  users_email : NoDup (User.email <$> users s);
  organizations_id : NoDup (Organization.id <$> organizations s);
  organizationUsers_id : NoDup (OrganizationUser.id <$> organizationUsers s);
  organizationUsers_pair :
    NoDup ((λ m, (OrganizationUser.userId m, OrganizationUser.orgId m))
             <$> organizationUsers s);
  events_id : NoDup (Event.id <$> events s);
  participants_id : NoDup (Participant.id <$> participants s);
  eventPhotos_id : NoDup (EventPhoto.id <$> eventPhotos s);
  detectedFaces_id : NoDup (DetectedFace.id <$> detectedFaces s);
  photoParticipantMatches_id :
    NoDup (PhotoParticipantMatch.id <$> photoParticipantMatches s);
  photoParticipantMatches_pair :
    NoDup (PhotoParticipantMatch.pair <$> photoParticipantMatches s);
  faceMatchingTasks_id : NoDup (FaceMatchingTask.id <$> faceMatchingTasks s);
  consentLogs_id : NoDup (ConsentLog.id <$> consentLogs s) }.

(** ** The operations addressed by an event's id *)

Inductive Operation :=
| EventDetailRead
| EventEditRead
| EventUpdate
| EventDeletion
| PhotoUpload
| PhotoDeletion
| ParticipantsLayoutRead
| ParticipantListing
| ParticipantCreation
| FaceMatchingInitiation.

(** the handler that serves an operation *)
Definition perform `{Runtime} (op : Operation) (env : Env)
    (request : Request) (w : World) : Response * World :=
  match op with
  | EventDetailRead => (EventDetail.loader request (db w), w)
  | EventEditRead => (EventEdit.loader request (db w), w)
  | EventUpdate => EventEdit.action env request w
  | EventDeletion => EventDelete.action request w
  | PhotoUpload | PhotoDeletion | FaceMatchingInitiation =>
      EventDetail.action env request w
  | ParticipantsLayoutRead => (ParticipantsLayout.loader request (db w), w)
  | ParticipantListing => (ParticipantsIndex.loader request (db w), w)
  | ParticipantCreation => ParticipantNew.action env request w
  end.

(** what a handler checks about the request before it looks the event up *)
Definition earlier_guards `{Runtime} (op : Operation) (request : Request)
    : Prop :=
  match op with
  | EventUpdate =>
      ∃ data,
        EventEdit.EventSchema (Object_fromEntries (formData request))
          = z.success data
  | EventDeletion => method request = "POST"
  | _ => True
  end.

(** every membership row of the user is a membership of [orgId], and there
    is one *)
Definition only_membership (s : Store) (userId orgId : Id) : Prop :=
  Exists (λ m, OrganizationUser.userId m = userId) (organizationUsers s) ∧
  Forall (λ m, OrganizationUser.userId m = userId →
               OrganizationUser.orgId m = orgId) (organizationUsers s).

(** no event of the store has this id *)
Definition no_such_event (s : Store) (id : Id) : Prop :=
  Forall (λ e, Event.id e ≠ id) (events s).

(** The event a request is let through to: the signed-in user's first
    membership row names the organization, and the event of the route is
    looked up inside it. *)
Definition member_event (request : Request) (s : Store) : option Event.t :=
  match session request with
  | None => None
  | Some user =>
      if decide (eventId request = "") then None
      else
        match prisma.organizationUser.findFirst (SessionUser.id user) s with
        | None => None
        | Some orgUser =>
            prisma.event.findFirst (eventId request)
              (OrganizationUser.orgId orgUser) s
        end
  end.

Definition authorized (request : Request) (s : Store) : Prop :=
  is_Some (member_event request s).

(** ** Reading responses and stores *)

(** the [error] member of a JSON answer *)
Definition error_of (r : Response) : option string :=
  match r with
  | json (JObj m) _ =>
      match m !! "error" with Some (JStr e) => Some e | _ => None end
  | _ => None
  end.

(** [errors.<field>] of a JSON answer *)
Definition field_error_of (field : string) (r : Response) : option Json :=
  match r with
  | json (JObj m) _ =>
      match m !! "errors" with Some (JObj e) => e !! field | _ => None end
  | _ => None
  end.

(** [word] occurs in [text] *)
Fixpoint mentions (word text : string) : bool :=
  String.prefix word text ||
  match text with
  | EmptyString => false
  | String _ rest => mentions word rest
  end.

(** a text field as the form submitted it *)
Definition submitted (payload : gmap string FormDataEntryValue)
    (key : string) : option string :=
  match payload !! key with Some (FString s) => Some s | _ => None end.

Definition photos_of_event (eventId : Id) (s : Store) : list Id :=
  EventPhoto.id <$> filter (λ p, EventPhoto.eventId p = eventId) (eventPhotos s).

Definition participants_of_event (eventId : Id) (s : Store) : list Id :=
  Participant.id
    <$> filter (λ p, Participant.eventId p = eventId) (participants s).

(** a foreign key after the rows [gone] are deleted under [SetNull] *)
Definition null_if_gone (gone : list Id) (ref : option Id) : option Id :=
  match ref with
  | Some i => if decide (i ∈ gone) then None else Some i
  | None => None
  end.

(** the columns of an audit row that are no foreign key to an Event or a
    Participant *)
Definition same_record (c c' : ConsentLog.t) : Prop :=
  ConsentLog.id c' = ConsentLog.id c ∧
  ConsentLog.userId c' = ConsentLog.userId c ∧
  ConsentLog.type c' = ConsentLog.type c ∧
  ConsentLog.status c' = ConsentLog.status c ∧
  ConsentLog.timestamp c' = ConsentLog.timestamp c ∧
  ConsentLog.details c' = ConsentLog.details c.

(** the entities a ConsentLog row points at *)
Inductive Entity :=
| TheUser (id : Id)
| TheEvent (id orgId : Id)
| TheParticipant (id : Id).

Definition delete_entity (e : Entity) (s : Store) : Promise Store :=
  match e with
  | TheUser id => prisma.user.delete id s
  | TheEvent id orgId => prisma.event.delete id orgId s
  | TheParticipant id => prisma.participant.delete id s
  end.

(** ** Sample data: two tenants and one event *)

Module Sample.

(** A runtime to evaluate the handlers with.  It knows the two dates the
    examples submit, takes any text with an [@] for an e-mail address and
    "hashes" a password by prefixing it. *)
Definition runtime : Runtime :=
  {| Date_parse := λ d,
       if decide (d = "2025-05-01") then Some 1746057600000
       else if decide (d = "2025-05-02") then Some 1746144000000
       else None;
     format := λ d _, pretty d;
     toISOString := λ d, pretty d;
     isEmail := λ a, mentions "@" a;
     bcrypt_compare := λ v hash,
       match v with
       | FString p => inr (bool_decide (hash = "hash:" +:+ p))
       | FFile _ => inl "Illegal arguments: object, string"
       end;
     prismaValidationMessage := "Invalid `prisma.user.findUnique()` invocation" |}.

Definition alice : User.t :=
  {| User.id := "u_alice"; User.externalSystemId := None;
     User.email := "alice@a.example"; User.passwordHash := "hash:wonderland";
     User.name := Some "Alice"; User.profilePhotoUrl := None;
     User.role := Role.ORGANIZATION_ADMIN;
     User.createdAt := 1000; User.updatedAt := 1000 |}.

Definition bob : User.t :=
  {| User.id := "u_bob"; User.externalSystemId := None;
     User.email := "bob@b.example"; User.passwordHash := "hash:builder";
     User.name := Some "Bob"; User.profilePhotoUrl := None;
     User.role := Role.ORGANIZATION_ADMIN;
     User.createdAt := 1001; User.updatedAt := 1001 |}.

Definition gala : Event.t :=
  {| Event.id := "ev_gala"; Event.orgId := "org_a"; Event.categoryId := None;
     Event.name := "Spring Gala"; Event.dateStart := 1746057600000;
     Event.dateEnd := None; Event.status := EventStatus.DRAFT;
     Event.description := Some "Annual dinner";
     Event.locationName := Some "Town hall"; Event.locationAddress := None;
     Event.isPublic := false;
     Event.createdAt := 2000; Event.updatedAt := 2000 |}.

Definition guest : Participant.t :=
  {| Participant.id := "pa_1"; Participant.eventId := "ev_gala";
     Participant.userId := Some "u_bob"; Participant.name := Some "Bob";
     Participant.email := Some "a@example.com";
     Participant.registrationStatus := Some "Invited";
     Participant.consentStatus := false;
     Participant.referencePhotoUrl := None;
     Participant.createdAt := 3000; Participant.updatedAt := 3000 |}.

Definition photo : EventPhoto.t :=
  {| EventPhoto.id := "ph_1"; EventPhoto.eventId := "ev_gala";
     EventPhoto.uploaderUserId := "u_alice";
     EventPhoto.imageUrl := "/placeholder-storage/events/ev_gala/photos/4000-a.jpg";
     EventPhoto.thumbnailUrl := None; EventPhoto.uploadTime := 4000;
     EventPhoto.reviewStatus := PhotoReviewStatus.PENDING;
     EventPhoto.isPublic := false; EventPhoto.metadata := None;
     EventPhoto.createdAt := 4000; EventPhoto.updatedAt := 4000 |}.

Definition face : DetectedFace.t :=
  {| DetectedFace.id := "df_1"; DetectedFace.photoId := "ph_1";
     DetectedFace.boundingBox := "[0,0,10,10]";
     DetectedFace.faceDescriptor := None; DetectedFace.createdAt := 5000 |}.

Definition matched : PhotoParticipantMatch.t :=
  {| PhotoParticipantMatch.id := "pm_1";
     PhotoParticipantMatch.photoId := "ph_1";
     PhotoParticipantMatch.participantId := "pa_1";
     PhotoParticipantMatch.confidenceScore := None;
     PhotoParticipantMatch.matchTime := 5000;
     PhotoParticipantMatch.createdAt := 5000 |}.

Definition task : FaceMatchingTask.t :=
  {| FaceMatchingTask.id := "ft_1"; FaceMatchingTask.eventId := "ev_gala";
     FaceMatchingTask.status := FaceMatchingTaskStatus.COMPLETED;
     FaceMatchingTask.startTime := Some 4500;
     FaceMatchingTask.completionTime := Some 5000;
     FaceMatchingTask.awsRequestId := None;
     FaceMatchingTask.errorDetails := None;
     FaceMatchingTask.createdAt := 4500; FaceMatchingTask.updatedAt := 5000 |}.

Definition consent : ConsentLog.t :=
  {| ConsentLog.id := "cl_1"; ConsentLog.userId := "u_bob";
     ConsentLog.eventId := Some "ev_gala";
     ConsentLog.participantId := Some "pa_1";
     ConsentLog.type := ConsentType.FACIAL_RECOGNITION;
     ConsentLog.status := ConsentActionStatus.GRANTED;
     ConsentLog.timestamp := 3500; ConsentLog.details := Some "policy v1" |}.

(** organization A owns the gala, Alice belongs to A and Bob to B *)
Definition store : Store :=
  {| users := [alice; bob];
     organizations :=
       [ {| Organization.id := "org_a"; Organization.name := "A" |};
         {| Organization.id := "org_b"; Organization.name := "B" |} ];
     organizationUsers :=
       [ {| OrganizationUser.id := "ou_1"; OrganizationUser.userId := "u_alice";
            OrganizationUser.orgId := "org_a";
            OrganizationUser.createdAt := 1000;
            OrganizationUser.updatedAt := 1000 |};
         {| OrganizationUser.id := "ou_2"; OrganizationUser.userId := "u_bob";
            OrganizationUser.orgId := "org_b";
            OrganizationUser.createdAt := 1001;
            OrganizationUser.updatedAt := 1001 |} ];
     events := [gala];
     participants := [guest];
     eventPhotos := [photo];
     detectedFaces := [face];
     photoParticipantMatches := [matched];
     faceMatchingTasks := [task];
     consentLogs := [consent] |}.

Definition world : World := {| db := store; calls := [] |}.

Definition env : Env := {| now := 9000; cuid := "c_new" |}.

(** a request about the gala from a signed-in user *)
Definition request_of (u : User.t) (method : string)
    (form : list (string * FormDataEntryValue)) : Request :=
  {| method := method; session := Some (SessionUser.of_user u);
     eventId := "ev_gala"; formData := form |}.

Definition org_a : Organization.t :=
  {| Organization.id := "org_a"; Organization.name := "A" |}.

Definition org_b : Organization.t :=
  {| Organization.id := "org_b"; Organization.name := "B" |}.

Definition alice_in_a : OrganizationUser.t :=
  {| OrganizationUser.id := "ou_1"; OrganizationUser.userId := "u_alice";
     OrganizationUser.orgId := "org_a";
     OrganizationUser.createdAt := 1000; OrganizationUser.updatedAt := 1000 |}.

Definition bob_in_b : OrganizationUser.t :=
  {| OrganizationUser.id := "ou_2"; OrganizationUser.userId := "u_bob";
     OrganizationUser.orgId := "org_b";
     OrganizationUser.createdAt := 1001; OrganizationUser.updatedAt := 1001 |}.

(** the writes that build [store] from the empty database *)
Definition history : list Write :=
  [ user_create alice; user_create bob;
    organization_create org_a; organization_create org_b;
    organizationUser_create alice_in_a; organizationUser_create bob_in_b;
    event_create gala; participant_create guest; eventPhoto_create photo;
    detectedFace_create face; photoParticipantMatch_create matched;
    faceMatchingTask_create task; consentLog_create consent ].

End Sample.

(** the store after a list of writes, when all of them resolve *)
Fixpoint replay (l : list Write) (s : Store) : option Store :=
  match l with
  | [] => Some s
  | wr :: rest =>
      match run wr s with
      | Resolved s' => replay rest s'
      | Rejected _ => None
      end
  end.

(** ** app/utils/auth.server.ts: [requireUser] with its options, [getUser] *)

Record RequireUserOptions := {
  redirectTo : option string;
  requiredRoles : option (list Role.t) }.

(** [requireUser(request, options)].  [options?.redirectTo ?? "/login"] is
    the [failureRedirect] given to [isAuthenticated], which redirects only
    when it is a non-empty string: with an empty [redirectTo] and no session it
    returns [null], and then either [null.role] is read, a [TypeError], or
    [null] is returned as the user.  A [requiredRoles] array, empty or not,
    is checked with [includes]; its refusal is [throw redirect(...)], also
    to the empty location.  [inr None] is the [null] returned. *)
Definition requireUser_options (request : Request)
    (options : option RequireUserOptions)
    : Response + option SessionUser.t :=
  let target := default "/login" (options ≫= redirectTo) in
  match session request with
  | None =>
      if decide (target = "") then
        match options ≫= requiredRoles with
        | Some _ =>
            inl (throw_Error
                   "Cannot read properties of null (reading 'role')")
        | None => inr None
        end
      else inl (redirect target)
  | Some user =>
      match options ≫= requiredRoles with
      | Some roles =>
          if decide (SessionUser.role user ∈ roles) then inr (Some user)
          else inl (redirect target)
      | None => inr (Some user)
      end
  end.


Definition Role_to_string (r : Role.t) : string :=
  match r with
  | Role.ORGANIZATION_ADMIN => "ORGANIZATION_ADMIN"
  | Role.ORGANIZATION_EDITOR => "ORGANIZATION_EDITOR"
  | Role.ORGANIZATION_VIEWER => "ORGANIZATION_VIEWER"
  | Role.INDIVIDUAL_USER => "INDIVIDUAL_USER"
  end.

Definition SessionUser_toJson `{Runtime} (u : SessionUser.t) : Json :=
  JObj {[ "id" := JStr (SessionUser.id u);
          "externalSystemId" := JOpt (SessionUser.externalSystemId u);
          "email" := JStr (SessionUser.email u);
          "name" := JOpt (SessionUser.name u);
          "profilePhotoUrl" := JOpt (SessionUser.profilePhotoUrl u);
          "role" := JStr (Role_to_string (SessionUser.role u));
          "createdAt" := JStr (toISOString (SessionUser.createdAt u));
          "updatedAt" := JStr (toISOString (SessionUser.updatedAt u)) ]}.

(** ** routes/org+/_layout.tsx and routes/org+/index.tsx *)

Module OrgLayout.
Definition loader `{Runtime} (request : Request) : Response :=
  match requireUser request with
  | inl r => r
  | inr user => json (JObj {[ "user" := SessionUser_toJson user ]}) 200
  end.
End OrgLayout.

Module OrgDashboard.
Definition loader `{Runtime} (request : Request) : Response :=
  match requireUser request with
  | inl r => r
  | inr user => json (JObj {[ "user" := SessionUser_toJson user ]}) 200
  end.
End OrgDashboard.

(** ** routes/org+/events+/index.tsx: the list of events *)

Module EventsIndex.

(** [select: { id, name, dateStart, status }] *)
Definition event_toJson `{Runtime} (e : Event.t) : Json :=
  JObj {[ "id" := JStr (Event.id e);
          "name" := JStr (Event.name e);
          "dateStart" := JStr (toISOString (Event.dateStart e));
          "status" := JStr (EventStatus.to_string (Event.status e)) ]}.

Definition loader `{Runtime} (request : Request) (s : Store) : Response :=
  match requireUser request with
  | inl r => r
  | inr user =>
  match prisma.organizationUser.findFirst (SessionUser.id user) s with
  | None => throw_Response "User not associated with an organization" 403
  | Some orgUser =>
      json (JObj {[ "events" :=
                      JArr (event_toJson
                              <$> prisma.event.findMany
                                    (OrganizationUser.orgId orgUser) s) ]})
           200
  end end.

End EventsIndex.

(** ** routes/org+/events+/new.tsx *)

Module EventNew.

(** [EventSchema.safeParse(formPayload)]; the data are [name] and
    [dateStart] *)
Definition EventSchema `{Runtime} (payload : gmap string FormDataEntryValue)
    : z.SafeParse (string * string) :=
  let name := z.string_min1 "Event name is required" (payload !! "name") in
  let dateStart :=
    match z.str (payload !! "dateStart") with
    | inr d =>
        match Date_parse d with
        | Some _ => inr d
        | None => inl ["Invalid start date"]
        end
    | inl e => inl e
    end in
  match name, dateStart with
  | inr n, inr d => z.success (n, d)
  | _, _ =>
      z.failure
        (z.flatten [("name", z.issues name); ("dateStart", z.issues dateStart)])
  end.

Definition loader (request : Request) : Response :=
  match requireUser request with
  | inl r => r
  | inr _ => json (JObj ∅) 200
  end.

Definition form_error (message : string) (status : Z) : Response :=
  json (JObj {[ "errors" := JObj {[ "form" := JStr message ]} ]}) status.

Definition create_failed : Response :=
  form_error "Failed to create event. Please try again." 500.

(** the [request] of this route has no [eventId] parameter; the field is
    not read *)
Definition action `{Runtime} (env : Env) (request : Request) (w : World)
    : Response * World :=
  match requireUser request with
  | inl r => (r, w)
  | inr user =>
  let formPayload := Object_fromEntries (formData request) in
  match prisma.organizationUser.findFirst (SessionUser.id user) (db w) with
  | None => (form_error "User not associated with an organization" 403, w)
  | Some orgUser =>
  match EventSchema formPayload with
  | z.failure errors =>
      (json (JObj {[ "errors" := z.fieldErrors_toJson errors ]}) 400, w)
  | z.success (name, dateStart) =>
      match Date_parse dateStart with
      | None => (create_failed, w)
      | Some start =>
          match prisma.event.create
                  {| Event.id := cuid env;
                     Event.orgId := OrganizationUser.orgId orgUser;
                     Event.categoryId := None;
                     Event.name := name;
                     Event.dateStart := start;
                     Event.dateEnd := None;
                     Event.status := EventStatus.DRAFT;
                     Event.description := None;
                     Event.locationName := None;
                     Event.locationAddress := None;
                     Event.isPublic := false;
                     Event.createdAt := now env;
                     Event.updatedAt := now env |} (db w) with
          | Resolved s' =>
              (redirect ("/org/events/" +:+ cuid env), with_db s' w)
          | Rejected _ => (create_failed, w)
          end
      end
  end end end.

End EventNew.

(** ** routes/login.tsx: the loader *)

Module LoginPage.
(** [authenticator.isAuthenticated(request, { successRedirect: "/org" })]:
    a signed-in user is sent on, anyone else gets the form *)
Definition loader (request : Request) : Response :=
  match session request with
  | Some _ => redirect "/org"
  | None => json JNull 200
  end.
End LoginPage.

(** ** The schema's foreign keys *)

(** every reference of a row is to a row that is there *)
Record References_ok (s : Store) : Prop := {
  organizationUser_user :
    Forall (λ m, OrganizationUser.userId m ∈ User.id <$> users s)
           (organizationUsers s);
  organizationUser_org :
    Forall (λ m, OrganizationUser.orgId m
                   ∈ Organization.id <$> organizations s)
           (organizationUsers s);
  event_organization :
    Forall (λ e, Event.orgId e ∈ Organization.id <$> organizations s)
           (events s);
  participant_event :
    Forall (λ p, Participant.eventId p ∈ Event.id <$> events s)
           (participants s);
  participant_user :
    Forall (λ p, fk_ok (Participant.userId p) (User.id <$> users s))
           (participants s);
  eventPhoto_event :
    Forall (λ p, EventPhoto.eventId p ∈ Event.id <$> events s)
           (eventPhotos s);
  eventPhoto_uploader :
    Forall (λ p, EventPhoto.uploaderUserId p ∈ User.id <$> users s)
           (eventPhotos s);
  detectedFace_photo :
    Forall (λ f, DetectedFace.photoId f ∈ EventPhoto.id <$> eventPhotos s)
           (detectedFaces s);
  photoParticipantMatch_photo :
    Forall (λ m, PhotoParticipantMatch.photoId m
                   ∈ EventPhoto.id <$> eventPhotos s)
           (photoParticipantMatches s);
  photoParticipantMatch_participant :
    Forall (λ m, PhotoParticipantMatch.participantId m
                   ∈ Participant.id <$> participants s)
           (photoParticipantMatches s);
  faceMatchingTask_event :
    Forall (λ k, FaceMatchingTask.eventId k ∈ Event.id <$> events s)
           (faceMatchingTasks s);
  consentLog_user :
    Forall (λ c, ConsentLog.userId c ∈ User.id <$> users s) (consentLogs s);
  consentLog_event :
    Forall (λ c, fk_ok (ConsentLog.eventId c) (Event.id <$> events s))
           (consentLogs s);
  consentLog_participant :
    Forall (λ c, fk_ok (ConsentLog.participantId c)
                       (Participant.id <$> participants s))
           (consentLogs s) }.

(** the characters of a string *)
Fixpoint chars (s : string) : list ascii :=
  match s with
  | EmptyString => []
  | String a rest => a :: chars rest
  end.


(** * Properties *)

(** ** Lists: the first row a query selects *)

Section first_row.
Context {A : Type} (P : A → Prop) `{!∀ x, Decision (P x)}.

Lemma head_filter_None (l : list A) :
  head (filter P l) = None ↔ ∀ x, x ∈ l → ¬ P x.
Proof.
  rewrite head_None. split.
  - intros Hnil x Hx HP.
    assert (x ∈ filter P l) as Hin by (apply list_elem_of_filter; done).
    rewrite Hnil in Hin. by apply not_elem_of_nil in Hin.
  - intros Hall. induction l as [|a l IH]; [done|].
    rewrite filter_cons_False; [|apply Hall; left].
    apply IH. intros x Hx. apply Hall. by right.
Qed.

Lemma head_filter_Some (l : list A) (x : A) :
  head (filter P l) = Some x → x ∈ l ∧ P x.
Proof.
  intros Hh. apply head_Some_elem_of in Hh.
  by apply list_elem_of_filter in Hh as [? ?].
Qed.

Lemma head_filter_is_Some (l : list A) (x : A) :
  x ∈ l → P x → is_Some (head (filter P l)).
Proof.
  intros Hx HP. destruct (head (filter P l)) eqn:Hh; [by eexists|].
  destruct (proj1 (head_filter_None l) Hh x Hx HP).
Qed.
End first_row.

(** a key without duplicates identifies its row *)
Lemma NoDup_fmap_eq {A B} (f : A → B) (l : list A) (x y : A) :
  NoDup (f <$> l) → x ∈ l → y ∈ l → f x = f y → x = y.
Proof.
  induction l as [|a l IH]; intros Hnd Hx Hy Hf.
  - by apply not_elem_of_nil in Hx.
  - rewrite fmap_cons in Hnd. apply NoDup_cons in Hnd as [Hna Hnd].
    apply elem_of_cons in Hx as [->|Hx]; apply elem_of_cons in Hy as [->|Hy].
    + done.
    + exfalso. apply Hna. rewrite Hf. by apply list_elem_of_fmap_2.
    + exfalso. apply Hna. rewrite <- Hf. by apply list_elem_of_fmap_2.
    + by apply IH.
Qed.

(** ** The sample store *)

Lemma sample_store_replayed : replay Sample.history empty_store = Some Sample.store.
Proof. vm_compute. reflexivity. Qed.

Lemma sample_store_ok : Store_ok Sample.store.
Proof. split; compute_done. Qed.

(** ** The scenarios of the specification, run on the sample store *)

Example fromEntries_last_value_wins :
  Object_fromEntries [("a", FString "1"); ("a", FString "2")] !! "a"
  = Some (FString "2").
Proof. vm_compute. reflexivity. Qed.

Example get_first_value_wins :
  FormData_get "a" [("a", FString "1"); ("a", FString "2")]
  = Some (FString "1").
Proof. vm_compute. reflexivity. Qed.

Example upload_url :
  (uploadFileToStorage Sample.env
     {| File_name := "my  pic 1.jpg"; File_size := 10;
        File_type := "image/jpeg" |}
     "events/ev_gala/photos" Sample.world).1
  = "/placeholder-storage/events/ev_gala/photos/9000-my_pic_1.jpg".
Proof. vm_compute. reflexivity. Qed.

(** Organization B's user asks for the page of A's gala. *)
Example scenario_other_tenant_reads_gala :
  EventDetail.loader (H := Sample.runtime)
    (Sample.request_of Sample.bob "GET" []) Sample.store
  = throw_Response "Event not found or access denied" 404.
Proof. vm_compute. reflexivity. Qed.

(** The gala has participants and no photo: face matching is refused with
    the message about photos.  After one upload it starts: a PENDING task,
    and the stubs have seen the upload and then one trigger. *)
Example scenario_face_matching_needs_a_photo :
  let start :=
    Sample.request_of Sample.alice "POST"
      [("intent", FString "initiateFaceMatching")] in
  let upload :=
    Sample.request_of Sample.alice "POST"
      [("intent", FString "uploadPhoto");
       ("photoFile", FFile {| File_name := "a.jpg"; File_size := 10;
                              File_type := "image/jpeg" |})] in
  let w0 := {| db := with_eventPhotos [] Sample.store; calls := [] |} in
  let r1 := EventDetail.action Sample.env start w0 in
  let r2 := EventDetail.action {| now := 9100; cuid := "c_photo" |} upload r1.2 in
  let r3 := EventDetail.action {| now := 9200; cuid := "c_task" |} start r2.2 in
  status_of r1.1 = 400 ∧
  error_of r1.1 = Some "Cannot initiate matching without uploaded photos." ∧
  r1.2 = w0 ∧
  status_of r2.1 = 200 ∧
  status_of r3.1 = 200 ∧
  (λ k, (FaceMatchingTask.id k, FaceMatchingTask.status k))
    <$> faceMatchingTasks (db r3.2)
  = [("ft_1", FaceMatchingTaskStatus.COMPLETED);
     ("c_task", FaceMatchingTaskStatus.PENDING)] ∧
  fst <$> calls r3.2
  = [StorageUpload {| File_name := "a.jpg"; File_size := 10;
                      File_type := "image/jpeg" |}
       "events/ev_gala/photos"
       "/placeholder-storage/events/ev_gala/photos/9100-a.jpg";
     LambdaTrigger "ev_gala" "c_task"].
Proof. vm_compute. repeat split. Qed.

(** After a photo is deleted, deleting it again is answered 404. *)
Example scenario_delete_photo_twice :
  let delete :=
    Sample.request_of Sample.alice "POST"
      [("intent", FString "deletePhoto"); ("photoId", FString "ph_1")] in
  let r1 := EventDetail.action Sample.env delete Sample.world in
  let r2 := EventDetail.action Sample.env delete r1.2 in
  status_of r1.1 = 200 ∧ status_of r2.1 = 404 ∧ r2.2 = r1.2.
Proof. vm_compute. repeat split. Qed.

(** The store has no constraint on a participant's e-mail: two rows of the
    same event with the same address are accepted, which is what two
    concurrent submissions that both passed the lookup would write. *)
Example scenario_store_accepts_duplicate_email :
  ∃ s',
    prisma.participant.create
      {| Participant.id := "pa_2"; Participant.eventId := "ev_gala";
         Participant.userId := None; Participant.name := Some "Al";
         Participant.email := Some "a@example.com";
         Participant.registrationStatus := Some "Invited";
         Participant.consentStatus := false;
         Participant.referencePhotoUrl := None;
         Participant.createdAt := 9000; Participant.updatedAt := 9000 |}
      Sample.store = Resolved s' ∧
    Participant.email <$> participants s'
    = [Some "a@example.com"; Some "a@example.com"].
Proof. eexists. split; vm_compute; reflexivity. Qed.

(** ** Tenancy: which rows the guard's two queries select *)

Lemma findFirst_membership (s : Store) (uid org : Id) :
  only_membership s uid org →
  ∃ m, prisma.organizationUser.findFirst uid s = Some m ∧
       OrganizationUser.orgId m = org.
Proof.
  intros [Hex Hall]. apply Exists_exists in Hex as [m [Hm Hu]].
  unfold prisma.organizationUser.findFirst.
  destruct (head_filter_is_Some (λ m, OrganizationUser.userId m = uid)
              (organizationUsers s) m Hm Hu) as [m' Hm'].
  exists m'. split; [done|].
  apply head_filter_Some in Hm' as [? ?].
  by apply (proj1 (Forall_forall _ _) Hall).
Qed.

Lemma findFirst_foreign_event (s : Store) (E : Event.t) (org : Id) :
  Store_ok s → E ∈ events s → org ≠ Event.orgId E →
  prisma.event.findFirst (Event.id E) org s = None.
Proof.
  intros Hok HE Hne. apply head_filter_None. intros e He [Hid Horg].
  assert (e = E) as ->
    by (eapply NoDup_fmap_eq; [apply (events_id _ Hok)|done..]).
  by subst.
Qed.

Lemma findFirst_absent_event (s : Store) (eid org : Id) :
  no_such_event s eid → prisma.event.findFirst eid org s = None.
Proof.
  intros Hall. apply head_filter_None. intros e He [Hid _].
  by apply (proj1 (Forall_forall _ _) Hall e).
Qed.

(** C1, as amended.  A signed-in user whose memberships are all in an
    organization other than the event's owner addresses an operation to the
    event [E].  Then (1) the answer is 404 whenever the request passes what
    the handler checks before it looks the event up, which is the form
    validation for the update, the POST method for the deletion and
    nothing for the other operations; (2) the world is left as it was;
    (3) in every case the answer is the one given in any world [w0] with the
    same membership rows in which no event has that id. *)
Theorem C1_cross_tenant_not_found {rt : Runtime} (op : Operation)
    (env : Env) (request : Request) (w w0 : World) (E : Event.t)
    (user : SessionUser.t) (org' : Id) :
  Store_ok (db w) →
  E ∈ events (db w) →
  session request = Some user →
  eventId request = Event.id E →
  Event.id E ≠ "" →
  only_membership (db w) (SessionUser.id user) org' →
  org' ≠ Event.orgId E →
  organizationUsers (db w0) = organizationUsers (db w) →
  no_such_event (db w0) (Event.id E) →
  (earlier_guards op request →
   status_of (perform op env request w).1 = 404) ∧
  (perform op env request w).2 = w ∧
  (perform op env request w0).2 = w0 ∧
  (perform op env request w).1 = (perform op env request w0).1.
Proof.
  intros Hok HE Hses Heid Hne Hmem Horg Hsame Habsent.
  destruct (findFirst_membership _ _ _ Hmem) as [m [Hm Hmo]].
  assert (prisma.organizationUser.findFirst (SessionUser.id user) (db w0)
          = Some m) as Hm0.
  { unfold prisma.organizationUser.findFirst in *. by rewrite Hsame. }
  pose proof (findFirst_foreign_event _ _ _ Hok HE Horg) as Hnone.
  pose proof (findFirst_absent_event (db w0) (Event.id E) org' Habsent)
    as Hnone0.
  destruct op; simpl;
    unfold EventDetail.loader, EventEdit.loader, EventEdit.action,
      EventDelete.action, EventDetail.action, ParticipantsLayout.loader,
      ParticipantsIndex.loader, ParticipantNew.action, requireUser,
      invariant_eventId, prisma.event.findUnique;
    rewrite Hses, Heid; (destruct (decide (Event.id E = "")); [done|]);
    rewrite ?Hm, ?Hm0, ?Hmo, ?Hnone, ?Hnone0; simpl.
  all: try done.
  - destruct (EventEdit.EventSchema _) eqn:Hs; simpl.
    + done.
    + split; [|done]. by intros [? ?].
  - destruct (decide (method request ≠ "POST")); simpl.
    + split; [|done]. done.
    + rewrite ?Hm, ?Hm0, ?Hmo, ?Hnone, ?Hnone0; simpl. done.
Qed.

(** Bob, of organization B, asks for the participants of A's gala. *)
Lemma C1_cross_tenant_not_found_witness :
  status_of
    (perform (H := Sample.runtime) ParticipantListing Sample.env
       (Sample.request_of Sample.bob "GET" []) Sample.world).1 = 404.
Proof.
  refine (proj1 (C1_cross_tenant_not_found (rt := Sample.runtime)
            ParticipantListing Sample.env
            (Sample.request_of Sample.bob "GET" []) Sample.world
            {| db := with_events [] Sample.store; calls := [] |}
            Sample.gala (SessionUser.of_user Sample.bob) "org_b"
            _ _ _ _ _ _ _ _ _) _).
  - exact sample_store_ok.
  - vm_compute. left.
  - reflexivity.
  - reflexivity.
  - vm_compute. discriminate.
  - vm_compute. split; [right; left; reflexivity|].
    repeat constructor; intros; congruence.
  - vm_compute. discriminate.
  - reflexivity.
  - vm_compute. constructor.
  - exact I.
Defined.

(** C1 as stated fails.  Bob, whose only membership is in organization B,
    addresses A's gala: an update with an empty name is answered 400 and a
    deletion sent with PUT is answered 405, not 404. *)
Lemma C1_update_and_delete_answer_before_lookup :
  Store_ok Sample.store ∧
  Sample.gala ∈ events Sample.store ∧
  only_membership Sample.store (User.id Sample.bob) "org_b" ∧
  "org_b" ≠ Event.orgId Sample.gala ∧
  status_of
    (perform (H := Sample.runtime) EventUpdate Sample.env
       (Sample.request_of Sample.bob "POST" [("name", FString "")])
       Sample.world).1 = 400 ∧
  status_of
    (perform (H := Sample.runtime) EventDeletion Sample.env
       (Sample.request_of Sample.bob "PUT" []) Sample.world).1 = 405.
Proof.
  split; [exact sample_store_ok|].
  repeat split; compute_done.
Qed.

(** ** The schema's uniqueness constraints hold in every reachable store *)

Lemma NoDup_fmap_filter {A B} (f : A → B) (P : A → Prop)
    `{!∀ x, Decision (P x)} (l : list A) :
  NoDup (f <$> l) → NoDup (f <$> filter P l).
Proof.
  induction l as [|a l IH]; [done|].
  rewrite fmap_cons, NoDup_cons. intros [Hna Hnd].
  destruct (decide (P a)).
  - rewrite filter_cons_True by done. rewrite fmap_cons, NoDup_cons.
    split; [|by apply IH]. intros Hin. apply Hna.
    apply list_elem_of_fmap in Hin as [y [-> Hy]].
    apply list_elem_of_filter in Hy as [_ Hy]. by apply list_elem_of_fmap_2.
  - rewrite filter_cons_False by done. by apply IH.
Qed.

Lemma NoDup_fmap_snoc {A B} (f : A → B) (l : list A) (x : A) :
  NoDup (f <$> l) → f x ∉ f <$> l → NoDup (f <$> (l ++ [x])%list).
Proof.
  intros Hnd Hx. rewrite fmap_app. apply NoDup_app. split; [done|].
  split; [|apply NoDup_singleton].
  intros y Hy Hin. apply list_elem_of_singleton in Hin. by subst.
Qed.

Lemma fmap_same_key {A B} (f : A → B) (g : A → A) (l : list A) :
  (∀ x, f (g x) = f x) → f <$> (g <$> l) = f <$> l.
Proof.
  intros Hk. induction l as [|a l IH]; [done|].
  rewrite !fmap_cons. by rewrite Hk, IH.
Qed.

Lemma clear_event_id gone c :
  ConsentLog.id (ConsentLog.clear_event gone c) = ConsentLog.id c.
Proof. unfold ConsentLog.clear_event. by repeat case_match. Qed.

Lemma clear_participant_id gone c :
  ConsentLog.id (ConsentLog.clear_participant gone c) = ConsentLog.id c.
Proof. unfold ConsentLog.clear_participant. by repeat case_match. Qed.

Lemma clear_user_id gone p :
  Participant.id (Participant.clear_user gone p) = Participant.id p.
Proof. unfold Participant.clear_user. by repeat case_match. Qed.

Ltac unfold_prisma :=
  unfold prisma.user.create, prisma.user.delete, prisma.organization.create,
    prisma.organization.delete, prisma.organizationUser.create,
    prisma.event.create, prisma.event.update, prisma.event.delete,
    prisma.participant.create, prisma.participant.delete,
    prisma.eventPhoto.create, prisma.eventPhoto.delete,
    prisma.detectedFace.create, prisma.photoParticipantMatch.create,
    prisma.photoParticipantMatch.delete, prisma.faceMatchingTask.create,
    prisma.consentLog.create in *.

Ltac unfold_referential :=
  unfold Referential.delete_organizations, Referential.organizations_gone,
    Referential.delete_users, Referential.users_gone,
    Referential.delete_events, Referential.events_gone,
    Referential.delete_participants, Referential.participants_gone,
    Referential.delete_eventPhotos, Referential.eventPhotos_gone in *.

Ltac key_unique :=
  repeat first
    [ assumption
    | apply NoDup_fmap_filter
    | rewrite fmap_same_key by
        first [ apply clear_event_id | apply clear_participant_id
              | apply clear_user_id | (intros ?; simpl; destruct (decide (Event.id _ = _)); reflexivity) ]
    | apply NoDup_fmap_snoc; [|assumption] ].

Lemma run_preserves_ok (wr : Write) (s s' : Store) :
  Store_ok s → run wr s = Resolved s' → Store_ok s'.
Proof.
  intros [] Hrun. destruct wr; simpl in Hrun; unfold_prisma;
    repeat case_match; simplify_eq; unfold_referential;
    split; simpl; key_unique.
Qed.

Lemma empty_store_ok : Store_ok empty_store.
Proof. split; simpl; constructor. Qed.

Lemma reachable_ok (s : Store) : reachable s → Store_ok s.
Proof.
  induction 1 as [|s wr s' _ IH Hrun]; [apply empty_store_ok|].
  by eapply run_preserves_ok.
Qed.

Lemma replay_reachable (l : list Write) (s s' : Store) :
  reachable s → replay l s = Some s' → reachable s'.
Proof.
  revert s. induction l as [|wr l IH]; intros s Hs Hr; simpl in Hr.
  - by simplify_eq.
  - destruct (run wr s) as [s1|] eqn:Hrun; [|done].
    apply (IH s1); [|done]. by eapply reachable_write.
Qed.

Lemma sample_store_reachable : reachable Sample.store.
Proof.
  apply (replay_reachable Sample.history empty_store);
    [constructor | exact sample_store_replayed].
Qed.

(** ** PhotoParticipantMatch: one row per pair *)

Lemma filter_key_absent {A B} `{EqDecision B} (f : A → B) (k : B)
    (l : list A) :
  k ∉ f <$> l → filter (λ x, f x = k) l = [].
Proof.
  induction l as [|a l IH]; [done|].
  rewrite fmap_cons, not_elem_of_cons. intros [Hne Hnin].
  rewrite filter_cons_False by done. by apply IH.
Qed.

Lemma NoDup_key_at_most_one {A B} `{EqDecision B} (f : A → B) (k : B)
    (l : list A) :
  NoDup (f <$> l) → (length (filter (λ x, f x = k) l) ≤ 1)%nat.
Proof.
  induction l as [|a l IH]; [simpl; lia|].
  rewrite fmap_cons, NoDup_cons. intros [Hna Hnd].
  destruct (decide (f a = k)) as [<-|Hne].
  - rewrite filter_cons_True by done.
    rewrite (filter_key_absent f (f a) l Hna). simpl. lia.
  - rewrite filter_cons_False by done. by apply IH.
Qed.

(** C9.  In every store that successful writes can build, a pair (photoId,
    participantId) has at most one PhotoParticipantMatch row, and creating a
    row for a pair that already has one is rejected. *)
Theorem C9_one_match_per_pair (s : Store) :
  reachable s →
  (∀ photoId participantId,
     (length (filter (λ m, PhotoParticipantMatch.pair m
                             = (photoId, participantId))
                     (photoParticipantMatches s)) ≤ 1)%nat) ∧
  (∀ row m,
     m ∈ photoParticipantMatches s →
     PhotoParticipantMatch.photoId row = PhotoParticipantMatch.photoId m →
     PhotoParticipantMatch.participantId row
       = PhotoParticipantMatch.participantId m →
     prisma.photoParticipantMatch.create row s
       = Rejected UniqueConstraintFailed).
Proof.
  intros Hs. apply reachable_ok in Hs. split.
  - intros ph pa. apply NoDup_key_at_most_one.
    apply (photoParticipantMatches_pair _ Hs).
  - intros row m Hm Hph Hpa. unfold prisma.photoParticipantMatch.create.
    destruct (decide (PhotoParticipantMatch.id row ∈ _)); [done|].
    destruct (decide (PhotoParticipantMatch.pair row ∈ _)) as [|Hnot]; [done|].
    exfalso. apply Hnot. apply list_elem_of_fmap. exists m. split; [|done].
    unfold PhotoParticipantMatch.pair. by rewrite Hph, Hpa.
Qed.

(** A second row for the matched photo and participant of the sample store
    is refused. *)
Lemma C9_one_match_per_pair_witness :
  prisma.photoParticipantMatch.create
    {| PhotoParticipantMatch.id := "pm_2";
       PhotoParticipantMatch.photoId := "ph_1";
       PhotoParticipantMatch.participantId := "pa_1";
       PhotoParticipantMatch.confidenceScore := Some 97;
       PhotoParticipantMatch.matchTime := 6000;
       PhotoParticipantMatch.createdAt := 6000 |} Sample.store
  = Rejected UniqueConstraintFailed.
Proof.
  apply (proj2 (C9_one_match_per_pair Sample.store sample_store_reachable)
           _ Sample.matched).
  - vm_compute. left.
  - reflexivity.
  - reflexivity.
Defined.

(** ** Deleting an event: what the cascade leaves *)

(** the tables after the rows selected by [P] are deleted from Event *)
Lemma delete_events_tables (P : Event.t → Prop) `{!∀ e, Decision (P e)}
    (s : Store) :
  let gone := Event.id <$> filter P (events s) in
  let parts :=
    Participant.id
      <$> filter (λ p, Participant.eventId p ∈ gone) (participants s) in
  let photos :=
    EventPhoto.id
      <$> filter (λ p, EventPhoto.eventId p ∈ gone) (eventPhotos s) in
  let s' := Referential.delete_events P s in
  events s' = filter (λ e, ¬ P e) (events s) ∧
  participants s'
    = filter (λ p, ¬ Participant.eventId p ∈ gone) (participants s) ∧
  eventPhotos s'
    = filter (λ p, ¬ EventPhoto.eventId p ∈ gone) (eventPhotos s) ∧
  faceMatchingTasks s'
    = filter (λ k, FaceMatchingTask.eventId k ∉ gone) (faceMatchingTasks s) ∧
  detectedFaces s'
    = filter (λ f, DetectedFace.photoId f ∉ photos) (detectedFaces s) ∧
  photoParticipantMatches s'
    = filter (λ m, PhotoParticipantMatch.photoId m ∉ photos)
        (filter (λ m, PhotoParticipantMatch.participantId m ∉ parts)
                (photoParticipantMatches s)) ∧
  consentLogs s'
    = ConsentLog.clear_event gone
        <$> (ConsentLog.clear_participant parts <$> consentLogs s) ∧
  users s' = users s ∧
  organizations s' = organizations s ∧
  organizationUsers s' = organizationUsers s.
Proof. repeat split. Qed.

(** the ids the deletion of one event collects *)
Lemma gone_one_event (s : Store) (E : Event.t) :
  E ∈ events s →
  ∀ x, x ∈ Event.id
         <$> filter (λ e, Event.id e = Event.id E ∧
                          Event.orgId e = Event.orgId E) (events s)
       ↔ x = Event.id E.
Proof.
  intros HE x. rewrite list_elem_of_fmap. split.
  - intros [e [-> He]]. by apply list_elem_of_filter in He as [[? ?] _].
  - intros ->. exists E. split; [done|]. by apply list_elem_of_filter.
Qed.

Lemma filter_ext_in {A} (P Q : A → Prop) `{!∀ x, Decision (P x)}
    `{!∀ x, Decision (Q x)} (l : list A) :
  (∀ x, P x ↔ Q x) → filter P l = filter Q l.
Proof. intros HPQ. by apply list_filter_iff. Qed.

Lemma clear_event_same gone c :
  same_record c (ConsentLog.clear_event gone c).
Proof. unfold ConsentLog.clear_event. by repeat case_match. Qed.

Lemma clear_participant_same gone c :
  same_record c (ConsentLog.clear_participant gone c).
Proof. unfold ConsentLog.clear_participant. by repeat case_match. Qed.

Lemma same_record_trans a b c :
  same_record a b → same_record b c → same_record a c.
Proof. unfold same_record. intros (?&?&?&?&?&?) (?&?&?&?&?&?). repeat split; congruence. Qed.

Lemma clear_event_eventId gone c :
  ConsentLog.eventId (ConsentLog.clear_event gone c)
  = null_if_gone gone (ConsentLog.eventId c).
Proof.
  unfold ConsentLog.clear_event, null_if_gone.
  destruct (ConsentLog.eventId c) eqn:He; [|by rewrite He].
  by destruct (decide _).
Qed.

Lemma clear_event_participantId gone c :
  ConsentLog.participantId (ConsentLog.clear_event gone c)
  = ConsentLog.participantId c.
Proof. unfold ConsentLog.clear_event. by repeat case_match. Qed.

Lemma clear_participant_participantId gone c :
  ConsentLog.participantId (ConsentLog.clear_participant gone c)
  = null_if_gone gone (ConsentLog.participantId c).
Proof.
  unfold ConsentLog.clear_participant, null_if_gone.
  destruct (ConsentLog.participantId c) eqn:He; [|by rewrite He].
  by destruct (decide _).
Qed.

Lemma clear_participant_eventId gone c :
  ConsentLog.eventId (ConsentLog.clear_participant gone c)
  = ConsentLog.eventId c.
Proof. unfold ConsentLog.clear_participant. by repeat case_match. Qed.

Lemma null_if_gone_ext gone gone' ref :
  (∀ x, x ∈ gone ↔ x ∈ gone') → null_if_gone gone ref = null_if_gone gone' ref.
Proof.
  intros Hg. unfold null_if_gone. destruct ref as [i|]; [|done].
  destruct (decide (i ∈ gone)) as [H1|H1], (decide (i ∈ gone')) as [H2|H2];
    try done; [by apply Hg in H1 | by apply Hg in H2].
Qed.

(** what [prisma.event.delete] does to the audit rows: every row stays, in
    place; a reference to the event or to one of its participants becomes
    null and nothing else changes *)
Lemma event_delete_consentLogs (s s' : Store) (id orgId : Id) :
  prisma.event.delete id orgId s = Resolved s' →
  Forall2
    (λ c c',
       same_record c c' ∧
       ConsentLog.eventId c' = null_if_gone [id] (ConsentLog.eventId c) ∧
       ConsentLog.participantId c'
         = null_if_gone (participants_of_event id s)
             (ConsentLog.participantId c))
    (consentLogs s) (consentLogs s').
Proof.
  unfold prisma.event.delete.
  destruct (prisma.event.findFirst id orgId s) as [E|] eqn:HE; [|done].
  intros [= <-]. apply head_filter_Some in HE as [HE [<- <-]].
  pose proof (gone_one_event s E HE) as Hgone.
  destruct (delete_events_tables
              (λ e, Event.id e = Event.id E ∧ Event.orgId e = Event.orgId E) s)
    as (_ & _ & _ & _ & _ & _ & -> & _).
  rewrite <- list_fmap_compose. apply Forall2_fmap_r, Forall_Forall2_diag.
  apply Forall_forall. intros c _. simpl. split; [|split].
  - eapply same_record_trans;
      [apply clear_participant_same | apply clear_event_same].
  - rewrite clear_event_eventId, clear_participant_eventId.
    apply null_if_gone_ext. intros x. rewrite Hgone.
    by rewrite list_elem_of_singleton.
  - rewrite clear_event_participantId, clear_participant_participantId.
    unfold participants_of_event.
    rewrite (filter_ext_in
               (λ p, Participant.eventId p ∈ Event.id <$> filter
                  (λ e, Event.id e = Event.id E ∧
                        Event.orgId e = Event.orgId E) (events s))
               (λ p, Participant.eventId p = Event.id E)); [done|].
    intros p. apply Hgone.
Qed.

Lemma event_findFirst_member (s : Store) (E : Event.t) :
  E ∈ events s →
  is_Some (prisma.event.findFirst (Event.id E) (Event.orgId E) s).
Proof.
  intros HE. unfold prisma.event.findFirst.
  by apply (head_filter_is_Some _ _ E).
Qed.

(** C2.  A member of the owning organization deletes an event.  The answer
    is the redirect to the list of events, and afterwards: no Event,
    Participant, EventPhoto or FaceMatchingTask row carries the event's id;
    no DetectedFace row points at a photo the event had; no
    PhotoParticipantMatch row points at a photo or a participant the event
    had; no ConsentLog row carries the event's id; and the ConsentLog rows
    are the rows of before, in place and otherwise unchanged, those that
    carried the event's id now with a null [eventId]. *)
Theorem C2_delete_event_cascade (request : Request) (w : World)
    (user : SessionUser.t) (m : OrganizationUser.t) (E : Event.t) :
  Store_ok (db w) →
  session request = Some user →
  method request = "POST" →
  eventId request ≠ "" →
  prisma.organizationUser.findFirst (SessionUser.id user) (db w) = Some m →
  E ∈ events (db w) →
  Event.id E = eventId request →
  Event.orgId E = OrganizationUser.orgId m →
  let s := db w in
  let id := eventId request in
  let s' := db (EventDelete.action request w).2 in
  (EventDelete.action request w).1 = redirect "/org/events" ∧
  no_such_event s' id ∧
  Forall (λ p, Participant.eventId p ≠ id) (participants s') ∧
  Forall (λ p, EventPhoto.eventId p ≠ id) (eventPhotos s') ∧
  Forall (λ k, FaceMatchingTask.eventId k ≠ id) (faceMatchingTasks s') ∧
  Forall (λ f, DetectedFace.photoId f ∉ photos_of_event id s)
         (detectedFaces s') ∧
  Forall (λ x, (PhotoParticipantMatch.photoId x ∉ photos_of_event id s) ∧
               (PhotoParticipantMatch.participantId x
                  ∉ participants_of_event id s))
         (photoParticipantMatches s') ∧
  Forall (λ c, ConsentLog.eventId c ≠ Some id) (consentLogs s') ∧
  Forall2 (λ c c', same_record c c' ∧
                   (ConsentLog.eventId c = Some id →
                    ConsentLog.eventId c' = None))
          (consentLogs s) (consentLogs s').
Proof.
  intros Hok Hses Hpost Hne Hm HE Hid Horg s id s'.
  subst s id s'. rewrite <- Hid in *.
  destruct (event_findFirst_member _ _ HE) as [E' HE'].
  assert (prisma.event.delete (Event.id E) (Event.orgId E) (db w)
          = Resolved (Referential.delete_events
                        (λ e, Event.id e = Event.id E ∧
                              Event.orgId e = Event.orgId E) (db w)))
    as Hdel.
  { unfold prisma.event.delete. by rewrite HE'. }
  assert (EventDelete.action request w
          = (redirect "/org/events",
             with_db (Referential.delete_events
                        (λ e, Event.id e = Event.id E ∧
                              Event.orgId e = Event.orgId E) (db w)) w))
    as ->.
  { unfold EventDelete.action, requireUser, invariant_eventId.
    rewrite Hses, <- Hid. destruct (decide (Event.id E = "")); [done|].
    destruct (decide (method request ≠ "POST")); [done|].
    by rewrite Hm, <- Horg, HE', Hdel. }
  pose proof (event_delete_consentLogs _ _ _ _ Hdel) as Hlogs.
  pose proof (gone_one_event (db w) E HE) as Hgone.
  cbn [fst snd db with_db].
  destruct (delete_events_tables
              (λ e, Event.id e = Event.id E ∧
                    Event.orgId e = Event.orgId E) (db w))
    as (He & Hpa & Hph & Hta & Hfa & Hma & _).
  assert (∀ x, x ∉ (Event.id <$> filter
                      (λ e, Event.id e = Event.id E ∧
                            Event.orgId e = Event.orgId E) (events (db w)))
               → x ≠ Event.id E) as Hnot.
  { intros x Hx ->. apply Hx. by apply Hgone. }
  split; [done|]. repeat split.
  - unfold no_such_event. rewrite He. apply Forall_forall. intros e He'.
    apply list_elem_of_filter in He' as [HnP He']. intros Heq. apply HnP.
    split; [done|].
    by rewrite (NoDup_fmap_eq Event.id _ e E (events_id _ Hok) He' HE Heq).
  - rewrite Hpa. apply Forall_forall. intros p Hp.
    apply list_elem_of_filter in Hp as [Hp _]. by apply Hnot.
  - rewrite Hph. apply Forall_forall. intros p Hp.
    apply list_elem_of_filter in Hp as [Hp _]. by apply Hnot.
  - rewrite Hta. apply Forall_forall. intros p Hp.
    apply list_elem_of_filter in Hp as [Hp _]. by apply Hnot.
  - rewrite Hfa. apply Forall_forall. intros f Hf.
    apply list_elem_of_filter in Hf as [Hf _]. unfold photos_of_event.
    rewrite (filter_ext_in (λ p, EventPhoto.eventId p = Event.id E)
               (λ p, EventPhoto.eventId p ∈ Event.id <$> filter
                  (λ e, Event.id e = Event.id E ∧
                        Event.orgId e = Event.orgId E) (events (db w)))); [done|].
    intros p. symmetry. apply Hgone.
  - rewrite Hma. apply Forall_forall. intros x Hx.
    apply list_elem_of_filter in Hx as [Hx1 Hx].
    apply list_elem_of_filter in Hx as [Hx2 _].
    unfold photos_of_event, participants_of_event.
    rewrite (filter_ext_in (λ p, EventPhoto.eventId p = Event.id E)
               (λ p, EventPhoto.eventId p ∈ Event.id <$> filter
                  (λ e, Event.id e = Event.id E ∧
                        Event.orgId e = Event.orgId E) (events (db w))))
      by (intros p; symmetry; apply Hgone).
    rewrite (filter_ext_in (λ p, Participant.eventId p = Event.id E)
               (λ p, Participant.eventId p ∈ Event.id <$> filter
                  (λ e, Event.id e = Event.id E ∧
                        Event.orgId e = Event.orgId E) (events (db w))))
      by (intros p; symmetry; apply Hgone).
    done.
  - apply Forall_forall. intros c' Hc'.
    apply list_elem_of_lookup in Hc' as [i Hi].
    destruct (Forall2_lookup_r _ _ _ _ _ Hlogs Hi) as (c & _ & _ & Hev & _).
    rewrite Hev. unfold null_if_gone.
    destruct (ConsentLog.eventId c) as [e|]; [|done].
    destruct (decide (e ∈ [Event.id E])) as [|Hn]; [done|].
    intros [= ->]. apply Hn. by left.
  - eapply Forall2_impl; [exact Hlogs|]. simpl.
    intros c c' (Hsame & Hev & _). split; [done|]. intros Hc.
    rewrite Hev, Hc. unfold null_if_gone.
    destruct (decide (Event.id E ∈ [Event.id E])) as [|Hn]; [done|].
    exfalso. apply Hn. by left.
Qed.

(** Alice, of organization A, deletes the gala of the sample store: no
    event is left, and the one audit row is still there. *)
Lemma C2_delete_event_cascade_witness :
  let s' :=
    db (EventDelete.action (Sample.request_of Sample.alice "POST" [])
          Sample.world).2 in
  no_such_event s' "ev_gala" ∧
  Forall (λ c, ConsentLog.eventId c ≠ Some "ev_gala") (consentLogs s') ∧
  length (consentLogs s') = 1%nat.
Proof.
  pose proof (C2_delete_event_cascade
                (Sample.request_of Sample.alice "POST" []) Sample.world
                (SessionUser.of_user Sample.alice) Sample.alice_in_a
                Sample.gala sample_store_ok eq_refl eq_refl
                ltac:(vm_compute; discriminate) eq_refl
                ltac:(vm_compute; left) eq_refl eq_refl)
    as (_ & Hev & _ & _ & _ & _ & _ & Hlog & Hall).
  split; [exact Hev|]. split; [exact Hlog|].
  apply Forall2_length in Hall. by rewrite <- Hall.
Defined.

(** ** Audit rows and the deletion of what they point at *)

Lemma gone_one_key {A} (f : A → Id) (l : list A) (k : Id) :
  k ∈ f <$> l → ∀ x, x ∈ f <$> filter (λ a, f a = k) l ↔ x = k.
Proof.
  intros Hk x. rewrite list_elem_of_fmap. split.
  - intros [a [-> Ha]]. by apply list_elem_of_filter in Ha as [? _].
  - intros ->. apply list_elem_of_fmap in Hk as [a [-> Ha]].
    exists a. split; [done|]. by apply list_elem_of_filter.
Qed.

Lemma one_key_singleton {A} (f : A → Id) (l : list A) (k : Id) :
  k ∈ f <$> l →
  ∀ x, x ∈ f <$> filter (λ a, f a = k) l ↔ x ∈ [k].
Proof.
  intros Hk x. rewrite (gone_one_key f l k Hk).
  by rewrite list_elem_of_singleton.
Qed.

(** C3, as amended.  Deleting an Event or a Participant deletes no ConsentLog
    row: the rows of before are all there, in place, and only a reference to
    a deleted row (the event, a participant deleted with it, the
    participant) has become null.  Deleting a User deletes the ConsentLog
    rows of that user, the relation being [onDelete: Cascade], and leaves
    those of the other users as they are. *)
Theorem C3_audit_rows_and_deletion (e : Entity) (s s' : Store) :
  delete_entity e s = Resolved s' →
  match e with
  | TheEvent id _ =>
      Forall2
        (λ c c',
           same_record c c' ∧
           ConsentLog.eventId c' = null_if_gone [id] (ConsentLog.eventId c) ∧
           ConsentLog.participantId c'
             = null_if_gone (participants_of_event id s)
                 (ConsentLog.participantId c))
        (consentLogs s) (consentLogs s')
  | TheParticipant id =>
      Forall2
        (λ c c',
           same_record c c' ∧
           ConsentLog.eventId c' = ConsentLog.eventId c ∧
           ConsentLog.participantId c'
             = null_if_gone [id] (ConsentLog.participantId c))
        (consentLogs s) (consentLogs s')
  | TheUser id =>
      consentLogs s' = filter (λ c, ConsentLog.userId c ≠ id) (consentLogs s)
  end.
Proof.
  destruct e as [id|id orgId|id]; simpl.
  - unfold prisma.user.delete. destruct (decide _) as [Hin|]; [|done].
    intros [= <-]. cbn.
    apply filter_ext_in. intros c.
    pose proof (gone_one_key User.id (users s) id Hin (ConsentLog.userId c))
      as Hk.
    split; intros Hc Hx; apply Hc; by apply Hk.
  - apply event_delete_consentLogs.
  - unfold prisma.participant.delete. destruct (decide _) as [Hin|]; [|done].
    intros [= <-]. cbn.
    apply Forall2_fmap_r, Forall_Forall2_diag, Forall_forall. intros c _.
    split; [apply clear_participant_same|].
    rewrite clear_participant_eventId, clear_participant_participantId.
    split; [done|]. apply null_if_gone_ext.
    by apply (one_key_singleton Participant.id).
Qed.

(** The guest of the sample store is deleted: the audit row stays, its
    reference to the guest null. *)
Lemma C3_audit_rows_and_deletion_witness :
  ∃ s', prisma.participant.delete "pa_1" Sample.store = Resolved s' ∧
        Forall2
          (λ c c',
             same_record c c' ∧
             ConsentLog.eventId c' = ConsentLog.eventId c ∧
             ConsentLog.participantId c'
               = null_if_gone ["pa_1"] (ConsentLog.participantId c))
          (consentLogs Sample.store) (consentLogs s').
Proof.
  eexists. split; [reflexivity|].
  exact (C3_audit_rows_and_deletion (TheParticipant "pa_1") Sample.store _
           eq_refl).
Defined.

(** C3 as stated fails for the User: deleting Bob takes his audit row with
    him. *)
Lemma C3_user_delete_removes_audit_rows :
  ∃ s', delete_entity (TheUser "u_bob") Sample.store = Resolved s' ∧
        Sample.consent ∈ consentLogs Sample.store ∧
        ConsentLog.userId Sample.consent = "u_bob" ∧
        consentLogs s' = [].
Proof. eexists. split; [reflexivity|]. repeat split. vm_compute. left. Qed.

(** ** The event page: face matching and photo deletion *)

Lemma authorized_inv (request : Request) (s : Store) :
  authorized request s →
  ∃ user orgUser event,
    session request = Some user ∧
    eventId request ≠ "" ∧
    prisma.organizationUser.findFirst (SessionUser.id user) s = Some orgUser ∧
    prisma.event.findFirst (eventId request)
      (OrganizationUser.orgId orgUser) s = Some event.
Proof.
  unfold authorized, member_event. intros [e He].
  destruct (session request) as [user|]; [|done].
  destruct (decide (eventId request = "")); [done|].
  destruct (prisma.organizationUser.findFirst _ s) as [m|] eqn:Hm; [|done].
  by exists user, m, e.
Qed.

Lemma event_findFirst_id (s : Store) (id orgId : Id) (e : Event.t) :
  prisma.event.findFirst id orgId s = Some e → id ∈ Event.id <$> events s.
Proof.
  intros He. apply head_filter_Some in He as [He [<- _]].
  by apply list_elem_of_fmap_2.
Qed.

(** the event page's action, once the guard has let the request through *)
Lemma event_page_dispatch (env : Env) (request : Request) (w : World) :
  authorized request (db w) →
  ∃ user,
    session request = Some user ∧
    EventDetail.action env request w =
      let intent := FormData_get "intent" (formData request) in
      if decide (intent = Some (FString "uploadPhoto")) then
        EventDetail.uploadPhoto env request user (entry_toJson intent) w
      else if decide (intent = Some (FString "deletePhoto")) then
        EventDetail.deletePhoto request (entry_toJson intent) w
      else if decide (intent = Some (FString "initiateFaceMatching")) then
        EventDetail.initiateFaceMatching env request (entry_toJson intent) w
      else
        (json (JObj {[ "intent" := entry_toJson intent;
                       "error" := JStr "Invalid intent";
                       "success" := JBool false ]}) 400, w).
Proof.
  intros Ha. apply authorized_inv in Ha as (user & m & e & Hs & Hn & Hm & He).
  exists user. split; [done|].
  unfold EventDetail.action, requireUser, invariant_eventId.
  rewrite Hs. destruct (decide (eventId request = "")); [done|].
  by rewrite Hm, He.
Qed.

Lemma count_none {A} (P : A → Prop) `{!∀ x, Decision (P x)} (l : list A) :
  Forall (λ x, ¬ P x) l → length (filter P l) = 0%nat.
Proof.
  induction 1 as [|x l Hx _ IH]; [done|].
  by rewrite filter_cons_False.
Qed.

Lemma count_some {A} (P : A → Prop) `{!∀ x, Decision (P x)} (l : list A)
    (x : A) :
  x ∈ l → P x → length (filter P l) ≠ 0%nat.
Proof.
  intros Hin HP Hlen. apply length_zero_iff_nil in Hlen.
  assert (x ∈ filter P l) as Hx by by apply list_elem_of_filter.
  rewrite Hlen in Hx. by apply not_elem_of_nil in Hx.
Qed.

(** C4.  A request that the guard lets through asks to initiate face
    matching.  If no EventPhoto row is of the event, the answer is a 400
    whose error mentions photos and not participants, however many
    participants there are.  If a photo row is of the event and no
    Participant row is, it is a 400 whose error mentions participants.  In
    both cases nothing changes.  If the event has a photo row and a
    participant row, and the generator's id is the id of no task yet, one
    FaceMatchingTask row for the event is added, PENDING, and then the
    compute stub is called once, with the event's id and the new row's id,
    the row being in the database at the time of the call. *)
Theorem C4_initiate_face_matching (env : Env) (request : Request)
    (w : World) :
  authorized request (db w) →
  FormData_get "intent" (formData request)
    = Some (FString "initiateFaceMatching") →
  let r := EventDetail.action env request w in
  (Forall (λ p, EventPhoto.eventId p ≠ eventId request)
          (eventPhotos (db w)) →
   status_of r.1 = 400 ∧ r.2 = w ∧
   ∃ msg, error_of r.1 = Some msg ∧ mentions "photos" msg = true ∧
          mentions "participants" msg = false) ∧
  (∀ photo,
     photo ∈ eventPhotos (db w) →
     EventPhoto.eventId photo = eventId request →
     Forall (λ p, Participant.eventId p ≠ eventId request)
            (participants (db w)) →
     status_of r.1 = 400 ∧ r.2 = w ∧
     ∃ msg, error_of r.1 = Some msg ∧ mentions "participants" msg = true) ∧
  (∀ photo participant,
     photo ∈ eventPhotos (db w) →
     EventPhoto.eventId photo = eventId request →
     participant ∈ participants (db w) →
     Participant.eventId participant = eventId request →
     cuid env ∉ FaceMatchingTask.id <$> faceMatchingTasks (db w) →
     ∃ task,
       FaceMatchingTask.id task = cuid env ∧
       FaceMatchingTask.eventId task = eventId request ∧
       FaceMatchingTask.status task = FaceMatchingTaskStatus.PENDING ∧
       db r.2 = with_faceMatchingTasks
                  (faceMatchingTasks (db w) ++ [task])%list (db w) ∧
       calls r.2
         = (calls w
              ++ [(LambdaTrigger (eventId request) (cuid env), db r.2)])%list ∧
       r.1 = json (JObj {[ "intent" := JStr "initiateFaceMatching";
                           "faceMatchingInitiated" := JBool true;
                           "taskId" := JStr (cuid env);
                           "message" :=
                             JStr "Face matching process initiated successfully." ]})
                  200).
Proof.
  intros Ha Hi r.
  pose proof (authorized_inv _ _ Ha) as (_ & m & e & _ & _ & _ & He).
  apply event_findFirst_id in He.
  destruct (event_page_dispatch env request w Ha) as (user & _ & Hact).
  subst r. rewrite Hact, Hi. clear Hact. simpl.
  unfold EventDetail.initiateFaceMatching, prisma.eventPhoto.count,
    prisma.participant.count.
  split; [|split].
  - intros Hnone.
    rewrite (count_none (λ p, EventPhoto.eventId p = eventId request)
               _ Hnone).
    simpl. split; [done|]. split; [done|].
    eexists. split; [reflexivity|]. split; reflexivity.
  - intros photo Hin Hev Hnone.
    destruct (decide (length (filter
                (λ p, EventPhoto.eventId p = eventId request)
                (eventPhotos (db w))) = 0%nat)) as [Hz|_];
      [by destruct (count_some _ _ photo Hin Hev Hz)|].
    rewrite (count_none (λ p, Participant.eventId p = eventId request)
               _ Hnone).
    simpl. split; [done|]. split; [done|]. eexists. split; reflexivity.
  - intros photo participant Hin Hev Hin' Hev' Hfresh.
    destruct (decide (length (filter
                (λ p, EventPhoto.eventId p = eventId request)
                (eventPhotos (db w))) = 0%nat)) as [Hz|_];
      [by destruct (count_some _ _ photo Hin Hev Hz)|].
    destruct (decide (length (filter
                (λ p, Participant.eventId p = eventId request)
                (participants (db w))) = 0%nat)) as [Hz|_];
      [by destruct (count_some _ _ participant Hin' Hev' Hz)|].
    unfold prisma.faceMatchingTask.create. simpl.
    destruct (decide (cuid env ∈ _)); [done|].
    destruct (decide (eventId request ∈ _)); [|done].
    simpl.
    exists {| FaceMatchingTask.id := cuid env;
              FaceMatchingTask.eventId := eventId request;
              FaceMatchingTask.status := FaceMatchingTaskStatus.PENDING;
              FaceMatchingTask.startTime := None;
              FaceMatchingTask.completionTime := None;
              FaceMatchingTask.awsRequestId := None;
              FaceMatchingTask.errorDetails := None;
              FaceMatchingTask.createdAt := now env;
              FaceMatchingTask.updatedAt := now env |}.
    repeat split.
Qed.

(** Alice asks for face matching on the gala, which has a photo and a
    participant. *)
Lemma C4_initiate_face_matching_witness :
  let r :=
    EventDetail.action Sample.env
      (Sample.request_of Sample.alice "POST"
         [("intent", FString "initiateFaceMatching")]) Sample.world in
  ∃ task,
    FaceMatchingTask.id task = "c_new" ∧
    FaceMatchingTask.eventId task = "ev_gala" ∧
    FaceMatchingTask.status task = FaceMatchingTaskStatus.PENDING ∧
    faceMatchingTasks (db r.2) = [Sample.task; task] ∧
    fst <$> calls r.2 = [LambdaTrigger "ev_gala" "c_new"].
Proof.
  intros r.
  destruct (C4_initiate_face_matching Sample.env
              (Sample.request_of Sample.alice "POST"
                 [("intent", FString "initiateFaceMatching")]) Sample.world
              ltac:(vm_compute; eexists; reflexivity) eq_refl)
    as (_ & _ & Hrun).
  destruct (Hrun Sample.photo Sample.guest
                 ltac:(vm_compute; left) eq_refl
                 ltac:(vm_compute; left) eq_refl
                 ltac:(vm_compute; intros Hin;
                       apply list_elem_of_singleton in Hin; discriminate))
    as (task & Hid & Hev & Hst & Hdb & Hcalls & _).
  exists task. do 3 (split; [assumption|]).
  fold r in Hdb, Hcalls. rewrite Hcalls, Hdb. split; reflexivity.
Defined.


(** Whatever the request, the event page asks the storage stub to delete a
    file only for a photo it found under the event, and only once the
    photo's row is out of the database the call sees. *)
Lemma storage_delete_after_row_delete (env : Env) (request : Request)
    (w : World) :
  ∃ new,
    calls (EventDetail.action env request w).2 = (calls w ++ new)%list ∧
    Forall
      (λ cs, ∀ url, cs.1 = StorageDelete url →
         ∃ photoId photo,
           FormData_get "photoId" (formData request)
             = Some (FString photoId) ∧
           prisma.eventPhoto.findFirst photoId (eventId request) (db w)
             = Some photo ∧
           EventPhoto.imageUrl photo = url ∧
           photoId ∉ EventPhoto.id <$> eventPhotos cs.2)
      new.
Proof.
  unfold EventDetail.action, EventDetail.uploadPhoto, EventDetail.deletePhoto,
    EventDetail.initiateFaceMatching, uploadFileToStorage.
  repeat case_match; simplify_eq; simpl;
    try (exists []; split; [by rewrite app_nil_r | by constructor]).
  all: eexists; split; [reflexivity|]; repeat constructor; simpl.
  all: intros u Hu; try discriminate Hu.
  injection Hu as <-.
  match goal with
  | H : prisma.eventPhoto.delete ?pid _ = Resolved _ |- _ =>
      exists pid; unfold prisma.eventPhoto.delete in H;
      destruct (decide (pid ∈ _)); [|done]; injection H as <-
  end.
  eexists. split; [done|]. split; [done|]. split; [done|]. simpl.
  intros Hx. apply list_elem_of_fmap in Hx as [p [Hp Hx]].
  apply list_elem_of_filter in Hx as [Hx _]. by apply Hx.
Qed.

(** C7, as amended.  A request that the guard lets through asks to delete a
    photo.  (1) Without a photo id, or with an empty one, the answer is 400
    "Missing photo ID." and no look-up is made.  (2) With an id that no
    EventPhoto row of the event carries (no row at all, or rows of other
    events only) the answer is 404.  In both cases, and when the id is a
    file, the database and the log of stub calls are as before.  (3) With
    the id of a photo row of the event, ids being unique, that row is
    deleted and then, once, the storage stub is asked to delete that
    photo's file; the database that the call sees, which is the final one,
    has no row of that id.  (4) Whatever the form, every request to the
    storage stub to delete a file is for the file of a photo row the event
    had, and the database the call sees no longer has a row of that
    photo's id. *)
Theorem C7_delete_photo (env : Env) (request : Request) (w : World) :
  authorized request (db w) →
  FormData_get "intent" (formData request) = Some (FString "deletePhoto") →
  let field := FormData_get "photoId" (formData request) in
  let r := EventDetail.action env request w in
  (field = None ∨ field = Some (FString "") →
   status_of r.1 = 400 ∧ error_of r.1 = Some "Missing photo ID." ∧ r.2 = w) ∧
  (∀ f, field = Some (FFile f) → r.2 = w) ∧
  (∀ photoId,
     field = Some (FString photoId) → photoId ≠ "" →
     Forall (λ p, EventPhoto.id p = photoId →
                  EventPhoto.eventId p ≠ eventId request)
            (eventPhotos (db w)) →
     status_of r.1 = 404 ∧
     error_of r.1 = Some "Photo not found or access denied." ∧
     r.2 = w) ∧
  (∀ photoId photo,
     field = Some (FString photoId) → photoId ≠ "" →
     photo ∈ eventPhotos (db w) →
     EventPhoto.id photo = photoId →
     EventPhoto.eventId photo = eventId request →
     NoDup (EventPhoto.id <$> eventPhotos (db w)) →
     status_of r.1 = 200 ∧
     eventPhotos (db r.2)
       = filter (λ p, EventPhoto.id p ≠ photoId) (eventPhotos (db w)) ∧
     (photoId ∉ EventPhoto.id <$> eventPhotos (db r.2)) ∧
     calls r.2
       = (calls w
            ++ [(StorageDelete (EventPhoto.imageUrl photo), db r.2)])%list) ∧
  ∃ new,
    calls r.2 = (calls w ++ new)%list ∧
    Forall
      (λ cs, ∀ url, cs.1 = StorageDelete url →
         ∃ photo,
           photo ∈ eventPhotos (db w) ∧
           EventPhoto.eventId photo = eventId request ∧
           EventPhoto.imageUrl photo = url ∧
           EventPhoto.id photo ∉ EventPhoto.id <$> eventPhotos cs.2)
      new.
Proof.
  intros Ha Hi field r.
  destruct (event_page_dispatch env request w Ha) as (user & _ & Hact).
  assert (r = EventDetail.deletePhoto request (JStr "deletePhoto") w) as Hr.
  { subst r. rewrite Hact, Hi. reflexivity. }
  clear Hact. split; [|split; [|split; [|split]]].
  - rewrite Hr. unfold EventDetail.deletePhoto. fold field.
    by intros [-> | ->].
  - intros f Hf. rewrite Hr. unfold EventDetail.deletePhoto. fold field.
    by rewrite Hf.
  - intros photoId Hf Hne Hnone. rewrite Hr.
    unfold EventDetail.deletePhoto. fold field. rewrite Hf.
    destruct photoId as [|a rest]; [done|].
    assert (prisma.eventPhoto.findFirst (String a rest) (eventId request)
              (db w) = None) as ->; [|done].
    apply head_filter_None. intros p Hp [Hid Hev].
    by apply (proj1 (Forall_forall _ _) Hnone p Hp Hid).
  - intros photoId photo Hf Hne Hin Hid Hev Hnd. rewrite Hr.
    unfold EventDetail.deletePhoto. fold field. rewrite Hf.
    destruct photoId as [|a rest]; [done|].
    destruct (head_filter_is_Some
                (λ p, EventPhoto.id p = String a rest ∧
                      EventPhoto.eventId p = eventId request)
                (eventPhotos (db w)) photo Hin (conj Hid Hev))
      as [found Hfound].
    unfold prisma.eventPhoto.findFirst. rewrite Hfound.
    apply head_filter_Some in Hfound as [Hin' [Hid' _]].
    assert (found = photo) as ->
      by (eapply NoDup_fmap_eq; [exact Hnd|done..|congruence]).
    unfold prisma.eventPhoto.delete.
    destruct (decide (String a rest ∈ _)) as [|Hnot].
    + simpl. split; [done|]. split; [done|]. split; [|done].
      intros Hx. apply list_elem_of_fmap in Hx as [p [Hp' Hx]].
      apply list_elem_of_filter in Hx as [Hx _]. by apply Hx.
    + exfalso. apply Hnot. rewrite <- Hid. by apply list_elem_of_fmap_2.
  - destruct (storage_delete_after_row_delete env request w)
      as (new & Hcalls & Hall).
    exists new. split; [exact Hcalls|].
    eapply Forall_impl; [exact Hall|]. intros cs Hcs url Hurl.
    destruct (Hcs url Hurl) as (photoId & photo & _ & Hfound & Himg & Hgone).
    apply head_filter_Some in Hfound as [Hin [Hid Hev]].
    exists photo. by rewrite Hid.
Qed.

(** Alice deletes the photo of the gala. *)
Lemma C7_delete_photo_witness :
  let r :=
    EventDetail.action Sample.env
      (Sample.request_of Sample.alice "POST"
         [("intent", FString "deletePhoto"); ("photoId", FString "ph_1")])
      Sample.world in
  ("ph_1" ∉ EventPhoto.id <$> eventPhotos (db r.2)) ∧
  calls r.2
    = [(StorageDelete "/placeholder-storage/events/ev_gala/photos/4000-a.jpg",
        db r.2)].
Proof.
  intros r.
  destruct (C7_delete_photo Sample.env
              (Sample.request_of Sample.alice "POST"
                 [("intent", FString "deletePhoto");
                  ("photoId", FString "ph_1")]) Sample.world
              ltac:(vm_compute; eexists; reflexivity) eq_refl)
    as (_ & _ & _ & Hfound & _).
  destruct (Hfound "ph_1" Sample.photo eq_refl ltac:(discriminate)
              ltac:(vm_compute; left) eq_refl eq_refl
              (eventPhotos_id _ sample_store_ok))
    as (_ & _ & Hgone & Hcalls).
  split; [exact Hgone|exact Hcalls].
Defined.

(** C7 as stated fails.  Alice asks to delete a photo of the gala without
    a photo id, and with an empty one: no photo row has the empty id, so no
    such photo exists under the event, and the answer is 400, not 404. *)
Lemma C7_no_photo_id_is_a_bad_request :
  authorized (Sample.request_of Sample.alice "POST" []) Sample.store ∧
  Forall (λ p, EventPhoto.id p ≠ "") (eventPhotos Sample.store) ∧
  status_of
    (EventDetail.action Sample.env
       (Sample.request_of Sample.alice "POST"
          [("intent", FString "deletePhoto")]) Sample.world).1 = 400 ∧
  status_of
    (EventDetail.action Sample.env
       (Sample.request_of Sample.alice "POST"
          [("intent", FString "deletePhoto"); ("photoId", FString "")])
       Sample.world).1 = 400.
Proof.
  split; [vm_compute; by eexists|].
  split; [|split; vm_compute; reflexivity].
  vm_compute. repeat constructor; discriminate.
Qed.

(** ** Creating a participant *)

(** what a successful parse says about the submitted form *)
Lemma ParticipantSchema_success {rt : Runtime}
    (payload : gmap string FormDataEntryValue) (name email : string) :
  ParticipantNew.ParticipantSchema payload = z.success (name, email) →
  payload !! "name" = Some (FString name) ∧ name ≠ "" ∧
  payload !! "email" = Some (FString email) ∧ isEmail email = true.
Proof.
  unfold ParticipantNew.ParticipantSchema, z.string_min1, z.str.
  destruct (payload !! "name") as [[n|]|]; try done;
    destruct (payload !! "email") as [[e|]|]; try done;
    destruct (decide (n = "")); try done;
    destruct (isEmail e) eqn:He; try done.
  by intros [= <- <-].
Qed.

(** the action, once the guard has let the request through *)
Lemma participant_new_dispatch {rt : Runtime} (env : Env)
    (request : Request) (w : World) :
  authorized request (db w) →
  ParticipantNew.action env request w =
    match ParticipantNew.ParticipantSchema
            (Object_fromEntries (formData request)) with
    | z.failure fieldErrors =>
        (json (JObj {[ "errors" := z.fieldErrors_toJson fieldErrors ]}) 400, w)
    | z.success (name, email) =>
        match prisma.participant.findFirst (eventId request) email (db w) with
        | Some _ =>
            (json (JObj {[ "errors" :=
                     JObj {[ "email" :=
                       JStr "A participant with this email already exists for this event." ]} ]})
                  400, w)
        | None =>
            match prisma.participant.create
                    {| Participant.id := cuid env;
                       Participant.eventId := eventId request;
                       Participant.userId := None;
                       Participant.name := Some name;
                       Participant.email := Some email;
                       Participant.registrationStatus := Some "Invited";
                       Participant.consentStatus := false;
                       Participant.referencePhotoUrl := None;
                       Participant.createdAt := now env;
                       Participant.updatedAt := now env |} (db w) with
            | Resolved s' =>
                (redirect ("/org/events/" +:+ eventId request
                           +:+ "/participants"), with_db s' w)
            | Rejected _ =>
                (ParticipantNew.form_error
                   "Failed to add participant. Please try again later." 500, w)
            end
        end
    end.
Proof.
  intros Ha. apply authorized_inv in Ha as (user & m & e & Hs & Hn & Hm & He).
  unfold ParticipantNew.action, requireUser, invariant_eventId.
  rewrite Hs. destruct (decide (eventId request = "")); [done|].
  by rewrite Hm, He.
Qed.

(** C5.  The guard lets the request through and the form is valid.  If a
    participant of the event already has the submitted e-mail address, the
    answer is a 400 with the duplicate message on the [email] field, and
    neither the database nor the log of stub calls changes.  The check is
    the handler's: [prisma.participant.create] itself accepts a further row
    with that event and address, whatever its fresh id. *)
Theorem C5_duplicate_email {rt : Runtime} (env : Env) (request : Request)
    (w : World) (name email : string) (p : Participant.t) :
  authorized request (db w) →
  ParticipantNew.ParticipantSchema (Object_fromEntries (formData request))
    = z.success (name, email) →
  p ∈ participants (db w) →
  Participant.eventId p = eventId request →
  Participant.email p = Some email →
  let r := ParticipantNew.action env request w in
  status_of r.1 = 400 ∧
  field_error_of "email" r.1
    = Some (JStr "A participant with this email already exists for this event.") ∧
  r.2 = w ∧
  ∀ row,
    Participant.eventId row = eventId request →
    Participant.email row = Some email →
    Participant.id row ∉ Participant.id <$> participants (db w) →
    fk_ok (Participant.userId row) (User.id <$> users (db w)) →
    prisma.participant.create row (db w)
      = Resolved (with_participants (participants (db w) ++ [row])%list (db w)).
Proof.
  intros Ha Hparse Hp Hev Hem r. subst r.
  rewrite (participant_new_dispatch env request w Ha), Hparse.
  destruct (head_filter_is_Some
              (λ q, Participant.eventId q = eventId request ∧
                    Participant.email q = Some email)
              (participants (db w)) p Hp (conj Hev Hem)) as [q Hq].
  unfold prisma.participant.findFirst. rewrite Hq. simpl.
  split; [done|]. split; [done|]. split; [done|].
  intros row Hrev _ Hfresh Hfk. unfold prisma.participant.create.
  destruct (decide (Participant.id row ∈ _)); [done|].
  apply authorized_inv in Ha as (_ & m & e & _ & _ & _ & He).
  apply event_findFirst_id in He. rewrite <- Hrev in He.
  by destruct (decide _) as [|[]].
Qed.

(** Alice adds a participant with the address the guest already has. *)
Lemma C5_duplicate_email_witness :
  let r :=
    ParticipantNew.action (H := Sample.runtime) Sample.env
      (Sample.request_of Sample.alice "POST"
         [("name", FString "Al"); ("email", FString "a@example.com")])
      Sample.world in
  status_of r.1 = 400 ∧ r.2 = Sample.world.
Proof.
  intros r.
  destruct (C5_duplicate_email (rt := Sample.runtime) Sample.env
              (Sample.request_of Sample.alice "POST"
                 [("name", FString "Al"); ("email", FString "a@example.com")])
              Sample.world "Al" "a@example.com" Sample.guest
              ltac:(vm_compute; eexists; reflexivity)
              ltac:(vm_compute; reflexivity)
              ltac:(vm_compute; left) eq_refl eq_refl)
    as (Hst & _ & Hw & _).
  split; [exact Hst|exact Hw].
Defined.

Lemma login_is_not_the_list (x : string) :
  redirect "/login" ≠ redirect ("/org/events/" +:+ x +:+ "/participants").
Proof. simpl. intros [=]. Qed.

(** C8.  When the action answers with the redirect to the participants of
    the event, which is its one successful outcome, exactly one row was
    added to Participant; its [registrationStatus] is ["Invited"], its
    [consentStatus] is false, it is linked to no user, and its name and
    e-mail are the two submitted fields. *)
Theorem C8_new_participant_defaults {rt : Runtime} (env : Env)
    (request : Request) (w : World) :
  let r := ParticipantNew.action env request w in
  r.1 = redirect ("/org/events/" +:+ eventId request +:+ "/participants") →
  ∃ row,
    participants (db r.2) = (participants (db w) ++ [row])%list ∧
    Participant.registrationStatus row = Some "Invited" ∧
    Participant.consentStatus row = false ∧
    Participant.userId row = None ∧
    Participant.eventId row = eventId request ∧
    Participant.name row
      = submitted (Object_fromEntries (formData request)) "name" ∧
    Participant.email row
      = submitted (Object_fromEntries (formData request)) "email".
Proof.
  intros r. subst r.
  unfold ParticipantNew.action, requireUser, invariant_eventId,
    ParticipantNew.form_error.
  destruct (session request) as [user|];
    [|intros Hr; by destruct (login_is_not_the_list _ Hr)].
  destruct (decide (eventId request = "")); [done|].
  destruct (prisma.organizationUser.findFirst _ _) as [m|]; [|done].
  destruct (prisma.event.findFirst _ _ _) as [e|]; [|done].
  destruct (ParticipantNew.ParticipantSchema _) as [[name email]|] eqn:Hparse;
    [|done].
  apply ParticipantSchema_success in Hparse as (Hn & _ & He & _).
  destruct (prisma.participant.findFirst _ _ _); [done|].
  unfold prisma.participant.create.
  destruct (decide (_ ∈ _)); [done|]. destruct (decide _); [|done].
  intros _. simpl. eexists. split; [reflexivity|]. simpl.
  unfold submitted. by rewrite Hn, He.
Qed.

(** Alice adds a participant with a new address; the form also tries to set
    the two defaults, to no effect. *)
Lemma C8_new_participant_defaults_witness :
  let r :=
    ParticipantNew.action (H := Sample.runtime) Sample.env
      (Sample.request_of Sample.alice "POST"
         [("name", FString "Al"); ("email", FString "b@example.com");
          ("registrationStatus", FString "Attended");
          ("consentStatus", FString "on")])
      Sample.world in
  ∃ row,
    participants (db r.2) = [Sample.guest; row] ∧
    Participant.registrationStatus row = Some "Invited" ∧
    Participant.consentStatus row = false.
Proof.
  intros r.
  destruct (C8_new_participant_defaults (rt := Sample.runtime) Sample.env
              (Sample.request_of Sample.alice "POST"
                 [("name", FString "Al"); ("email", FString "b@example.com");
                  ("registrationStatus", FString "Attended");
                  ("consentStatus", FString "on")])
              Sample.world ltac:(vm_compute; reflexivity))
    as (row & Hrows & Hreg & Hcons & _).
  exists row. split; [exact Hrows|]. split; [exact Hreg|exact Hcons].
Defined.

(** ** Updating an event *)

(** what a successful parse says about the submitted form *)
Lemma EventSchema_success {rt : Runtime}
    (payload : gmap string FormDataEntryValue) (d : EventEdit.EventData) :
  EventEdit.EventSchema payload = z.success d →
  submitted payload "name" = Some (EventEdit.name d) ∧
  submitted payload "dateStart" = Some (EventEdit.dateStart d) ∧
  is_Some (Date_parse (EventEdit.dateStart d)) ∧
  submitted payload "dateEnd" = EventEdit.dateEnd d ∧
  (∀ e, EventEdit.dateEnd d = Some e → e ≠ "" → is_Some (Date_parse e)) ∧
  submitted payload "description" = EventEdit.description d ∧
  (payload !! "description" = None ↔ EventEdit.description d = None) ∧
  submitted payload "locationName" = EventEdit.locationName d ∧
  (payload !! "locationName" = None ↔ EventEdit.locationName d = None) ∧
  submitted payload "locationAddress" = EventEdit.locationAddress d ∧
  (payload !! "locationAddress" = None ↔ EventEdit.locationAddress d = None) ∧
  submitted payload "status"
    = Some (EventStatus.to_string (EventEdit.status d)) ∧
  EventEdit.isPublic d
    = bool_decide (payload !! "isPublic" = Some (FString "on")).
Proof.
  unfold EventEdit.EventSchema, submitted, z.string_min1, z.str,
    z.string_optional, z.nativeEnum_EventStatus, z.checkbox.
  cbv zeta. intros H.
  destruct (payload !! "name") as [[n|]|]; try discriminate H.
  destruct (decide (n = "")); try discriminate H.
  destruct (payload !! "dateStart") as [[ds|]|]; try discriminate H.
  destruct (Date_parse ds) as [t|] eqn:Ht; try discriminate H.
  assert (is_Some (Date_parse ds)) as Hds by (by rewrite Ht).
  clear Ht.
  destruct (payload !! "dateEnd") as [[de|]|]; try discriminate H;
    [destruct (decide (de = ""));
       [|destruct (Date_parse de) as [t'|] eqn:Ht'; try discriminate H]|].
  all: destruct (payload !! "description") as [[x|]|]; try discriminate H.
  all: destruct (payload !! "locationName") as [[y|]|]; try discriminate H.
  all: destruct (payload !! "locationAddress") as [[z'|]|];
         try discriminate H.
  all: destruct (payload !! "status") as [[st|]|]; try discriminate H.
  all: destruct (EventStatus.of_string st) as [st'|] eqn:Hst;
         try discriminate H.
  all: apply head_filter_Some in Hst as [_ Hst].
  all: injection H as <-; simpl; rewrite Hst.
  all: repeat split; try done.
  all: try (intros ? [= <-] ?; done).
  all: intros ? [= <-] ?; by rewrite Ht'.
Qed.

(** a form that passes validation gives [prisma.event.update] its data *)
Lemma update_data_of_valid {rt : Runtime}
    (payload : gmap string FormDataEntryValue) (d : EventEdit.EventData) :
  EventEdit.EventSchema payload = z.success d →
  ∃ start,
    Date_parse (EventEdit.dateStart d) = Some start ∧
    EventEdit.update_data d =
      Some {| prisma.event.name := Given (EventEdit.name d);
              prisma.event.dateStart := Given start;
              prisma.event.dateEnd :=
                Given (match EventEdit.dateEnd d with
                       | Some e => if decide (e = "") then None
                                   else Date_parse e
                       | None => None
                       end);
              prisma.event.description :=
                EventEdit.text_field (EventEdit.description d);
              prisma.event.locationName :=
                EventEdit.text_field (EventEdit.locationName d);
              prisma.event.locationAddress :=
                EventEdit.text_field (EventEdit.locationAddress d);
              prisma.event.status := Given (EventEdit.status d);
              prisma.event.isPublic := Given (EventEdit.isPublic d) |}.
Proof.
  intros Hok. apply EventSchema_success in Hok
    as (_ & _ & [start Hs] & _ & Hend & _).
  exists start. split; [done|]. unfold EventEdit.update_data. rewrite Hs.
  destruct (EventEdit.dateEnd d) as [e|]; [|done].
  destruct (decide (e = "")); [done|].
  by destruct (Hend e eq_refl) as [t ->].
Qed.

(** C6, as amended.  The guard lets the request through, the form passes
    validation and [E] is a row of the event.  Then the answer is the
    redirect to the event's page, and the row that replaces [E] has the
    submitted name, start date, status and visibility box; its end date is
    the submitted one, or null when that field is empty or absent; each of
    description, location name and location address is the submitted text
    when the form has the field, and what [E] had when the form omits it.
    The columns outside the form stay, [updatedAt] apart. *)
Theorem C6_update_event {rt : Runtime} (env : Env) (request : Request)
    (w : World) (E : Event.t) (d : EventEdit.EventData) :
  authorized request (db w) →
  EventEdit.EventSchema (Object_fromEntries (formData request))
    = z.success d →
  E ∈ events (db w) →
  Event.id E = eventId request →
  let payload := Object_fromEntries (formData request) in
  let r := EventEdit.action env request w in
  r.1 = redirect ("/org/events/" +:+ eventId request) ∧
  length (events (db r.2)) = length (events (db w)) ∧
  ∃ E',
    E' ∈ events (db r.2) ∧
    Event.id E' = Event.id E ∧
    Event.orgId E' = Event.orgId E ∧
    Event.categoryId E' = Event.categoryId E ∧
    Event.createdAt E' = Event.createdAt E ∧
    Event.updatedAt E' = now env ∧
    Some (Event.name E') = submitted payload "name" ∧
    Some (Event.dateStart E')
      = (submitted payload "dateStart" ≫= Date_parse) ∧
    Event.dateEnd E'
      = match submitted payload "dateEnd" with
        | Some e => if decide (e = "") then None else Date_parse e
        | None => None
        end ∧
    Some (EventStatus.to_string (Event.status E'))
      = submitted payload "status" ∧
    Event.isPublic E'
      = bool_decide (payload !! "isPublic" = Some (FString "on")) ∧
    Event.description E'
      = match payload !! "description" with
        | None => Event.description E
        | Some _ => submitted payload "description"
        end ∧
    Event.locationName E'
      = match payload !! "locationName" with
        | None => Event.locationName E
        | Some _ => submitted payload "locationName"
        end ∧
    Event.locationAddress E'
      = match payload !! "locationAddress" with
        | None => Event.locationAddress E
        | Some _ => submitted payload "locationAddress"
        end.
Proof.
  intros Ha Hok HE Hid payload r. subst r.
  destruct (update_data_of_valid _ _ Hok) as (start & Hstart & Hdata).
  pose proof (EventSchema_success _ _ Hok)
    as (Hn & Hds & _ & Hde & _ & Hx & Hx' & Hy & Hy' & Hz & Hz' & Hst & Hp).
  apply authorized_inv in Ha as (user & m & e & Hs & Hne & Hm & He).
  unfold EventEdit.action, requireUser, invariant_eventId.
  rewrite Hs. destruct (decide (eventId request = "")); [done|].
  rewrite Hm, Hok, He, Hdata. unfold prisma.event.update.
  destruct (decide (eventId request ∈ _)) as [|Hnot];
    [|destruct Hnot; rewrite <- Hid; by apply list_elem_of_fmap_2].
  cbn [fst snd db with_db events with_events].
  split; [done|]. split; [by rewrite length_fmap|].
  eexists. split.
  { apply list_elem_of_fmap. exists E. split; [reflexivity|done]. }
  destruct (decide (Event.id E = eventId request)); [|done].
  fold payload in Hn, Hds, Hde, Hx, Hx', Hy, Hy', Hz, Hz', Hst, Hp.
  simpl. rewrite Hn, Hds, Hde, Hx, Hy, Hz, Hst, Hp. simpl. rewrite Hstart.
  unfold EventEdit.text_field.
  repeat split.
  - destruct (payload !! "description") eqn:Hl.
    + destruct (EventEdit.description d); [reflexivity|].
      discriminate (proj2 Hx' eq_refl).
    + rewrite (proj1 Hx' eq_refl). reflexivity.
  - destruct (payload !! "locationName") eqn:Hl.
    + destruct (EventEdit.locationName d); [reflexivity|].
      discriminate (proj2 Hy' eq_refl).
    + rewrite (proj1 Hy' eq_refl). reflexivity.
  - destruct (payload !! "locationAddress") eqn:Hl.
    + destruct (EventEdit.locationAddress d); [reflexivity|].
      discriminate (proj2 Hz' eq_refl).
    + rewrite (proj1 Hz' eq_refl). reflexivity.
Qed.

(** Alice renames the gala, moves it a day and opens it, and submits an
    empty description. *)
Lemma C6_update_event_witness :
  let r :=
    EventEdit.action (H := Sample.runtime) Sample.env
      (Sample.request_of Sample.alice "POST"
         [("name", FString "Gala 2"); ("dateStart", FString "2025-05-02");
          ("status", FString "ACTIVE"); ("description", FString "");
          ("isPublic", FString "on")])
      Sample.world in
  ∃ E',
    E' ∈ events (db r.2) ∧
    Event.name E' = "Gala 2" ∧
    Event.dateStart E' = 1746144000000 ∧
    Event.status E' = EventStatus.ACTIVE ∧
    Event.isPublic E' = true ∧
    Event.description E' = Some "" ∧
    Event.locationName E' = Some "Town hall".
Proof.
  intros r.
  destruct (C6_update_event (rt := Sample.runtime) Sample.env
              (Sample.request_of Sample.alice "POST"
                 [("name", FString "Gala 2");
                  ("dateStart", FString "2025-05-02");
                  ("status", FString "ACTIVE"); ("description", FString "");
                  ("isPublic", FString "on")])
              Sample.world Sample.gala
              {| EventEdit.name := "Gala 2";
                 EventEdit.dateStart := "2025-05-02";
                 EventEdit.dateEnd := None;
                 EventEdit.description := Some "";
                 EventEdit.locationName := None;
                 EventEdit.locationAddress := None;
                 EventEdit.status := EventStatus.ACTIVE;
                 EventEdit.isPublic := true |}
              ltac:(vm_compute; eexists; reflexivity)
              ltac:(vm_compute; reflexivity)
              ltac:(vm_compute; left) eq_refl)
    as (_ & _ & E' & Hin & _ & _ & _ & _ & _ & Hn & Hds & _ & Hst & Hp
        & Hx & Hy & _).
  exists E'. split; [exact Hin|].
  vm_compute in Hn, Hds, Hst, Hp, Hx, Hy.
  injection Hn as Hn. injection Hds as Hds.
  repeat split; try assumption.
  destruct E' as [? ? ? ? ? ? status]. simpl in *.
  destruct status; first [reflexivity | discriminate Hst].
Defined.

(** C6 as stated fails for the three optional text fields.  Alice submits
    the edit form of the gala without a [description] field: the update
    succeeds and the description is the one the event had, not null. *)
Lemma C6_omitted_description_is_kept :
  let request :=
    Sample.request_of Sample.alice "POST"
      [("name", FString "Gala 2"); ("dateStart", FString "2025-05-02");
       ("status", FString "ACTIVE")] in
  let r :=
    EventEdit.action (H := Sample.runtime) Sample.env request Sample.world in
  Object_fromEntries (formData request) !! "description" = None ∧
  r.1 = redirect "/org/events/ev_gala" ∧
  Event.description <$> events (db r.2) = [Some "Annual dinner"] ∧
  Event.name <$> events (db r.2) = ["Gala 2"].
Proof. vm_compute. repeat split. Qed.

(** ** Login *)

(** Where [bcrypt.compare] answers: the same form is submitted against two
    databases, one without a user of the submitted e-mail address, the
    other with one whose stored hash the submitted password does not
    match.  The strategy throws the same error in both and the login action
    gives the same answer; when neither field is empty the message is
    "Invalid login credentials." and the status 401. *)
Lemma login_failures_alike_when_bcrypt_answers {rt : Runtime}
    (form : list (string * FormDataEntryValue))
    (s1 s2 : Store) (email : string) (password : FormDataEntryValue)
    (u : User.t) :
  FormData_get "email" form = Some (FString email) →
  FormData_get "password" form = Some password →
  prisma.user.findUnique email s1 = None →
  prisma.user.findUnique email s2 = Some u →
  bcrypt_compare password (User.passwordHash u) = inr false →
  AuthService.verify form s1 = AuthService.verify form s2 ∧
  Login.action form s1 = Login.action form s2 ∧
  (email ≠ "" → password ≠ FString "" →
   AuthService.verify form s2 = inl "Invalid login credentials." ∧
   Login.action form s2 = flash_error "Invalid login credentials." 401).
Proof.
  intros He Hp H1 H2 Hcmp.
  assert (AuthService.verify form s1 = AuthService.verify form s2) as Hv.
  { unfold AuthService.verify. rewrite He, Hp.
    destruct email as [|a email']; [done|].
    destruct password as [[|b pw]|f]; [done| |];
      by rewrite H1, H2, Hcmp. }
  split; [exact Hv|]. split; [unfold Login.action; by rewrite Hv|].
  intros Hne Hpne. unfold Login.action, AuthService.verify.
  rewrite He, Hp. destruct email as [|a email']; [done|].
  destruct password as [[|b pw]|f]; [done| |]; by rewrite H2, Hcmp.
Qed.

(** Where [bcrypt.compare] throws, which it does for a password that is no
    string: the comparison is made only when a user of the e-mail address
    was found, so the address without a user is answered "Invalid login
    credentials." and the address with one is answered the message of the
    error thrown. *)
Lemma login_failures_differ_when_bcrypt_throws {rt : Runtime}
    (form : list (string * FormDataEntryValue))
    (s1 s2 : Store) (email : string) (password : FormDataEntryValue)
    (u : User.t) (message : string) :
  FormData_get "email" form = Some (FString email) → email ≠ "" →
  FormData_get "password" form = Some password → password ≠ FString "" →
  prisma.user.findUnique email s1 = None →
  prisma.user.findUnique email s2 = Some u →
  bcrypt_compare password (User.passwordHash u) = inl message →
  Login.action form s1 = flash_error "Invalid login credentials." 401 ∧
  Login.action form s2 = flash_error message 401.
Proof.
  intros He Hne Hp Hpne H1 H2 Hcmp.
  unfold Login.action, AuthService.verify. rewrite He, Hp.
  destruct email as [|a email']; [done|].
  destruct password as [[|b pw]|f]; [done| |]; by rewrite H1, H2, Hcmp.
Qed.

(** C10.  The claim fails on the code, whose comment says that the generic
    message is there to prevent the enumeration of e-mail addresses.  A
    login form whose password part is a file is submitted with Alice's
    address, which is registered, and with an address that is not.  Both
    attempts fail, with different messages: the registered address is
    answered with the message of the error [bcrypt.compare] throws, the
    other one with "Invalid login credentials.". *)
Theorem C10_file_password_discloses_registration :
  let file :=
    {| File_name := "p.txt"; File_size := 1; File_type := "text/plain" |} in
  let attempt email :=
    Login.action (H := Sample.runtime)
      [("email", FString email); ("password", FFile file)] Sample.store in
  Sample.alice ∈ users Sample.store ∧
  User.email Sample.alice = "alice@a.example" ∧
  Forall (λ u, User.email u ≠ "nobody@a.example") (users Sample.store) ∧
  attempt "alice@a.example"
    = flash_error "Illegal arguments: object, string" 401 ∧
  attempt "nobody@a.example" = flash_error "Invalid login credentials." 401.
Proof.
  intros file attempt.
  split; [vm_compute; left|]. split; [reflexivity|].
  split; [vm_compute; repeat constructor; discriminate|].
  pose proof (login_failures_differ_when_bcrypt_throws (rt := Sample.runtime)
                [("email", FString "alice@a.example");
                 ("password", FFile file)]
                empty_store Sample.store "alice@a.example" (FFile file)
                Sample.alice "Illegal arguments: object, string"
                eq_refl ltac:(discriminate) eq_refl ltac:(discriminate)
                eq_refl eq_refl eq_refl) as [_ Hknown].
  split; [exact Hknown|]. vm_compute. reflexivity.
Qed.

(** ** Handlers and reachable stores *)



(** ** Foreign keys hold in every reachable store *)

Lemma key_survives {A} (f : A → Id) (P : A → Prop) `{!∀ x, Decision (P x)}
    (l : list A) (k : Id) :
  k ∈ f <$> l → k ∉ f <$> filter P l → k ∈ f <$> filter (λ x, ¬ P x) l.
Proof.
  intros Hk Hnot. apply list_elem_of_fmap in Hk as [a [-> Ha]].
  apply list_elem_of_fmap. exists a. split; [done|].
  apply list_elem_of_filter. split; [|done].
  intros HP. apply Hnot. apply list_elem_of_fmap. exists a.
  split; [done|]. by apply list_elem_of_filter.
Qed.

Lemma key_stays {A} (f : A → Id) (l : list A) (x : A) (k : Id) :
  k ∈ f <$> l → k ∈ f <$> (l ++ [x])%list.
Proof. intros Hk. rewrite fmap_app. apply elem_of_app. by left. Qed.

Lemma key_new {A} (f : A → Id) (l : list A) (x : A) :
  f x ∈ f <$> (l ++ [x])%list.
Proof.
  rewrite fmap_app. apply elem_of_app. right. simpl.
  apply list_elem_of_singleton. done.
Qed.

Ltac row_of H :=
  repeat first
    [ apply list_elem_of_filter in H as [? H]
    | apply elem_of_app in H as [H|H]
    | apply list_elem_of_singleton in H as ->
    | (let y := fresh "y" in apply list_elem_of_fmap in H as (y & -> & H)) ].

Ltac known_rows :=
  repeat match goal with
  | HF : Forall _ ?l, H : ?x ∈ ?l |- _ =>
      pose proof (proj1 (Forall_forall _ _) HF x H); clear HF
  end.

Ltac reference_ok :=
  unfold Participant.clear_user, ConsentLog.clear_event,
    ConsentLog.clear_participant, fk_ok in *;
  repeat case_match; simplify_eq/=; destruct_and?;
  rewrite ?(fmap_same_key Participant.id) by apply clear_user_id;
  rewrite ?(fmap_same_key Event.id) by
    (intros ?; simpl; destruct (decide (Event.id _ = _)); reflexivity);
  first
    [ done
    | assumption
    | apply key_new
    | apply key_stays; assumption
    | apply key_survives; assumption ].

Lemma run_preserves_references (wr : Write) (s s' : Store) :
  References_ok s → run wr s = Resolved s' → References_ok s'.
Proof.
  intros [] Hrun. destruct wr; simpl in Hrun; unfold_prisma;
    repeat case_match; simplify_eq; unfold_referential;
    split; simpl.
  all: apply Forall_forall; intros x Hx; row_of Hx.
  all: known_rows; reference_ok.
Qed.

Lemma empty_store_references : References_ok empty_store.
Proof. split; simpl; constructor. Qed.

Lemma reachable_references (s : Store) : reachable s → References_ok s.
Proof.
  induction 1 as [|s wr s' _ IH Hrun]; [apply empty_store_references|].
  by eapply run_preserves_references.
Qed.


(** In every store that successful writes build from the empty database,
    every reference of a row (a membership's user and organization, an
    event's organization, a participant's event and user, a photo's event
    and uploader, a face's photo, a match's photo and participant, a task's
    event, an audit row's user, event and participant) is to a row that is
    there. *)
Theorem reachable_store_has_no_dangling_reference (s : Store) :
  reachable s → References_ok s.
Proof. apply reachable_references. Qed.

Lemma reachable_store_has_no_dangling_reference_witness :
  References_ok Sample.store.
Proof.
  exact (reachable_store_has_no_dangling_reference Sample.store
           sample_store_reachable).
Defined.

(** In every such store the [@id] of each table, the e-mail of the users,
    the (user, organization) pair of the memberships and the (photo,
    participant) pair of the matches have no duplicates. *)
Theorem reachable_store_keys_are_unique (s : Store) :
  reachable s → Store_ok s.
Proof. apply reachable_ok. Qed.

Lemma reachable_store_keys_are_unique_witness : Store_ok Sample.store.
Proof.
  exact (reachable_store_keys_are_unique Sample.store sample_store_reachable).
Defined.




(** ** The guards of every route under /org *)

(** Without a signed-in user, every loader and action under /org answers
    with the redirect to the login page and changes nothing. *)
Theorem unauthenticated_is_sent_to_login {rt : Runtime} (env : Env)
    (request : Request) (w : World) :
  session request = None →
  (∀ op, perform op env request w = (redirect "/login", w)) ∧
  EventNew.action env request w = (redirect "/login", w) ∧
  EventNew.loader request = redirect "/login" ∧
  EventsIndex.loader request (db w) = redirect "/login" ∧
  OrgLayout.loader request = redirect "/login" ∧
  OrgDashboard.loader request = redirect "/login".
Proof.
  intros Hs. split.
  - intros op. destruct op; simpl;
      unfold EventDetail.loader, EventEdit.loader, EventEdit.action,
        EventDelete.action, EventDetail.action, ParticipantsLayout.loader,
        ParticipantsIndex.loader, ParticipantNew.action, requireUser;
      by rewrite Hs.
  - unfold EventNew.action, EventNew.loader, EventsIndex.loader,
      OrgLayout.loader, OrgDashboard.loader, requireUser.
    by rewrite Hs.
Qed.

Lemma unauthenticated_is_sent_to_login_witness :
  perform (H := Sample.runtime) EventDeletion Sample.env
    {| method := "POST"; session := None; eventId := "ev_gala";
       formData := [] |} Sample.world
  = (redirect "/login", Sample.world).
Proof.
  exact (proj1 (unauthenticated_is_sent_to_login (rt := Sample.runtime)
                  Sample.env
                  {| method := "POST"; session := None; eventId := "ev_gala";
                     formData := [] |} Sample.world eq_refl) EventDeletion).
Defined.



(** [requireUser] with options.  Without options it is the plain check.
    A user comes back only if the session has one and, when roles are
    required, the user's role is among them; so an empty list of required
    roles lets nobody through.  Where the redirect target ([redirectTo],
    or the login page when none is given) is not the empty string, every
    refusal is a redirect to it and a user always comes back otherwise.
    With an empty [redirectTo] and no session there is no redirect: [null]
    comes back as the user when no roles are required, and reading
    [null.role] throws when they are. *)
Theorem requireUser_options_roles (request : Request)
    (options : option RequireUserOptions) :
  let target := default "/login" (options ≫= redirectTo) in
  requireUser_options request None = sum_map id Some (requireUser request) ∧
  (∀ user, requireUser_options request options = inr (Some user) →
     session request = Some user ∧
     ∀ roles, options ≫= requiredRoles = Some roles →
              SessionUser.role user ∈ roles) ∧
  (options ≫= requiredRoles = Some [] →
   ∀ u, requireUser_options request options ≠ inr u) ∧
  (target ≠ "" →
   requireUser_options request options ≠ inr None ∧
   ∀ r, requireUser_options request options = inl r → r = redirect target) ∧
  (target = "" → session request = None →
   requireUser_options request options
   = match options ≫= requiredRoles with
     | Some _ =>
         inl (throw_Error "Cannot read properties of null (reading 'role')")
     | None => inr None
     end).
Proof.
  intros target. unfold requireUser_options, requireUser. fold target.
  split; [|split; [|split; [|split]]].
  - simpl. by destruct (session request).
  - intros user. destruct (session request) as [u|].
    + destruct (options ≫= requiredRoles) as [roles|].
      * destruct (decide (SessionUser.role u ∈ roles)); [|done].
        intros [= <-]. split; [done|]. by intros ? [= <-].
      * intros [= <-]. split; [done|]. by intros ? [=].
    + destruct (decide (target = "")); [|done].
      by destruct (options ≫= requiredRoles).
  - intros -> u. destruct (session request) as [su|].
    + destruct (decide (SessionUser.role su ∈ [])) as [Hin|]; [|done].
      by apply not_elem_of_nil in Hin.
    + by destruct (decide (target = "")).
  - intros Hne. destruct (decide (target = "")); [done|].
    destruct (session request) as [u|]; [|split; [done|by intros r [= <-]]].
    destruct (options ≫= requiredRoles) as [roles|]; [|done].
    destruct (decide (SessionUser.role u ∈ roles)); [done|].
    split; [done|]. by intros r [= <-].
  - intros Heq ->. by destruct (decide (target = "")).
Qed.

(** Nobody is signed in and the options give an empty [redirectTo]: no
    redirect, [null] comes back. *)
Lemma requireUser_options_roles_witness :
  requireUser_options
    {| method := "GET"; session := None; eventId := "ev_gala";
       formData := [] |}
    (Some {| redirectTo := Some ""; requiredRoles := None |})
  = inr None.
Proof.
  exact (proj2 (proj2 (proj2 (proj2
           (requireUser_options_roles
              {| method := "GET"; session := None; eventId := "ev_gala";
                 formData := [] |}
              (Some {| redirectTo := Some ""; requiredRoles := None |})))))
         eq_refl eq_refl).
Defined.

(** ** The event page: uploads, unknown intents, repeated deletion *)

(** An upload without a usable file (no [photoFile] field, a text instead
    of a file, or an empty file) is answered 400 and nothing is stored or
    written. *)
Theorem upload_needs_a_file (env : Env) (request : Request) (w : World) :
  authorized request (db w) →
  FormData_get "intent" (formData request) = Some (FString "uploadPhoto") →
  match FormData_get "photoFile" (formData request) with
  | Some (FFile f) => File_size f = 0
  | _ => True
  end →
  let r := EventDetail.action env request w in
  status_of r.1 = 400 ∧
  error_of r.1 = Some "No file selected or file is empty." ∧
  r.2 = w.
Proof.
  intros Ha Hi Hf r.
  destruct (event_page_dispatch env request w Ha) as (user & _ & Hact).
  subst r. rewrite Hact, Hi. clear Hact. simpl.
  unfold EventDetail.uploadPhoto.
  destruct (FormData_get "photoFile" _) as [[t|f]|]; try done.
  by destruct (decide (File_size f = 0)).
Qed.

Lemma upload_needs_a_file_witness :
  status_of
    (EventDetail.action Sample.env
       (Sample.request_of Sample.alice "POST"
          [("intent", FString "uploadPhoto"); ("photoFile", FString "a.jpg")])
       Sample.world).1 = 400.
Proof.
  exact (proj1 (upload_needs_a_file Sample.env
                  (Sample.request_of Sample.alice "POST"
                     [("intent", FString "uploadPhoto");
                      ("photoFile", FString "a.jpg")])
                  Sample.world
                  ltac:(vm_compute; eexists; reflexivity) eq_refl I)).
Defined.

(** A successful upload, in order: the storage stub is called once, while
    the database is still as it was; then one EventPhoto row is added, which
    carries the URL the stub returned, the event, the signed-in user as
    uploader, review status PENDING and the private flag.  No other table
    changes. *)
Theorem upload_stores_then_records (env : Env) (request : Request)
    (w : World) (user : SessionUser.t) (file : File) :
  authorized request (db w) →
  session request = Some user →
  FormData_get "intent" (formData request) = Some (FString "uploadPhoto") →
  FormData_get "photoFile" (formData request) = Some (FFile file) →
  File_size file ≠ 0 →
  cuid env ∉ EventPhoto.id <$> eventPhotos (db w) →
  SessionUser.id user ∈ User.id <$> users (db w) →
  let r := EventDetail.action env request w in
  ∃ url row,
    status_of r.1 = 200 ∧
    calls r.2
      = (calls w
           ++ [(StorageUpload file ("events/" +:+ eventId request +:+ "/photos")
                  url, db w)])%list ∧
    db r.2 = with_eventPhotos (eventPhotos (db w) ++ [row])%list (db w) ∧
    EventPhoto.id row = cuid env ∧
    EventPhoto.eventId row = eventId request ∧
    EventPhoto.uploaderUserId row = SessionUser.id user ∧
    EventPhoto.imageUrl row = url ∧
    EventPhoto.uploadTime row = now env ∧
    EventPhoto.reviewStatus row = PhotoReviewStatus.PENDING ∧
    EventPhoto.isPublic row = false.
Proof.
  intros Ha Hs Hi Hf Hsize Hfresh Huser r.
  pose proof (authorized_inv _ _ Ha) as (_ & m & e & _ & _ & _ & He).
  apply event_findFirst_id in He.
  destruct (event_page_dispatch env request w Ha) as (user' & Hs' & Hact).
  assert (user' = user) as -> by congruence.
  subst r. rewrite Hact, Hi. clear Hact. simpl.
  unfold EventDetail.uploadPhoto. rewrite Hf.
  destruct (decide (File_size file = 0)); [done|].
  unfold uploadFileToStorage, prisma.eventPhoto.create. simpl.
  destruct (decide (cuid env ∈ _)); [done|].
  destruct (decide (_ ∧ _)) as [|Hno]; [|by destruct Hno].
  simpl. eexists _, _. repeat split.
Qed.

Lemma upload_stores_then_records_witness :
  let r :=
    EventDetail.action Sample.env
      (Sample.request_of Sample.alice "POST"
         [("intent", FString "uploadPhoto");
          ("photoFile", FFile {| File_name := "a b.jpg"; File_size := 10;
                                 File_type := "image/jpeg" |})])
      Sample.world in
  status_of r.1 = 200 ∧ length (eventPhotos (db r.2)) = 2%nat.
Proof.
  intros r.
  destruct (upload_stores_then_records Sample.env
              (Sample.request_of Sample.alice "POST"
                 [("intent", FString "uploadPhoto");
                  ("photoFile",
                   FFile {| File_name := "a b.jpg"; File_size := 10;
                            File_type := "image/jpeg" |})])
              Sample.world (SessionUser.of_user Sample.alice)
              {| File_name := "a b.jpg"; File_size := 10;
                 File_type := "image/jpeg" |}
              ltac:(vm_compute; eexists; reflexivity) eq_refl eq_refl eq_refl
              ltac:(discriminate)
              ltac:(vm_compute; intros Hin;
                    apply list_elem_of_singleton in Hin; discriminate)
              ltac:(vm_compute; left))
    as (url & row & Hst & _ & Hdb & _).
  split; [exact Hst|]. fold r in Hdb. by rewrite Hdb.
Defined.

(** When the row cannot be written after the file is stored (the generated
    id is taken, or the signed-in user's row is gone), the answer is 500 and
    the database is unchanged, but the call to the storage stub has been
    made: the stored file is left without a row. *)
Theorem upload_failure_leaves_the_file (env : Env) (request : Request)
    (w : World) (user : SessionUser.t) (file : File) :
  authorized request (db w) →
  session request = Some user →
  FormData_get "intent" (formData request) = Some (FString "uploadPhoto") →
  FormData_get "photoFile" (formData request) = Some (FFile file) →
  File_size file ≠ 0 →
  cuid env ∈ EventPhoto.id <$> eventPhotos (db w) ∨
  SessionUser.id user ∉ User.id <$> users (db w) →
  let r := EventDetail.action env request w in
  status_of r.1 = 500 ∧
  error_of r.1 = Some "Failed to upload photo. Please try again." ∧
  db r.2 = db w ∧
  ∃ url,
    calls r.2
      = (calls w
           ++ [(StorageUpload file ("events/" +:+ eventId request +:+ "/photos")
                  url, db w)])%list.
Proof.
  intros Ha Hs Hi Hf Hsize Hbad r.
  destruct (event_page_dispatch env request w Ha) as (user' & Hs' & Hact).
  assert (user' = user) as -> by congruence.
  subst r. rewrite Hact, Hi. clear Hact. simpl.
  unfold EventDetail.uploadPhoto. rewrite Hf.
  destruct (decide (File_size file = 0)); [done|].
  unfold uploadFileToStorage, prisma.eventPhoto.create. simpl.
  destruct (decide (cuid env ∈ _)) as [|Hfresh].
  - simpl. repeat split. by eexists.
  - destruct (decide (_ ∧ _)) as [[_ Hu]|].
    + destruct Hbad as [Hbad|Hbad]; [by destruct Hfresh|by destruct Hbad].
    + simpl. repeat split. by eexists.
Qed.

Lemma upload_failure_leaves_the_file_witness :
  let r :=
    EventDetail.action {| now := 9000; cuid := "ph_1" |}
      (Sample.request_of Sample.alice "POST"
         [("intent", FString "uploadPhoto");
          ("photoFile", FFile {| File_name := "a.jpg"; File_size := 10;
                                 File_type := "image/jpeg" |})])
      Sample.world in
  status_of r.1 = 500 ∧ db r.2 = Sample.store ∧ length (calls r.2) = 1%nat.
Proof.
  intros r.
  destruct (upload_failure_leaves_the_file {| now := 9000; cuid := "ph_1" |}
              (Sample.request_of Sample.alice "POST"
                 [("intent", FString "uploadPhoto");
                  ("photoFile",
                   FFile {| File_name := "a.jpg"; File_size := 10;
                            File_type := "image/jpeg" |})])
              Sample.world (SessionUser.of_user Sample.alice)
              {| File_name := "a.jpg"; File_size := 10;
                 File_type := "image/jpeg" |}
              ltac:(vm_compute; eexists; reflexivity) eq_refl eq_refl eq_refl
              ltac:(discriminate)
              ltac:(left; vm_compute; left))
    as (Hst & _ & Hdb & url & Hcalls).
  split; [exact Hst|]. split; [exact Hdb|]. fold r in Hcalls.
  by rewrite Hcalls.
Defined.

(** An [intent] other than the three the page knows (or none at all) is
    answered 400 with "Invalid intent", and nothing changes. *)
Theorem unknown_intent_is_rejected (env : Env) (request : Request)
    (w : World) :
  authorized request (db w) →
  FormData_get "intent" (formData request) ≠ Some (FString "uploadPhoto") →
  FormData_get "intent" (formData request) ≠ Some (FString "deletePhoto") →
  FormData_get "intent" (formData request)
    ≠ Some (FString "initiateFaceMatching") →
  let r := EventDetail.action env request w in
  status_of r.1 = 400 ∧ error_of r.1 = Some "Invalid intent" ∧ r.2 = w.
Proof.
  intros Ha H1 H2 H3 r.
  destruct (event_page_dispatch env request w Ha) as (user & _ & Hact).
  subst r. rewrite Hact. clear Hact. cbv zeta.
  destruct (decide _); [done|]. destruct (decide _); [done|].
  destruct (decide _); [done|]. done.
Qed.

Lemma unknown_intent_is_rejected_witness :
  error_of
    (EventDetail.action Sample.env
       (Sample.request_of Sample.alice "POST" [("intent", FString "rename")])
       Sample.world).1 = Some "Invalid intent".
Proof.
  exact (proj1 (proj2
           (unknown_intent_is_rejected Sample.env
              (Sample.request_of Sample.alice "POST"
                 [("intent", FString "rename")]) Sample.world
              ltac:(vm_compute; eexists; reflexivity)
              ltac:(discriminate) ltac:(discriminate) ltac:(discriminate)))).
Defined.

(** ** The event page: deleting a photo, starting the matching *)

(** the tables after the rows selected by [P] are deleted from EventPhoto *)
Lemma delete_eventPhotos_tables (P : EventPhoto.t → Prop)
    `{!∀ p, Decision (P p)} (s : Store) :
  let gone := EventPhoto.id <$> filter P (eventPhotos s) in
  let s' := Referential.delete_eventPhotos P s in
  eventPhotos s' = filter (λ p, ¬ P p) (eventPhotos s) ∧
  detectedFaces s'
    = filter (λ f, DetectedFace.photoId f ∉ gone) (detectedFaces s) ∧
  photoParticipantMatches s'
    = filter (λ m, PhotoParticipantMatch.photoId m ∉ gone)
        (photoParticipantMatches s) ∧
  users s' = users s ∧ organizations s' = organizations s ∧
  organizationUsers s' = organizationUsers s ∧ events s' = events s ∧
  participants s' = participants s ∧
  faceMatchingTasks s' = faceMatchingTasks s ∧
  consentLogs s' = consentLogs s.
Proof. repeat split. Qed.

(** the guard reads the memberships and the events only *)
Lemma authorized_same_tables (request : Request) (s s' : Store) :
  organizationUsers s' = organizationUsers s →
  events s' = events s →
  authorized request s → authorized request s'.
Proof.
  unfold authorized, member_event, prisma.organizationUser.findFirst,
    prisma.event.findFirst.
  by intros -> ->.
Qed.

(** Deleting a photo takes its detected faces and its matches with it and
    nothing else: the faces and matches of other photos, and every other
    table, are as before. *)
Theorem delete_photo_cascade (env : Env) (request : Request) (w : World)
    (photoId : string) (photo : EventPhoto.t) :
  authorized request (db w) →
  FormData_get "intent" (formData request) = Some (FString "deletePhoto") →
  FormData_get "photoId" (formData request) = Some (FString photoId) →
  photoId ≠ "" →
  prisma.eventPhoto.findFirst photoId (eventId request) (db w) = Some photo →
  let s := db w in
  let s' := db (EventDetail.action env request w).2 in
  eventPhotos s' = filter (λ p, EventPhoto.id p ≠ photoId) (eventPhotos s) ∧
  detectedFaces s'
    = filter (λ f, DetectedFace.photoId f ≠ photoId) (detectedFaces s) ∧
  photoParticipantMatches s'
    = filter (λ m, PhotoParticipantMatch.photoId m ≠ photoId)
        (photoParticipantMatches s) ∧
  users s' = users s ∧ organizations s' = organizations s ∧
  organizationUsers s' = organizationUsers s ∧ events s' = events s ∧
  participants s' = participants s ∧
  faceMatchingTasks s' = faceMatchingTasks s ∧
  consentLogs s' = consentLogs s.
Proof.
  intros Ha Hi Hp Hne Hf s s'.
  destruct (event_page_dispatch env request w Ha) as (user & _ & Hact).
  subst s s'. rewrite Hact, Hi. clear Hact. simpl.
  unfold EventDetail.deletePhoto. rewrite Hp.
  apply head_filter_Some in Hf as Hin. destruct Hin as [Hin [Hid _]].
  assert (photoId ∈ EventPhoto.id <$> eventPhotos (db w)) as Hmem
    by (rewrite <- Hid; by apply list_elem_of_fmap_2).
  destruct photoId as [|a rest]; [done|].
  rewrite Hf. unfold prisma.eventPhoto.delete.
  destruct (decide (String a rest ∈ _)); [|done].
  cbn [fst snd db with_db deleteFileFromStorage call].
  destruct (delete_eventPhotos_tables
              (λ p, EventPhoto.id p = String a rest) (db w))
    as (-> & -> & -> & Hrest).
  split; [done|].
  pose proof (one_key_singleton EventPhoto.id (eventPhotos (db w))
                (String a rest) Hmem) as Hgone.
  split; [|split; [|exact Hrest]].
  - apply filter_ext_in. intros f. rewrite Hgone.
    by rewrite list_elem_of_singleton.
  - apply filter_ext_in. intros f. rewrite Hgone.
    by rewrite list_elem_of_singleton.
Qed.

Lemma delete_photo_cascade_witness :
  let s' :=
    db (EventDetail.action Sample.env
          (Sample.request_of Sample.alice "POST"
             [("intent", FString "deletePhoto"); ("photoId", FString "ph_1")])
          Sample.world).2 in
  detectedFaces s' = [] ∧ photoParticipantMatches s' = [] ∧
  participants s' = [Sample.guest] ∧ consentLogs s' = [Sample.consent].
Proof.
  intros s'.
  destruct (delete_photo_cascade Sample.env
              (Sample.request_of Sample.alice "POST"
                 [("intent", FString "deletePhoto");
                  ("photoId", FString "ph_1")])
              Sample.world "ph_1" Sample.photo
              ltac:(vm_compute; eexists; reflexivity) eq_refl eq_refl
              ltac:(discriminate) eq_refl)
    as (_ & Hf & Hm & _ & _ & _ & _ & Hp & _ & Hc).
  fold s' in Hf, Hm, Hp, Hc. rewrite Hf, Hm, Hp, Hc. repeat split.
Defined.

(** After a photo has been deleted, the same request is answered 404 and
    changes nothing. *)
Theorem delete_photo_twice (env env' : Env) (request : Request) (w : World)
    (photoId : string) :
  authorized request (db w) →
  FormData_get "intent" (formData request) = Some (FString "deletePhoto") →
  FormData_get "photoId" (formData request) = Some (FString photoId) →
  status_of (EventDetail.action env request w).1 = 200 →
  let w1 := (EventDetail.action env request w).2 in
  status_of (EventDetail.action env' request w1).1 = 404 ∧
  (EventDetail.action env' request w1).2 = w1.
Proof.
  intros Ha Hi Hp Hok w1.
  destruct (event_page_dispatch env request w Ha) as (user & _ & Hact).
  assert (∃ a rest photo,
            photoId = String a rest ∧
            prisma.eventPhoto.findFirst photoId (eventId request) (db w)
              = Some photo ∧
            w1 = deleteFileFromStorage (EventPhoto.imageUrl photo)
                   (with_db (Referential.delete_eventPhotos
                               (λ p, EventPhoto.id p = photoId) (db w)) w))
    as (a & rest & photo & -> & Hf & Hw1).
  { subst w1. revert Hok. rewrite Hact, Hi. clear Hact. simpl.
    unfold EventDetail.deletePhoto. rewrite Hp.
    destruct photoId as [|a rest]; [done|].
    destruct (prisma.eventPhoto.findFirst _ _ _) as [photo|]; [|done].
    unfold prisma.eventPhoto.delete.
    destruct (decide (String a rest ∈ _)); [|done].
    intros _. by exists a, rest, photo. }
  assert (authorized request (db w1)) as Ha1.
  { rewrite Hw1. by apply (authorized_same_tables request (db w)). }
  destruct (event_page_dispatch env' request w1 Ha1) as (user' & _ & Hact').
  rewrite Hact', Hi. clear Hact Hact'. simpl.
  unfold EventDetail.deletePhoto. rewrite Hp.
  assert (prisma.eventPhoto.findFirst (String a rest) (eventId request)
            (db w1) = None) as ->.
  { apply head_filter_None. intros p Hin [Hid _]. rewrite Hw1 in Hin.
    cbn in Hin. apply list_elem_of_filter in Hin as [Hn _]. by apply Hn. }
  done.
Qed.

Lemma delete_photo_twice_witness :
  let request :=
    Sample.request_of Sample.alice "POST"
      [("intent", FString "deletePhoto"); ("photoId", FString "ph_1")] in
  let w1 := (EventDetail.action Sample.env request Sample.world).2 in
  status_of (EventDetail.action Sample.env request w1).1 = 404.
Proof.
  intros request w1.
  exact (proj1 (delete_photo_twice Sample.env Sample.env request Sample.world
                  "ph_1" ltac:(vm_compute; eexists; reflexivity)
                  eq_refl eq_refl eq_refl)).
Defined.

(** Whatever the request, the event page calls the compute stub only for
    the event of the route and with the id of a FaceMatchingTask row that is
    in the database the call sees, belongs to that event and is PENDING. *)
Theorem trigger_only_for_a_pending_task (env : Env) (request : Request)
    (w : World) :
  ∃ new,
    calls (EventDetail.action env request w).2 = (calls w ++ new)%list ∧
    Forall
      (λ cs, ∀ e t, cs.1 = LambdaTrigger e t →
         e = eventId request ∧
         ∃ k, k ∈ faceMatchingTasks cs.2 ∧
              FaceMatchingTask.id k = t ∧
              FaceMatchingTask.eventId k = e ∧
              FaceMatchingTask.status k = FaceMatchingTaskStatus.PENDING)
      new.
Proof.
  unfold EventDetail.action, EventDetail.uploadPhoto, EventDetail.deletePhoto,
    EventDetail.initiateFaceMatching, uploadFileToStorage.
  repeat case_match; simplify_eq; simpl;
    try (exists []; split; [by rewrite app_nil_r | by constructor]).
  all: eexists; split; [reflexivity|]; (constructor; [|constructor]); simpl.
  all: intros e' t' Hc; try discriminate Hc.
  injection Hc as <- <-. split; [done|].
  match goal with
  | H : prisma.faceMatchingTask.create ?row _ = Resolved _ |- _ =>
      exists row; unfold prisma.faceMatchingTask.create in H;
      repeat case_match; simplify_eq
  end.
  split; [|done]. simpl. apply elem_of_app. right. by left.
Qed.

(** If the task row cannot be written (the generated id is taken), face
    matching is answered 500, the compute stub is not called and nothing
    changes. *)
Theorem no_trigger_without_a_task (env : Env) (request : Request)
    (w : World) :
  authorized request (db w) →
  FormData_get "intent" (formData request)
    = Some (FString "initiateFaceMatching") →
  prisma.eventPhoto.count (eventId request) (db w) ≠ 0%nat →
  prisma.participant.count (eventId request) (db w) ≠ 0%nat →
  cuid env ∈ FaceMatchingTask.id <$> faceMatchingTasks (db w) →
  let r := EventDetail.action env request w in
  status_of r.1 = 500 ∧
  error_of r.1 = Some "Failed to initiate face matching. Please try again." ∧
  r.2 = w.
Proof.
  intros Ha Hi Hp Hq Hused r.
  destruct (event_page_dispatch env request w Ha) as (user & _ & Hact).
  subst r. rewrite Hact, Hi. clear Hact. simpl.
  unfold EventDetail.initiateFaceMatching.
  destruct (decide _); [done|]. destruct (decide _); [done|].
  unfold prisma.faceMatchingTask.create. simpl.
  by destruct (decide (cuid env ∈ _)).
Qed.

Lemma no_trigger_without_a_task_witness :
  let r :=
    EventDetail.action {| now := 9000; cuid := "ft_1" |}
      (Sample.request_of Sample.alice "POST"
         [("intent", FString "initiateFaceMatching")]) Sample.world in
  status_of r.1 = 500 ∧ r.2 = Sample.world.
Proof.
  intros r.
  destruct (no_trigger_without_a_task {| now := 9000; cuid := "ft_1" |}
              (Sample.request_of Sample.alice "POST"
                 [("intent", FString "initiateFaceMatching")]) Sample.world
              ltac:(vm_compute; eexists; reflexivity) eq_refl
              ltac:(vm_compute; discriminate) ltac:(vm_compute; discriminate)
              ltac:(vm_compute; left)) as (H1 & _ & H2).
  split; [exact H1|exact H2].
Defined.

(** ** Creating an event, and the list of events *)

Lemma EventNew_schema_success {rt : Runtime}
    (payload : gmap string FormDataEntryValue) (name dateStart : string) :
  EventNew.EventSchema payload = z.success (name, dateStart) →
  payload !! "name" = Some (FString name) ∧ name ≠ "" ∧
  payload !! "dateStart" = Some (FString dateStart) ∧
  is_Some (Date_parse dateStart).
Proof.
  unfold EventNew.EventSchema, z.string_min1, z.str.
  destruct (payload !! "name") as [[n|]|]; try done;
    destruct (payload !! "dateStart") as [[d|]|]; try done;
    destruct (decide (n = "")); try done;
    destruct (Date_parse d) eqn:Hd; try done.
  intros [= <- <-]. by rewrite Hd.
Qed.

(** A new event needs a name and a start date that [Date.parse] reads: a
    form whose name is absent, empty or a file, or whose start date is
    absent, a file or unreadable, is answered 400 and writes nothing. *)
Theorem new_event_needs_name_and_date {rt : Runtime} (env : Env)
    (request : Request) (w : World) (user : SessionUser.t)
    (m : OrganizationUser.t) :
  session request = Some user →
  prisma.organizationUser.findFirst (SessionUser.id user) (db w) = Some m →
  let payload := Object_fromEntries (formData request) in
  submitted payload "name" = None ∨ submitted payload "name" = Some "" ∨
  (submitted payload "dateStart" ≫= Date_parse) = None →
  status_of (EventNew.action env request w).1 = 400 ∧
  (EventNew.action env request w).2 = w.
Proof.
  intros Hs Hm payload Hbad.
  unfold EventNew.action, requireUser. rewrite Hs, Hm. fold payload.
  destruct (EventNew.EventSchema payload) as [[n d]|] eqn:Hparse; [|done].
  apply EventNew_schema_success in Hparse as (Hn & Hne & Hd & [t Ht]).
  unfold submitted in Hbad. rewrite Hn, Hd in Hbad. simpl in Hbad.
  rewrite Ht in Hbad. by destruct Hbad as [|[[= ->]|]].
Qed.

Lemma new_event_needs_name_and_date_witness :
  status_of
    (EventNew.action (H := Sample.runtime) Sample.env
       (Sample.request_of Sample.alice "POST"
          [("name", FString "Fair"); ("dateStart", FString "next spring")])
       Sample.world).1 = 400.
Proof.
  refine (proj1 (new_event_needs_name_and_date (rt := Sample.runtime)
                   Sample.env
                   (Sample.request_of Sample.alice "POST"
                      [("name", FString "Fair");
                       ("dateStart", FString "next spring")])
                   Sample.world (SessionUser.of_user Sample.alice)
                   Sample.alice_in_a eq_refl eq_refl _)).
  right. right. vm_compute. reflexivity.
Defined.

(** A valid form from a user whose membership rows all name one
    organization creates one event: it belongs to that organization, is a
    DRAFT, is private, has the submitted name and start date and no end
    date, description, location or category; no other table changes, and
    the answer is the redirect to the new event's page. *)
Theorem new_event_defaults {rt : Runtime} (env : Env) (request : Request)
    (w : World) (user : SessionUser.t) (orgId : Id)
    (name dateStart : string) :
  session request = Some user →
  only_membership (db w) (SessionUser.id user) orgId →
  EventNew.EventSchema (Object_fromEntries (formData request))
    = z.success (name, dateStart) →
  cuid env ∉ Event.id <$> events (db w) →
  orgId ∈ Organization.id <$> organizations (db w) →
  let r := EventNew.action env request w in
  ∃ row,
    r.1 = redirect ("/org/events/" +:+ cuid env) ∧
    calls r.2 = calls w ∧
    db r.2 = with_events (events (db w) ++ [row])%list (db w) ∧
    Event.id row = cuid env ∧
    Event.orgId row = orgId ∧
    Event.status row = EventStatus.DRAFT ∧
    Event.isPublic row = false ∧
    Event.name row = name ∧
    Date_parse dateStart = Some (Event.dateStart row) ∧
    Event.dateEnd row = None ∧ Event.description row = None ∧
    Event.locationName row = None ∧ Event.locationAddress row = None ∧
    Event.categoryId row = None.
Proof.
  intros Hs Hmem Hparse Hfresh Horg r. subst r.
  destruct (findFirst_membership _ _ _ Hmem) as [m [Hm Hmo]].
  unfold EventNew.action, requireUser. rewrite Hs, Hm, Hparse, Hmo.
  apply EventNew_schema_success in Hparse as (_ & _ & _ & [t Ht]).
  rewrite Ht. unfold prisma.event.create. simpl.
  destruct (decide (cuid env ∈ _)); [done|].
  destruct (decide (_ ∧ _)) as [|Hno]; [|by destruct Hno].
  simpl. eexists. repeat split.
Qed.

Lemma new_event_defaults_witness :
  let r :=
    EventNew.action (H := Sample.runtime) Sample.env
      (Sample.request_of Sample.alice "POST"
         [("name", FString "Fair"); ("dateStart", FString "2025-05-02")])
      Sample.world in
  r.1 = redirect "/org/events/c_new" ∧
  Event.status <$> events (db r.2)
  = [EventStatus.DRAFT; EventStatus.DRAFT] ∧
  Event.orgId <$> events (db r.2) = ["org_a"; "org_a"].
Proof.
  intros r.
  destruct (new_event_defaults (rt := Sample.runtime) Sample.env
              (Sample.request_of Sample.alice "POST"
                 [("name", FString "Fair");
                  ("dateStart", FString "2025-05-02")])
              Sample.world (SessionUser.of_user Sample.alice)
              "org_a" "Fair" "2025-05-02" eq_refl
              ltac:(vm_compute; split;
                    [left; reflexivity
                    |repeat constructor; intros; congruence])
              ltac:(vm_compute; reflexivity)
              ltac:(vm_compute; intros Hin;
                    apply list_elem_of_singleton in Hin; discriminate)
              ltac:(vm_compute; left))
    as (row & Hr & _ & Hdb & _ & Horg & Hst & _).
  split; [exact Hr|]. fold r in Hdb. rewrite Hdb. simpl.
  by rewrite Hst, Horg.
Defined.

Lemma dateStart_desc_total : Total prisma.event.dateStart_desc.
Proof. intros a b. unfold prisma.event.dateStart_desc. lia. Qed.

Lemma dateStart_desc_trans : Transitive prisma.event.dateStart_desc.
Proof. intros a b c. unfold prisma.event.dateStart_desc. lia. Qed.

(** The list of events shows a user whose membership rows all name one
    organization the events of that organization, all of them and no
    other, latest start first. *)
Theorem events_index_is_the_tenant's {rt : Runtime} (request : Request)
    (s : Store) (user : SessionUser.t) (orgId : Id) :
  session request = Some user →
  only_membership s (SessionUser.id user) orgId →
  ∃ l,
    EventsIndex.loader request s
      = json (JObj {[ "events" := JArr (EventsIndex.event_toJson <$> l) ]})
             200 ∧
    l ≡ₚ filter (λ e, Event.orgId e = orgId) (events s) ∧
    Forall (λ e, Event.orgId e = orgId) l ∧
    StronglySorted prisma.event.dateStart_desc l.
Proof.
  intros Hs Hmem.
  destruct (findFirst_membership _ _ _ Hmem) as [m [Hm Hmo]].
  exists (prisma.event.findMany orgId s).
  split; [unfold EventsIndex.loader, requireUser; by rewrite Hs, Hm, Hmo|].
  unfold prisma.event.findMany.
  pose proof (merge_sort_Permutation prisma.event.dateStart_desc
                (filter (λ e, Event.orgId e = orgId) (events s))) as Hperm.
  split; [exact Hperm|]. split.
  - rewrite Hperm. apply Forall_forall. intros e He.
    by apply list_elem_of_filter in He as [? _].
  - apply StronglySorted_merge_sort;
      [apply dateStart_desc_trans | apply dateStart_desc_total].
Qed.

Lemma events_index_is_the_tenant's_witness :
  status_of
    (EventsIndex.loader (H := Sample.runtime)
       (Sample.request_of Sample.alice "GET" []) Sample.store) = 200.
Proof.
  destruct (events_index_is_the_tenant's (rt := Sample.runtime)
              (Sample.request_of Sample.alice "GET" []) Sample.store
              (SessionUser.of_user Sample.alice) "org_a" eq_refl
              ltac:(vm_compute; split;
                    [left; reflexivity
                    |repeat constructor; intros; congruence]))
    as (l & Hl & _).
  rewrite Hl. reflexivity.
Defined.

(** ** The life of an event: created, read, updated, deleted *)

Lemma filter_all_False {A} (P : A → Prop) `{!∀ x, Decision (P x)}
    (l : list A) :
  (∀ x, x ∈ l → ¬ P x) → filter P l = [].
Proof.
  induction l as [|a l IH]; [done|]. intros Hall.
  rewrite filter_cons_False by (apply Hall; left).
  apply IH. intros x Hx. apply Hall. by right.
Qed.

(** A created event is there for its organization: the page the creation
    redirects to answers 200 with the new row, and the list of events
    shows it. *)
Theorem created_event_is_served {rt : Runtime} (env : Env)
    (request request' : Request) (w : World) :
  (EventNew.action env request w).1
    = redirect ("/org/events/" +:+ cuid env) →
  cuid env ≠ "" →
  session request' = session request →
  eventId request' = cuid env →
  let s' := db (EventNew.action env request w).2 in
  ∃ row,
    Event.id row = cuid env ∧
    EventDetail.loader request' s'
      = json (JObj {[ "event" := EventDetail.formattedEvent row s' ]}) 200 ∧
    ∃ l, EventsIndex.loader request' s'
           = json (JObj {[ "events" :=
                             JArr (EventsIndex.event_toJson <$> l) ]}) 200 ∧
         row ∈ l.
Proof.
  intros Hr Hne Hses Heid s'. subst s'. revert Hr.
  unfold EventNew.action, EventDetail.loader, EventsIndex.loader,
    requireUser, invariant_eventId, prisma.event.findUnique.
  rewrite Hses, Heid.
  destruct (session request) as [user|]; [|simpl; discriminate].
  destruct (prisma.organizationUser.findFirst _ (db w)) as [m|] eqn:Hm;
    [|discriminate].
  destruct (EventNew.EventSchema _) as [[n d]|]; [|discriminate].
  destruct (Date_parse d) as [start|]; [|discriminate].
  unfold prisma.event.create. simpl.
  destruct (decide (cuid env ∈ _)) as [|Hfresh]; [discriminate|].
  destruct (decide (_ ∧ _)); [|discriminate]. simpl. intros _.
  destruct (decide (cuid env = "")); [done|].
  assert (prisma.organizationUser.findFirst (SessionUser.id user)
            (with_events
               (events (db w) ++
                [{| Event.id := cuid env;
                    Event.orgId := OrganizationUser.orgId m;
                    Event.categoryId := None; Event.name := n;
                    Event.dateStart := start; Event.dateEnd := None;
                    Event.status := EventStatus.DRAFT;
                    Event.description := None; Event.locationName := None;
                    Event.locationAddress := None; Event.isPublic := false;
                    Event.createdAt := now env;
                    Event.updatedAt := now env |}])%list (db w))
          = Some m) as -> by done.
  eexists. split; [|split].
  2:{ unfold prisma.event.findFirst. simpl. rewrite filter_app.
      rewrite filter_all_False; last first.
      { intros e He [Hid _]. apply Hfresh.
        rewrite <- Hid. by apply list_elem_of_fmap_2. }
      rewrite filter_cons_True by done. simpl. reflexivity. }
  - done.
  - eexists. split; [reflexivity|].
    unfold prisma.event.findMany.
    rewrite merge_sort_Permutation. simpl. rewrite filter_app.
    apply elem_of_app. right. rewrite filter_cons_True by done. left.
Qed.

Lemma created_event_is_served_witness :
  status_of
    (EventDetail.loader (H := Sample.runtime)
       {| method := "GET";
          session := Some (SessionUser.of_user Sample.alice);
          eventId := "c_new"; formData := [] |}
       (db (EventNew.action (H := Sample.runtime) Sample.env
              (Sample.request_of Sample.alice "POST"
                 [("name", FString "Fair");
                  ("dateStart", FString "2025-05-02")])
              Sample.world).2)) = 200.
Proof.
  destruct (created_event_is_served (rt := Sample.runtime) Sample.env
              (Sample.request_of Sample.alice "POST"
                 [("name", FString "Fair");
                  ("dateStart", FString "2025-05-02")])
              {| method := "GET";
                 session := Some (SessionUser.of_user Sample.alice);
                 eventId := "c_new"; formData := [] |}
              Sample.world ltac:(vm_compute; reflexivity)
              ltac:(vm_compute; discriminate) eq_refl eq_refl)
    as (row & _ & Hload & _).
  rewrite Hload. reflexivity.
Defined.

(** an operation on an event the member's organization does not have *)
Lemma missing_event_is_404 {rt : Runtime} (op : Operation) (env : Env)
    (request : Request) (w : World) (user : SessionUser.t)
    (m : OrganizationUser.t) :
  session request = Some user →
  eventId request ≠ "" →
  prisma.organizationUser.findFirst (SessionUser.id user) (db w) = Some m →
  prisma.event.findFirst (eventId request) (OrganizationUser.orgId m) (db w)
    = None →
  earlier_guards op request →
  status_of (perform op env request w).1 = 404 ∧
  (perform op env request w).2 = w.
Proof.
  intros Hses Hne Hm Hnone Hguard.
  destruct op; simpl in *;
    unfold EventDetail.loader, EventEdit.loader, EventEdit.action,
      EventDelete.action, EventDetail.action, ParticipantsLayout.loader,
      ParticipantsIndex.loader, ParticipantNew.action, requireUser,
      invariant_eventId, prisma.event.findUnique;
    rewrite Hses; (destruct (decide (eventId request = "")); [done|]);
    rewrite ?Hm, ?Hnone; simpl; try done.
  - destruct Hguard as [data ->]. by rewrite ?Hnone.
  - destruct (decide (method request ≠ "POST")); [done|].
    by rewrite ?Hm, ?Hnone.
Qed.

(** what a deletion that answers with the redirect has done *)
Lemma event_delete_success (request : Request) (w : World) :
  (EventDelete.action request w).1 = redirect "/org/events" →
  ∃ user m e,
    session request = Some user ∧ eventId request ≠ "" ∧
    prisma.organizationUser.findFirst (SessionUser.id user) (db w) = Some m ∧
    prisma.event.findFirst (eventId request) (OrganizationUser.orgId m) (db w)
      = Some e ∧
    (EventDelete.action request w).2
      = with_db
          (Referential.delete_events
             (λ e, Event.id e = eventId request ∧
                   Event.orgId e = OrganizationUser.orgId m) (db w)) w.
Proof.
  unfold EventDelete.action, requireUser, invariant_eventId.
  destruct (session request) as [user|]; [|discriminate].
  destruct (decide (eventId request = "")) as [|Hne]; [discriminate|].
  destruct (decide (method request ≠ "POST")); [discriminate|].
  destruct (prisma.organizationUser.findFirst _ (db w)) as [m|] eqn:Hm;
    [|discriminate].
  destruct (prisma.event.findFirst _ _ (db w)) as [e|] eqn:He;
    [|discriminate].
  unfold prisma.event.delete. rewrite He. simpl. intros _.
  by exists user, m, e.
Qed.

(** Once a member has deleted an event, the id is gone for everybody who
    belongs to an organization: whatever operation is addressed to it
    afterwards is answered 404, once past the checks made before the
    look-up, and changes nothing. *)
Theorem deleted_event_is_gone {rt : Runtime} (op : Operation) (env : Env)
    (request request' : Request) (w : World) (user' : SessionUser.t) :
  Store_ok (db w) →
  (EventDelete.action request w).1 = redirect "/org/events" →
  session request' = Some user' →
  is_Some (prisma.organizationUser.findFirst (SessionUser.id user') (db w)) →
  eventId request' = eventId request →
  earlier_guards op request' →
  let w' := (EventDelete.action request w).2 in
  status_of (perform op env request' w').1 = 404 ∧
  (perform op env request' w').2 = w'.
Proof.
  intros Hok Hr Hses' [m' Hm'] Heid Hguard w'. subst w'.
  apply event_delete_success in Hr
    as (user & m & e & Hses & Hne & Hm & He & ->).
  apply (missing_event_is_404 op env request' _ user' m'); try done.
  - by rewrite Heid.
  - rewrite Heid. apply findFirst_absent_event.
    apply Forall_forall. intros x Hx Hid. cbn [db with_db] in Hx.
    pose proof (delete_events_tables
                  (λ e0, Event.id e0 = eventId request ∧
                         Event.orgId e0 = OrganizationUser.orgId m) (db w))
      as (Hev & _).
    cbv zeta in Hev. rewrite Hev in Hx.
    apply list_elem_of_filter in Hx as [Hnot Hx]. apply Hnot.
    apply head_filter_Some in He as [He [He1 He2]].
    assert (x = e) as ->
      by (eapply NoDup_fmap_eq; [apply (events_id _ Hok)|done..|congruence]).
    done.
Qed.

Lemma deleted_event_is_gone_witness :
  status_of
    (perform (H := Sample.runtime) ParticipantCreation Sample.env
       (Sample.request_of Sample.bob "POST" [])
       (EventDelete.action (Sample.request_of Sample.alice "POST" [])
          Sample.world).2).1 = 404.
Proof.
  refine (proj1 (deleted_event_is_gone (rt := Sample.runtime)
                   ParticipantCreation Sample.env
                   (Sample.request_of Sample.alice "POST" [])
                   (Sample.request_of Sample.bob "POST" []) Sample.world
                   (SessionUser.of_user Sample.bob) sample_store_ok
                   ltac:(vm_compute; reflexivity) eq_refl
                   ltac:(vm_compute; eexists; reflexivity) eq_refl I)).
Defined.


Lemma Forall2_fmap_diag {A B} (P : A → B → Prop) (f : A → B) (l : list A) :
  (∀ x, P x (f x)) → Forall2 P l (f <$> l).
Proof. intros Hall. induction l; constructor; auto. Qed.

(** An update that answers with the redirect touches nothing but the
    events: the other tables and the recorded calls are as before, the
    events are as many and in the same places, every event keeps its id,
    organization, category and creation time, and an event with another id
    is the row it was. *)
Theorem update_event_frame {rt : Runtime} (env : Env) (request : Request)
    (w : World) :
  (EventEdit.action env request w).1
    = redirect ("/org/events/" +:+ eventId request) →
  let w' := (EventEdit.action env request w).2 in
  calls w' = calls w ∧
  db w' = with_events (events (db w')) (db w) ∧
  Forall2 (λ e e',
             Event.id e' = Event.id e ∧ Event.orgId e' = Event.orgId e ∧
             Event.categoryId e' = Event.categoryId e ∧
             Event.createdAt e' = Event.createdAt e ∧
             (Event.id e ≠ eventId request → e' = e))
          (events (db w)) (events (db w')).
Proof.
  unfold EventEdit.action, requireUser, invariant_eventId.
  destruct (session request) as [user|]; [|simpl; discriminate].
  destruct (decide (eventId request = "")); [discriminate|].
  destruct (prisma.organizationUser.findFirst _ (db w)) as [m|];
    [|discriminate].
  destruct (EventEdit.EventSchema _) as [data|]; [|discriminate].
  destruct (prisma.event.findFirst _ _ (db w)) as [e|]; [|discriminate].
  destruct (EventEdit.update_data data) as [input|]; [|discriminate].
  unfold prisma.event.update.
  destruct (decide (eventId request ∈ _)); [|discriminate].
  simpl. intros _. split; [done|]. split; [destruct w as [s c]; by destruct s|].
  apply Forall2_fmap_diag.
  intros x. by destruct (decide (Event.id x = eventId request)).
Qed.

Lemma update_event_frame_witness :
  let w' :=
    (EventEdit.action (H := Sample.runtime) Sample.env
       (Sample.request_of Sample.alice "POST"
          [("name", FString "Gala"); ("dateStart", FString "2025-05-02");
           ("status", FString "ACTIVE")])
       Sample.world).2 in
  participants (db w') = participants Sample.store ∧
  Event.id <$> events (db w') = ["ev_gala"].
Proof.
  intros w'.
  destruct (update_event_frame (rt := Sample.runtime) Sample.env
              (Sample.request_of Sample.alice "POST"
                 [("name", FString "Gala");
                  ("dateStart", FString "2025-05-02");
                  ("status", FString "ACTIVE")])
              Sample.world ltac:(vm_compute; reflexivity))
    as (_ & Hdb & _).
  fold w' in Hdb. split; [by rewrite Hdb|]. vm_compute. reflexivity.
Defined.

(** ** Participants *)

(** A participant needs a name and an address that [isEmail] accepts: a
    form whose name is absent, empty or a file, or whose email is absent, a
    file or not an address, is answered 400 and writes nothing. *)
Theorem participant_needs_name_and_email {rt : Runtime} (env : Env)
    (request : Request) (w : World) :
  authorized request (db w) →
  let payload := Object_fromEntries (formData request) in
  submitted payload "name" = None ∨ submitted payload "name" = Some "" ∨
  (∀ e, submitted payload "email" = Some e → isEmail e = false) →
  status_of (ParticipantNew.action env request w).1 = 400 ∧
  (ParticipantNew.action env request w).2 = w.
Proof.
  intros Ha payload Hbad.
  rewrite (participant_new_dispatch env request w Ha). fold payload.
  destruct (ParticipantNew.ParticipantSchema payload) as [[n e]|] eqn:Hparse;
    [|done].
  apply ParticipantSchema_success in Hparse as (Hn & Hne & He & Hmail).
  unfold submitted in Hbad. rewrite Hn, He in Hbad. simpl in Hbad.
  destruct Hbad as [|[[= ->]|Hbad]]; [done..|].
  specialize (Hbad e eq_refl). congruence.
Qed.

Lemma participant_needs_name_and_email_witness :
  status_of
    (ParticipantNew.action (H := Sample.runtime) Sample.env
       (Sample.request_of Sample.alice "POST"
          [("name", FString "Carol"); ("email", FString "carol")])
       Sample.world).1 = 400.
Proof.
  refine (proj1 (participant_needs_name_and_email (rt := Sample.runtime)
                   Sample.env
                   (Sample.request_of Sample.alice "POST"
                      [("name", FString "Carol"); ("email", FString "carol")])
                   Sample.world ltac:(vm_compute; eexists; reflexivity) _)).
  right. right. vm_compute. intros e [= <-]. reflexivity.
Defined.

(** what an addition that answers with the redirect has done *)
Lemma participant_new_success {rt : Runtime} (env : Env) (request : Request)
    (w : World) :
  (ParticipantNew.action env request w).1
    = redirect ("/org/events/" +:+ eventId request +:+ "/participants") →
  ∃ name email row,
    authorized request (db w) ∧
    ParticipantNew.ParticipantSchema (Object_fromEntries (formData request))
      = z.success (name, email) ∧
    Participant.id row = cuid env ∧
    Participant.eventId row = eventId request ∧
    Participant.email row = Some email ∧
    (ParticipantNew.action env request w).2
      = with_db (with_participants (participants (db w) ++ [row])%list (db w))
                w.
Proof.
  unfold authorized, member_event.
  unfold ParticipantNew.action, requireUser, invariant_eventId,
    ParticipantNew.form_error.
  destruct (session request) as [user|];
    [|intros Hr; by destruct (login_is_not_the_list _ Hr)].
  destruct (decide (eventId request = "")); [done|].
  destruct (prisma.organizationUser.findFirst _ _) as [m|]; [|done].
  destruct (prisma.event.findFirst _ _ _) as [e|]; [|done].
  destruct (ParticipantNew.ParticipantSchema _) as [[name email]|]; [|done].
  destruct (prisma.participant.findFirst _ _ _); [done|].
  unfold prisma.participant.create.
  destruct (decide (_ ∈ _)); [done|]. destruct (decide _); [|done].
  intros _. simpl.
  exists name, email,
    {| Participant.id := cuid env;
       Participant.eventId := eventId request;
       Participant.userId := None;
       Participant.name := Some name;
       Participant.email := Some email;
       Participant.registrationStatus := Some "Invited";
       Participant.consentStatus := false;
       Participant.referencePhotoUrl := None;
       Participant.createdAt := now env;
       Participant.updatedAt := now env |}.
  split; [by eexists|]. done.
Qed.

(** A participant is added once: after an addition that answered with the
    redirect, the same form for the same event is answered 400 with the
    duplicate-email error, whoever of the organization sends it and
    whenever, and the second request writes nothing. *)
Theorem participant_added_once {rt : Runtime} (env env' : Env)
    (request : Request) (w : World) :
  (ParticipantNew.action env request w).1
    = redirect ("/org/events/" +:+ eventId request +:+ "/participants") →
  let w' := (ParticipantNew.action env request w).2 in
  let r := ParticipantNew.action env' request w' in
  status_of r.1 = 400 ∧
  field_error_of "email" r.1
    = Some (JStr "A participant with this email already exists for this event.") ∧
  r.2 = w'.
Proof.
  intros Hr w' r. subst r w'.
  apply participant_new_success in Hr
    as (name & email & row & Ha & Hparse & _ & Hev & Hem & ->).
  assert (authorized request
            (db (with_db
                   (with_participants (participants (db w) ++ [row])%list
                      (db w)) w))) as Ha' by exact Ha.
  rewrite (participant_new_dispatch env' request _ Ha'), Hparse.
  destruct (head_filter_is_Some
              (λ q, Participant.eventId q = eventId request ∧
                    Participant.email q = Some email)
              (participants (db w) ++ [row])%list row
              ltac:(apply elem_of_app; right; left) (conj Hev Hem))
    as [q Hq].
  unfold prisma.participant.findFirst. cbn [db with_db participants
    with_participants]. rewrite Hq. done.
Qed.

Lemma participant_added_once_witness :
  let w' :=
    (ParticipantNew.action (H := Sample.runtime) Sample.env
       (Sample.request_of Sample.alice "POST"
          [("name", FString "Carol"); ("email", FString "c@example.com")])
       Sample.world).2 in
  status_of
    (ParticipantNew.action (H := Sample.runtime) Sample.env
       (Sample.request_of Sample.alice "POST"
          [("name", FString "Carol"); ("email", FString "c@example.com")])
       w').1 = 400.
Proof.
  refine (proj1 (participant_added_once (rt := Sample.runtime) Sample.env
                   Sample.env
                   (Sample.request_of Sample.alice "POST"
                      [("name", FString "Carol");
                       ("email", FString "c@example.com")])
                   Sample.world ltac:(vm_compute; reflexivity))).
Defined.

Lemma createdAt_asc_total : Total prisma.participant.createdAt_asc.
Proof. intros a b. unfold prisma.participant.createdAt_asc. lia. Qed.

Lemma createdAt_asc_trans : Transitive prisma.participant.createdAt_asc.
Proof. intros a b c. unfold prisma.participant.createdAt_asc. lia. Qed.

(** The list of participants shows a member of the owning organization the
    participants of the event of the route, all of them and no other,
    earliest created first. *)
Theorem participants_index_is_the_event's (request : Request) (s : Store) :
  authorized request s →
  ∃ l,
    ParticipantsIndex.loader request s
      = json (JObj {[ "participants" :=
                        JArr (ParticipantsIndex.participant_toJson <$> l) ]})
             200 ∧
    l ≡ₚ filter (λ p, Participant.eventId p = eventId request)
           (participants s) ∧
    Forall (λ p, Participant.eventId p = eventId request) l ∧
    StronglySorted prisma.participant.createdAt_asc l.
Proof.
  intros Ha. apply authorized_inv in Ha as (user & m & e & Hs & Hne & Hm & He).
  exists (prisma.participant.findMany (eventId request) s). split.
  { unfold ParticipantsIndex.loader, requireUser, invariant_eventId.
    rewrite Hs. destruct (decide (eventId request = "")); [done|].
    by rewrite Hm, He. }
  unfold prisma.participant.findMany.
  pose proof (merge_sort_Permutation prisma.participant.createdAt_asc
                (filter (λ p, Participant.eventId p = eventId request)
                        (participants s))) as Hperm.
  split; [exact Hperm|]. split.
  - rewrite Hperm. apply Forall_forall. intros p Hp.
    by apply list_elem_of_filter in Hp as [? _].
  - apply StronglySorted_merge_sort;
      [apply createdAt_asc_trans | apply createdAt_asc_total].
Qed.

Lemma participants_index_is_the_event's_witness :
  status_of
    (ParticipantsIndex.loader (Sample.request_of Sample.alice "GET" [])
       Sample.store) = 200.
Proof.
  destruct (participants_index_is_the_event's
              (Sample.request_of Sample.alice "GET" []) Sample.store
              ltac:(vm_compute; eexists; reflexivity)) as (l & Hl & _).
  rewrite Hl. reflexivity.
Defined.

(** ** Signing in *)

(** Who is signed in: when the login answers with the session redirect, the
    redirect goes to /org, the form carried an email and a password, the
    session's user is built from a User row with that email, and [bcrypt]
    accepted the password against that row's hash; where emails are unique
    the row is the only one with the email. *)
Theorem login_signs_in_the_password_owner {rt : Runtime} (form : FormData)
    (s : Store) (url : string) (su : SessionUser.t) :
  Login.action form s = redirect_session url su →
  url = "/org" ∧
  ∃ email password u,
    FormData_get "email" form = Some (FString email) ∧
    FormData_get "password" form = Some password ∧
    u ∈ users s ∧ User.email u = email ∧
    bcrypt_compare password (User.passwordHash u) = inr true ∧
    su = SessionUser.of_user u ∧
    (Store_ok s → ∀ u', u' ∈ users s → User.email u' = email → u' = u).
Proof.
  unfold Login.action, AuthService.verify.
  destruct (FormData_get "email" form) as [[email|f]|] eqn:He;
    destruct (FormData_get "password" form) as [password|] eqn:Hp;
    try (repeat case_match; discriminate).
  destruct email as [|a email']; [by repeat case_match|].
  destruct (prisma.user.findUnique _ s) as [u|] eqn:Hu;
    [|repeat case_match; discriminate].
  destruct (bcrypt_compare password (User.passwordHash u)) as [msg|[|]] eqn:Hc;
    try (repeat case_match; discriminate).
  destruct password as [[|b pw]|f]; try discriminate.
  all: intros [= <- <-]; split; [done|].
  all: apply head_filter_Some in Hu as [Hin Hmail].
  all: eexists _, _, u; repeat split; try done.
  all: intros Hok u' Hin' Hmail'.
  all: eapply NoDup_fmap_eq;
    [apply (users_email _ Hok)|done..|congruence].
Qed.

Lemma login_signs_in_the_password_owner_witness :
  ∃ u, u ∈ users Sample.store ∧ User.email u = "alice@a.example".
Proof.
  destruct (login_signs_in_the_password_owner (rt := Sample.runtime)
              [("email", FString "alice@a.example");
               ("password", FString "wonderland")]
              Sample.store "/org" (SessionUser.of_user Sample.alice)
              ltac:(vm_compute; reflexivity))
    as (_ & email & password & u & He & _ & Hin & Hmail & _).
  injection He as <-. by exists u.
Defined.



(** A login form that lacks the email or the password, or has one of them
    empty, is refused with "Email and password are required." and status
    401, whatever the database holds: no user is looked up. *)
Theorem login_needs_both_fields {rt : Runtime} (form : FormData)
    (s : Store) :
  FormData_get "email" form = None ∨
  FormData_get "email" form = Some (FString "") ∨
  FormData_get "password" form = None ∨
  FormData_get "password" form = Some (FString "") →
  Login.action form s = flash_error "Email and password are required." 401.
Proof.
  unfold Login.action, AuthService.verify.
  intros [-> | [-> | [-> | ->]]]; try done;
    by destruct (FormData_get "email" form) as [[[|]|]|].
Qed.

Lemma login_needs_both_fields_witness :
  Login.action (H := Sample.runtime)
    [("email", FString "alice@a.example")] Sample.store
  = flash_error "Email and password are required." 401.
Proof.
  refine (login_needs_both_fields (rt := Sample.runtime)
            [("email", FString "alice@a.example")] Sample.store _).
  right. right. left. reflexivity.
Defined.

(** ** What the schema's relations do when a user or an organization goes *)


Lemma fmap_ext_all {A B} (f g : A → B) (l : list A) :
  (∀ x, f x = g x) → f <$> l = g <$> l.
Proof. intros Hfg. induction l; simpl; by f_equal. Qed.



(** Deleting an organization takes with it its memberships and its events,
    and with the events their participants, photos and face-matching
    tasks; the users stay, and so does every audit row. *)
Theorem organization_delete_cascade (id : Id) (s s' : Store) :
  prisma.organization.delete id s = Resolved s' →
  let gone := Event.id <$> filter (λ e, Event.orgId e = id) (events s) in
  organizations s' = filter (λ o, Organization.id o ≠ id) (organizations s) ∧
  organizationUsers s'
    = filter (λ m, OrganizationUser.orgId m ≠ id) (organizationUsers s) ∧
  events s' = filter (λ e, Event.orgId e ≠ id) (events s) ∧
  participants s'
    = filter (λ p, Participant.eventId p ∉ gone) (participants s) ∧
  eventPhotos s'
    = filter (λ p, EventPhoto.eventId p ∉ gone) (eventPhotos s) ∧
  faceMatchingTasks s'
    = filter (λ k, FaceMatchingTask.eventId k ∉ gone) (faceMatchingTasks s) ∧
  users s' = users s ∧
  ConsentLog.id <$> consentLogs s' = ConsentLog.id <$> consentLogs s.
Proof.
  unfold prisma.organization.delete.
  destruct (decide (id ∈ Organization.id <$> organizations s)) as [Hin|];
    [|done].
  intros [= <-]. cbv zeta.
  pose proof (gone_one_key Organization.id (organizations s) id Hin) as Hgone.
  unfold Referential.delete_organizations, Referential.organizations_gone.
  set (orgs := Organization.id
                 <$> filter (λ o, Organization.id o = id) (organizations s))
    in *.
  match goal with
  | |- context [Referential.delete_events ?P ?s1] =>
      pose proof (delete_events_tables P s1)
        as (Hev & Hpa & Hph & Hta & _ & _ & Hlog & Hus & Hor & Hme)
  end.
  cbv zeta in Hev, Hpa, Hph, Hta, Hlog.
  rewrite Hev, Hpa, Hph, Hta, Hlog, Hus, Hor, Hme.
  cbn -[filter fmap elem_of orgs].
  assert (filter (λ e, Event.orgId e ∈ orgs) (events s)
          = filter (λ e, Event.orgId e = id) (events s)) as ->
    by (apply filter_ext_in; intros e; apply Hgone).
  repeat split.
  - apply filter_ext_in. intros m. by rewrite Hgone.
  - apply filter_ext_in. intros e. by rewrite Hgone.
  - rewrite <- !list_fmap_compose. apply fmap_ext_all. intros c. simpl.
    by rewrite clear_event_id, clear_participant_id.
Qed.

Lemma organization_delete_cascade_witness :
  ∃ s',
    prisma.organization.delete "org_a" Sample.store = Resolved s' ∧
    events s' = [] ∧ users s' = users Sample.store.
Proof.
  eexists. split; [reflexivity|].
  destruct (organization_delete_cascade "org_a" Sample.store _ eq_refl)
    as (_ & _ & He & _ & _ & _ & Hu & _).
  split; [rewrite He; vm_compute; reflexivity | exact Hu].
Defined.

(** ** The storage stub's file names *)

Lemma chars_app (s t : string) : chars (s +:+ t) = (chars s ++ chars t)%list.
Proof. induction s as [|a s IH]; simpl; [done|]. by rewrite IH. Qed.

Lemma chars_inj (s t : string) : chars s = chars t → s = t.
Proof.
  revert t. induction s as [|a s IH]; intros [|b t]; simpl; try done.
  intros [= -> Heq]. f_equal. by apply IH.
Qed.









(** a name with a no-break space (U+00A0), an em space (U+2003) and a run
    of a blank and a tab *)
Example stored_name_of_unicode_spaces :
  replace_spaces 0 false
    (String.string_of_list_ascii
       ["a"; "194"; "160"; "b"; "226"; "128"; "131"; " "; "009"; "c"]%char)
  = "a_b_c".
Proof. vm_compute. reflexivity. Qed.

(** The time stamp tells uploads apart: the same file under the same prefix
    gets the same URL exactly when the clock shows the same millisecond. *)
Theorem upload_url_tells_times_apart (env env' : Env) (file : File)
    (pathPrefix : string) (w w' : World) :
  (uploadFileToStorage env file pathPrefix w).1
    = (uploadFileToStorage env' file pathPrefix w').1
  ↔ now env = now env'.
Proof.
  unfold uploadFileToStorage. cbn [fst]. split; [|by intros ->].
  intros Heq. apply (f_equal chars) in Heq.
  rewrite !chars_app in Heq.
  repeat apply app_inv_head in Heq.
  apply app_inv_tail in Heq. apply chars_inj in Heq.
  by apply (inj pretty) in Heq.
Qed.

(** ** From the login to the organization's pages *)


